(** * yalebook: the PDF flipbook viewer of [app.js]

    A shallow embedding of the viewer's state and of the functions that
    decide its page layout, render cache, navigation, search cursor and
    device-class handling, with the properties proved about them.

    Conventions of the embedding.
    - JavaScript numbers that the code keeps integral (page numbers, pixel
      sizes after [Math.floor], indices) are [Z]; numbers that may carry a
      fraction (aspect ratio, scales, zoom) are exact rationals [Q], so
      rounding of doubles is left out.
    - The global [state] object, the parts of the page that the functions
      read back (the flipbook's page elements, the overlay, the fragment
      of the location) and the logs of what was asked of the decoder and
      shown as toasts make up the record [State].
    - A synchronous function of the source is a function on [State].  A
      function that can throw or whose promise can reject is a [Task],
      a state function that completes normally or with an exception;
      [try]/[catch] is [tryCatch].  [async] functions are run to
      completion one after the other: an [await] is an ordinary call.
      Where a handler starts [initFlipbook()] without awaiting it, the
      handler returns its state and a flag, and the task runs next.
    - The decoder (PDF.js) is a record of what it answers per page; the
      page-turn engine (StPageFlip) is a record of its settings, of the
      index it reports and of the calls it received; what the browser
      measures is an argument of the functions that measure.
    - Left out: CSS classes and icons, the loading overlay, highlights of
      search matches, the two-finger pinch, fullscreen and sharing. *)

From Stdlib Require Import ZArith QArith Qround Qabs Lqa Lia Ascii.
From stdpp Require Import gmap strings pretty list sorting.

Local Open Scope Z_scope.

(** ** Resolution planner (the page-dimension computation of [initFlipbook]) *)

Module Planner.

(** [a > b] on JavaScript numbers. *)
Definition Qgtb (a b : Q) : bool := negb (Qle_bool a b).

Definition toolbarHeight : Z := 72.

(** Lines 410-442 of [initFlipbook]: from the available area, the layout
    mode and the aspect ratio of page 1 to the floored page size. *)
Definition pageDimensions
    (availableWidth availableHeight : Z) (isDoublePageMode : bool)
    (aspectRatio : Q) : Z * Z :=
  let maxHeight := Z.max availableHeight 400 in
  let maxWidth := Z.max availableWidth 300 in
  let pageHeight := inject_Z maxHeight in
  let pageWidth := (pageHeight * aspectRatio)%Q in
  let '(pageWidth, pageHeight) :=
    if isDoublePageMode then
      if Qgtb (pageWidth * 2) (inject_Z maxWidth) then
        let pageWidth := (inject_Z maxWidth / 2)%Q in
        (pageWidth, (pageWidth / aspectRatio)%Q)
      else (pageWidth, pageHeight)
    else
      if Qgtb pageWidth (inject_Z maxWidth) then
        let pageWidth := inject_Z maxWidth in
        (pageWidth, (pageWidth / aspectRatio)%Q)
      else (pageWidth, pageHeight) in
  (Qfloor pageWidth, Qfloor pageHeight).


End Planner.

(** ** The JavaScript built-ins the viewer relies on *)

Module Js.

Local Open Scope char_scope.

(** [a % b] truncates toward zero. *)
Definition rem (a b : Z) : Z := Z.rem a b.

(** White space skipped by [parseInt] and [trim] (the ASCII part of it). *)
Definition isSpace (c : ascii) : bool :=
  match c with
  | " " | "009" | "010" | "011" | "012" | "013" => true
  | _ => false
  end.

Fixpoint trimStart (s : string) : string :=
  match s with
  | String c r => if isSpace c then trimStart r else s
  | EmptyString => s
  end.

Definition trim (s : string) : string :=
  String.rev (trimStart (String.rev (trimStart s))).

(** ASCII letters only; other bytes are kept. *)
Definition lowerChar (c : ascii) : ascii :=
  let n := N_of_ascii c in
  if ((65 <=? n) && (n <=? 90))%N then ascii_of_N (n + 32) else c.

Fixpoint toLowerCase (s : string) : string :=
  match s with
  | String c r => String (lowerChar c) (toLowerCase r)
  | EmptyString => EmptyString
  end.

(** [hay.includes(needle)] *)
Fixpoint includes (hay needle : string) : bool :=
  String.prefix needle hay ||
  match hay with
  | String _ r => includes r needle
  | EmptyString => false
  end.

(** [items.join(sep)] *)
Definition join (sep : string) (items : list string) : string :=
  String.concat sep items.

(** [s.startsWith(p)] *)
Definition startsWith (s p : string) : bool := String.prefix p s.

(** [s.split(sep)] for a separator of one character. *)
Fixpoint split (sep : ascii) (s : string) : list string :=
  match s with
  | EmptyString => [EmptyString]
  | String c r =>
      if Ascii.eqb c sep then EmptyString :: split sep r
      else match split sep r with
           | h :: t => String c h :: t
           | [] => [String c EmptyString]
           end
  end.

(** The value of a digit in the given radix (10 or 16). *)
Definition digitValue (radix : N) (c : ascii) : option N :=
  let n := N_of_ascii c in
  let v := if ((48 <=? n) && (n <=? 57))%N then Some (n - 48)%N
           else if ((97 <=? n) && (n <=? 102))%N then Some (n - 87)%N
           else if ((65 <=? n) && (n <=? 70))%N then Some (n - 55)%N
           else None in
  match v with
  | Some d => if (d <? radix)%N then Some d else None
  | None => None
  end.

(** Decimal digits only. *)
Fixpoint allDigits (s : string) : bool :=
  match s with
  | EmptyString => true
  | String c r =>
      match digitValue 10 c with Some _ => true | None => false end
      && allDigits r
  end.

(** The longest prefix of digits, read left to right; [None] when there
    is no digit at all. *)
Fixpoint parseDigits (radix : N) (s : string) (acc : N) (seen : bool) : option N :=
  match s with
  | String c r =>
      match digitValue radix c with
      | Some d => parseDigits radix r (acc * radix + d)%N true
      | None => if seen then Some acc else None
      end
  | EmptyString => if seen then Some acc else None
  end.

(** [parseInt(s)] with no radix argument; [None] is [NaN].  An absent
    argument ([undefined]) is read as the text "undefined", which has no
    digit. *)
Definition parseInt (s : string) : option Z :=
  let s := trimStart s in
  let '(negative, s) :=
    match s with
    | String "-" r => (true, r)
    | String "+" r => (false, r)
    | _ => (false, s)
    end in
  let '(radix, s) :=
    match s with
    | String "0" (String "x" r) => (16%N, r)
    | String "0" (String "X" r) => (16%N, r)
    | _ => (10%N, s)
    end in
  match parseDigits radix s 0%N false with
  | Some n => Some (if negative then - Z.of_N n else Z.of_N n)
  | None => None
  end.

(** [x || d] on a number: [NaN] and [0] are falsy. *)
Definition orElse (x : option Z) (d : Z) : Z :=
  match x with
  | Some n => if (n =? 0)%Z then d else n
  | None => d
  end.

(** [Math.abs], [Math.min], [Math.max] on rationals. *)
Definition abs (x : Q) : Q := Qabs x.
Definition min (x y : Q) : Q := if Qle_bool x y then x else y.
Definition max (x y : Q) : Q := if Qle_bool x y then y else x.

End Js.

(** ** The viewer *)

Module Viewer.

(** *** Collaborators *)

(** A page as the decoder (PDF.js) presents it: its size at scale 1,
    whether rasterizing it succeeds, and its text items ([None] when
    [getTextContent] rejects). *)
Record PdfPage := {
  nativeWidth : Q;
  nativeHeight : Q;
  rasterizes : bool;
  textItems : option (list string)
}.

(** A loaded document; [getPage n] is [None] when the promise rejects. *)
Record PdfDoc := {
  numPages : Z;
  getPage : Z -> option PdfPage
}.

(** [page.getViewport({ scale })] (unrotated page). *)
Definition getViewport (page : PdfPage) (scale : Q) : Q * Q :=
  ((nativeWidth page * scale)%Q, (nativeHeight page * scale)%Q).

(** What the viewer asked of the decoder, most recent first. *)
Inductive DecoderCall :=
  | CallGetPage (pageNum : Z)
  | CallRender (pageNum : Z) (scale : Q)
  | CallGetTextContent (pageNum : Z).

(** What was painted on a canvas. *)
Inductive Drawing :=
  | Blank
  | PageBitmap (pageNum : Z) (scale : Q)
  | ErrorLabel.

(** A canvas element.  [canvasId] is its identity as an object: every
    [document.createElement('canvas')] and every [cloneNode] makes a new
    one. *)
Record Canvas := {
  canvasId : N;
  canvasWidth : Q;
  canvasHeight : Q;
  styleWidth : option Q;
  styleHeight : option Q;
  drawing : Drawing
}.

(** A [div.page] of the flipbook: its page number, its size, the canvas
    in its [.page-content] ([None] while the spinner is there), the spans
    of its text layer, and its [.page-backside] when it has one. *)
Record PageEl := {
  pageNum : Z;
  elWidth : Z;
  elHeight : Z;
  content : option Canvas;
  textLayer : option (list string);
  backside : option (option Canvas)
}.

(** Calls made on the page-turn engine, most recent first. *)
Inductive EngineCall :=
  | Flip (pageIndex : Z)
  | FlipNext
  | FlipPrev.

(** The [St.PageFlip] object: the settings it was built with that depend
    on the state, the index [getCurrentPageIndex()] answers, and the
    calls received. *)
Record PageFlip := {
  pfWidth : Z;
  pfHeight : Z;
  usePortrait : bool;
  startPage : Z;
  currentPageIndex : Z;
  calls : list EngineCall
}.

(** Inline [display] of the [#page-underneath] element. *)
Inductive Display := DisplayUnset | DisplayBlock | DisplayNone.

Record Underneath := {
  shows : option Canvas;
  display : Display
}.

(** What the browser reports when the viewer measures it: the window,
    the [#viewer-container] box (client width and height) when the
    element exists, and the index the engine shows once it has loaded
    the pages. *)
Record Surroundings := {
  innerWidth : Z;
  innerHeight : Z;
  viewerContainer : option (Z * Z);
  engineIndex : Z
}.

(** *** State

    The fields of the global [state] object, then the parts of the page
    and of the collaborators that the functions below read or write. *)
Record State := {
  pdfDoc : option PdfDoc;
  pageFlip : option PageFlip;
  currentPage : Z;
  totalPages : Z;
  isDoublePageMode : bool;
  isMobile : bool;
  zoom : Q;
  pageCache : gmap string Canvas;
  searchResults : list Z;
  currentSearchIndex : Z;
  currentSearchQuery : string;
  pageTexts : gmap Z string;
  basePageWidth : Z;
  basePageHeight : Z;
  panX : Q;
  panY : Q;
  (* the page *)
  flipbook : list PageEl;
  pageUnderneath : option Underneath;
  toasts : list string;
  searchIndicator : string;
  locationHash : string;
  (* the decoder and the canvas allocator *)
  decoderCalls : list DecoderCall;
  nextCanvasId : N
}.

Definition minZoom : Q := 1 # 2.
Definition maxZoom : Q := 3.
Definition MOBILE_BREAKPOINT : Z := 768.

(** The [state] literal at the top of the file, in a fresh page. *)
Definition initialState (hash : string) : State := {|
  pdfDoc := None; pageFlip := None; currentPage := 1; totalPages := 0;
  isDoublePageMode := true; isMobile := false; zoom := 1;
  pageCache := ∅; searchResults := []; currentSearchIndex := -1;
  currentSearchQuery := ""; pageTexts := ∅;
  basePageWidth := 400; basePageHeight := 560; panX := 0; panY := 0;
  flipbook := []; pageUnderneath := None; toasts := [];
  searchIndicator := ""; locationHash := hash;
  decoderCalls := []; nextCanvasId := 0
|}.

(** Assignments [state.f = v], one per field. *)
Definition set_pdfDoc (v : option PdfDoc) (s : State) : State :=
  Build_State v (pageFlip s) (currentPage s) (totalPages s)
    (isDoublePageMode s) (isMobile s) (zoom s) (pageCache s) (searchResults
    s) (currentSearchIndex s) (currentSearchQuery s) (pageTexts s)
    (basePageWidth s) (basePageHeight s) (panX s) (panY s) (flipbook s)
    (pageUnderneath s) (toasts s) (searchIndicator s) (locationHash s)
    (decoderCalls s) (nextCanvasId s).
Definition set_pageFlip (v : option PageFlip) (s : State) : State :=
  Build_State (pdfDoc s) v (currentPage s) (totalPages s) (isDoublePageMode
    s) (isMobile s) (zoom s) (pageCache s) (searchResults s)
    (currentSearchIndex s) (currentSearchQuery s) (pageTexts s)
    (basePageWidth s) (basePageHeight s) (panX s) (panY s) (flipbook s)
    (pageUnderneath s) (toasts s) (searchIndicator s) (locationHash s)
    (decoderCalls s) (nextCanvasId s).
Definition set_currentPage (v : Z) (s : State) : State :=
  Build_State (pdfDoc s) (pageFlip s) v (totalPages s) (isDoublePageMode s)
    (isMobile s) (zoom s) (pageCache s) (searchResults s)
    (currentSearchIndex s) (currentSearchQuery s) (pageTexts s)
    (basePageWidth s) (basePageHeight s) (panX s) (panY s) (flipbook s)
    (pageUnderneath s) (toasts s) (searchIndicator s) (locationHash s)
    (decoderCalls s) (nextCanvasId s).
Definition set_totalPages (v : Z) (s : State) : State :=
  Build_State (pdfDoc s) (pageFlip s) (currentPage s) v (isDoublePageMode s)
    (isMobile s) (zoom s) (pageCache s) (searchResults s)
    (currentSearchIndex s) (currentSearchQuery s) (pageTexts s)
    (basePageWidth s) (basePageHeight s) (panX s) (panY s) (flipbook s)
    (pageUnderneath s) (toasts s) (searchIndicator s) (locationHash s)
    (decoderCalls s) (nextCanvasId s).
Definition set_isDoublePageMode (v : bool) (s : State) : State :=
  Build_State (pdfDoc s) (pageFlip s) (currentPage s) (totalPages s) v
    (isMobile s) (zoom s) (pageCache s) (searchResults s)
    (currentSearchIndex s) (currentSearchQuery s) (pageTexts s)
    (basePageWidth s) (basePageHeight s) (panX s) (panY s) (flipbook s)
    (pageUnderneath s) (toasts s) (searchIndicator s) (locationHash s)
    (decoderCalls s) (nextCanvasId s).
Definition set_isMobile (v : bool) (s : State) : State :=
  Build_State (pdfDoc s) (pageFlip s) (currentPage s) (totalPages s)
    (isDoublePageMode s) v (zoom s) (pageCache s) (searchResults s)
    (currentSearchIndex s) (currentSearchQuery s) (pageTexts s)
    (basePageWidth s) (basePageHeight s) (panX s) (panY s) (flipbook s)
    (pageUnderneath s) (toasts s) (searchIndicator s) (locationHash s)
    (decoderCalls s) (nextCanvasId s).
Definition set_zoom (v : Q) (s : State) : State :=
  Build_State (pdfDoc s) (pageFlip s) (currentPage s) (totalPages s)
    (isDoublePageMode s) (isMobile s) v (pageCache s) (searchResults s)
    (currentSearchIndex s) (currentSearchQuery s) (pageTexts s)
    (basePageWidth s) (basePageHeight s) (panX s) (panY s) (flipbook s)
    (pageUnderneath s) (toasts s) (searchIndicator s) (locationHash s)
    (decoderCalls s) (nextCanvasId s).
Definition set_pageCache (v : gmap string Canvas) (s : State) : State :=
  Build_State (pdfDoc s) (pageFlip s) (currentPage s) (totalPages s)
    (isDoublePageMode s) (isMobile s) (zoom s) v (searchResults s)
    (currentSearchIndex s) (currentSearchQuery s) (pageTexts s)
    (basePageWidth s) (basePageHeight s) (panX s) (panY s) (flipbook s)
    (pageUnderneath s) (toasts s) (searchIndicator s) (locationHash s)
    (decoderCalls s) (nextCanvasId s).
Definition set_searchResults (v : list Z) (s : State) : State :=
  Build_State (pdfDoc s) (pageFlip s) (currentPage s) (totalPages s)
    (isDoublePageMode s) (isMobile s) (zoom s) (pageCache s) v
    (currentSearchIndex s) (currentSearchQuery s) (pageTexts s)
    (basePageWidth s) (basePageHeight s) (panX s) (panY s) (flipbook s)
    (pageUnderneath s) (toasts s) (searchIndicator s) (locationHash s)
    (decoderCalls s) (nextCanvasId s).
Definition set_currentSearchIndex (v : Z) (s : State) : State :=
  Build_State (pdfDoc s) (pageFlip s) (currentPage s) (totalPages s)
    (isDoublePageMode s) (isMobile s) (zoom s) (pageCache s) (searchResults
    s) v (currentSearchQuery s) (pageTexts s) (basePageWidth s)
    (basePageHeight s) (panX s) (panY s) (flipbook s) (pageUnderneath s)
    (toasts s) (searchIndicator s) (locationHash s) (decoderCalls s)
    (nextCanvasId s).
Definition set_currentSearchQuery (v : string) (s : State) : State :=
  Build_State (pdfDoc s) (pageFlip s) (currentPage s) (totalPages s)
    (isDoublePageMode s) (isMobile s) (zoom s) (pageCache s) (searchResults
    s) (currentSearchIndex s) v (pageTexts s) (basePageWidth s)
    (basePageHeight s) (panX s) (panY s) (flipbook s) (pageUnderneath s)
    (toasts s) (searchIndicator s) (locationHash s) (decoderCalls s)
    (nextCanvasId s).
Definition set_pageTexts (v : gmap Z string) (s : State) : State :=
  Build_State (pdfDoc s) (pageFlip s) (currentPage s) (totalPages s)
    (isDoublePageMode s) (isMobile s) (zoom s) (pageCache s) (searchResults
    s) (currentSearchIndex s) (currentSearchQuery s) v (basePageWidth s)
    (basePageHeight s) (panX s) (panY s) (flipbook s) (pageUnderneath s)
    (toasts s) (searchIndicator s) (locationHash s) (decoderCalls s)
    (nextCanvasId s).
Definition set_basePageWidth (v : Z) (s : State) : State :=
  Build_State (pdfDoc s) (pageFlip s) (currentPage s) (totalPages s)
    (isDoublePageMode s) (isMobile s) (zoom s) (pageCache s) (searchResults
    s) (currentSearchIndex s) (currentSearchQuery s) (pageTexts s) v
    (basePageHeight s) (panX s) (panY s) (flipbook s) (pageUnderneath s)
    (toasts s) (searchIndicator s) (locationHash s) (decoderCalls s)
    (nextCanvasId s).
Definition set_basePageHeight (v : Z) (s : State) : State :=
  Build_State (pdfDoc s) (pageFlip s) (currentPage s) (totalPages s)
    (isDoublePageMode s) (isMobile s) (zoom s) (pageCache s) (searchResults
    s) (currentSearchIndex s) (currentSearchQuery s) (pageTexts s)
    (basePageWidth s) v (panX s) (panY s) (flipbook s) (pageUnderneath s)
    (toasts s) (searchIndicator s) (locationHash s) (decoderCalls s)
    (nextCanvasId s).
Definition set_panX (v : Q) (s : State) : State :=
  Build_State (pdfDoc s) (pageFlip s) (currentPage s) (totalPages s)
    (isDoublePageMode s) (isMobile s) (zoom s) (pageCache s) (searchResults
    s) (currentSearchIndex s) (currentSearchQuery s) (pageTexts s)
    (basePageWidth s) (basePageHeight s) v (panY s) (flipbook s)
    (pageUnderneath s) (toasts s) (searchIndicator s) (locationHash s)
    (decoderCalls s) (nextCanvasId s).
Definition set_panY (v : Q) (s : State) : State :=
  Build_State (pdfDoc s) (pageFlip s) (currentPage s) (totalPages s)
    (isDoublePageMode s) (isMobile s) (zoom s) (pageCache s) (searchResults
    s) (currentSearchIndex s) (currentSearchQuery s) (pageTexts s)
    (basePageWidth s) (basePageHeight s) (panX s) v (flipbook s)
    (pageUnderneath s) (toasts s) (searchIndicator s) (locationHash s)
    (decoderCalls s) (nextCanvasId s).
Definition set_flipbook (v : list PageEl) (s : State) : State :=
  Build_State (pdfDoc s) (pageFlip s) (currentPage s) (totalPages s)
    (isDoublePageMode s) (isMobile s) (zoom s) (pageCache s) (searchResults
    s) (currentSearchIndex s) (currentSearchQuery s) (pageTexts s)
    (basePageWidth s) (basePageHeight s) (panX s) (panY s) v (pageUnderneath
    s) (toasts s) (searchIndicator s) (locationHash s) (decoderCalls s)
    (nextCanvasId s).
Definition set_pageUnderneath (v : option Underneath) (s : State) : State :=
  Build_State (pdfDoc s) (pageFlip s) (currentPage s) (totalPages s)
    (isDoublePageMode s) (isMobile s) (zoom s) (pageCache s) (searchResults
    s) (currentSearchIndex s) (currentSearchQuery s) (pageTexts s)
    (basePageWidth s) (basePageHeight s) (panX s) (panY s) (flipbook s) v
    (toasts s) (searchIndicator s) (locationHash s) (decoderCalls s)
    (nextCanvasId s).
Definition set_toasts (v : list string) (s : State) : State :=
  Build_State (pdfDoc s) (pageFlip s) (currentPage s) (totalPages s)
    (isDoublePageMode s) (isMobile s) (zoom s) (pageCache s) (searchResults
    s) (currentSearchIndex s) (currentSearchQuery s) (pageTexts s)
    (basePageWidth s) (basePageHeight s) (panX s) (panY s) (flipbook s)
    (pageUnderneath s) v (searchIndicator s) (locationHash s) (decoderCalls
    s) (nextCanvasId s).
Definition set_searchIndicator (v : string) (s : State) : State :=
  Build_State (pdfDoc s) (pageFlip s) (currentPage s) (totalPages s)
    (isDoublePageMode s) (isMobile s) (zoom s) (pageCache s) (searchResults
    s) (currentSearchIndex s) (currentSearchQuery s) (pageTexts s)
    (basePageWidth s) (basePageHeight s) (panX s) (panY s) (flipbook s)
    (pageUnderneath s) (toasts s) v (locationHash s) (decoderCalls s)
    (nextCanvasId s).
Definition set_locationHash (v : string) (s : State) : State :=
  Build_State (pdfDoc s) (pageFlip s) (currentPage s) (totalPages s)
    (isDoublePageMode s) (isMobile s) (zoom s) (pageCache s) (searchResults
    s) (currentSearchIndex s) (currentSearchQuery s) (pageTexts s)
    (basePageWidth s) (basePageHeight s) (panX s) (panY s) (flipbook s)
    (pageUnderneath s) (toasts s) (searchIndicator s) v (decoderCalls s)
    (nextCanvasId s).
Definition set_decoderCalls (v : list DecoderCall) (s : State) : State :=
  Build_State (pdfDoc s) (pageFlip s) (currentPage s) (totalPages s)
    (isDoublePageMode s) (isMobile s) (zoom s) (pageCache s) (searchResults
    s) (currentSearchIndex s) (currentSearchQuery s) (pageTexts s)
    (basePageWidth s) (basePageHeight s) (panX s) (panY s) (flipbook s)
    (pageUnderneath s) (toasts s) (searchIndicator s) (locationHash s) v
    (nextCanvasId s).
Definition set_nextCanvasId (v : N) (s : State) : State :=
  Build_State (pdfDoc s) (pageFlip s) (currentPage s) (totalPages s)
    (isDoublePageMode s) (isMobile s) (zoom s) (pageCache s) (searchResults
    s) (currentSearchIndex s) (currentSearchQuery s) (pageTexts s)
    (basePageWidth s) (basePageHeight s) (panX s) (panY s) (flipbook s)
    (pageUnderneath s) (toasts s) (searchIndicator s) (locationHash s)
    (decoderCalls s) v.

(** *** Tasks

    A function of the source that can throw, or whose promise can
    reject, is a [Task]: it runs on a state and completes with a value or
    with an exception, leaving the state it reached. *)

Inductive Exn :=
  | TypeError
  | Rejected (what : string).

Inductive Completion (A : Type) :=
  | Normal (a : A)
  | Throw (e : Exn).
Arguments Normal {A} a.
Arguments Throw {A} e.

Definition Task (A : Type) : Type := State -> Completion A * State.

Definition ret {A} (a : A) : Task A := fun s => (Normal a, s).
Definition throw {A} (e : Exn) : Task A := fun s => (Throw e, s).
Definition bind {A B} (t : Task A) (k : A -> Task B) : Task B :=
  fun s =>
    match t s with
    | (Normal a, s') => k a s'
    | (Throw e, s') => (Throw e, s')
    end.
(** [try { body } catch (error) { handler }] *)
Definition tryCatch {A} (body : Task A) (handler : Exn -> Task A) : Task A :=
  fun s =>
    match body s with
    | (Normal a, s') => (Normal a, s')
    | (Throw e, s') => handler e s'
    end.
Definition get : Task State := fun s => (Normal s, s).
Definition modify (f : State -> State) : Task unit := fun s => (Normal tt, f s).

(** The state a task leaves, however it completes. *)
Definition exec {A} (t : Task A) (s : State) : State := snd (t s).

Declare Scope task_scope.
Delimit Scope task_scope with task.
Notation "'let*' x ':=' e 'in' k" := (bind e (fun x => k))
  (at level 10, x pattern, e at level 100, k at level 200) : task_scope.
Notation "e '>>' k" := (bind e (fun _ => k))
  (at level 100, k at level 200, right associativity) : task_scope.
Local Open Scope task_scope.

(** [for (const x of l) { await f(x) }]: stops at the first exception. *)
Fixpoint forEach {A} (l : list A) (f : A -> Task unit) : Task unit :=
  match l with
  | [] => ret tt
  | x :: r => f x >> forEach r f
  end.

(** Promises started one after the other and awaited together: every one
    runs; the result rejects with the first rejection, if any. *)
Fixpoint promiseAll (tasks : list (Task unit)) : Task unit :=
  match tasks with
  | [] => ret tt
  | t :: r =>
      fun s =>
        let '(c, s') := t s in
        let '(c', s'') := promiseAll r s' in
        (match c with Throw e => Throw e | Normal _ => c' end, s'')
  end.

(** *** The decoder, as the viewer calls it *)

Definition logCall (c : DecoderCall) : Task unit :=
  modify (fun s => set_decoderCalls (c :: decoderCalls s) s).

(** [await state.pdfDoc.getPage(n)] *)
Definition docGetPage (n : Z) : Task PdfPage :=
  let* s := get in
  match pdfDoc s with
  | None => throw TypeError
  | Some doc =>
      logCall (CallGetPage n) >>
      match getPage doc n with
      | Some page => ret page
      | None => throw (Rejected "getPage")
      end
  end.

(** [await page.render({ ..., viewport }).promise] *)
Definition pageRender (n : Z) (page : PdfPage) (scale : Q) : Task unit :=
  logCall (CallRender n scale) >>
  if rasterizes page then ret tt else throw (Rejected "render").

(** [await page.getTextContent()], reduced to the items' [str]. *)
Definition pageGetTextContent (n : Z) (page : PdfPage) : Task (list string) :=
  logCall (CallGetTextContent n) >>
  match textItems page with
  | Some items => ret items
  | None => throw (Rejected "getTextContent")
  end.

(** [document.createElement('canvas')]: a new object, 300 by 150. *)
Definition createCanvas : Task Canvas :=
  let* s := get in
  modify (set_nextCanvasId (nextCanvasId s + 1)%N) >>
  ret {| canvasId := nextCanvasId s; canvasWidth := 300; canvasHeight := 150;
         styleWidth := None; styleHeight := None; drawing := Blank |}.

(** [canvas.cloneNode(true)] followed by [drawImage(canvas, 0, 0)]. *)
Definition cloneCanvas (canvas : Canvas) : Task Canvas :=
  let* s := get in
  modify (set_nextCanvasId (nextCanvasId s + 1)%N) >>
  ret {| canvasId := nextCanvasId s;
         canvasWidth := canvasWidth canvas; canvasHeight := canvasHeight canvas;
         styleWidth := styleWidth canvas; styleHeight := styleHeight canvas;
         drawing := drawing canvas |}.

(** *** Rendering *)

(** The cache key, a template string of the three numbers. *)
Definition cacheKey (pageNum width height : Z) : string :=
  pretty pageNum +:+ "-" +:+ pretty width +:+ "-" +:+ pretty height.

Definition createErrorPage (width height : Z) : Task Canvas :=
  let* canvas := createCanvas in
  ret {| canvasId := canvasId canvas;
         canvasWidth := inject_Z width; canvasHeight := inject_Z height;
         styleWidth := None; styleHeight := None; drawing := ErrorLabel |}.

Definition renderPage (pageNum width height : Z) : Task Canvas :=
  let cacheKey := cacheKey pageNum width height in
  let* s := get in
  match pageCache s !! cacheKey with
  | Some canvas => ret canvas
  | None =>
      tryCatch
        (let* page := docGetPage pageNum in
         let nativeViewport := getViewport page 1 in
         let fitScale := Js.min (inject_Z width / fst nativeViewport)
                                (inject_Z height / snd nativeViewport) in
         let renderScale := (2 * fitScale)%Q in
         let renderViewport := getViewport page renderScale in
         let* canvas := createCanvas in
         pageRender pageNum page renderScale >>
         let displayWidth := (fst nativeViewport * fitScale)%Q in
         let displayHeight := (snd nativeViewport * fitScale)%Q in
         let canvas :=
           {| canvasId := canvasId canvas;
              canvasWidth := fst renderViewport;
              canvasHeight := snd renderViewport;
              styleWidth := Some displayWidth;
              styleHeight := Some displayHeight;
              drawing := PageBitmap pageNum renderScale |} in
         modify (fun s => set_pageCache (<[cacheKey := canvas]> (pageCache s)) s) >>
         ret canvas)
        (fun _ => createErrorPage width height)
  end.

(** The body of the loop of [extractAllPageTexts]. *)
Definition extractPageText (i : Z) : Task unit :=
  tryCatch
    (let* page := docGetPage i in
     let* items := pageGetTextContent i page in
     let text := Js.join " " items in
     modify (fun s => set_pageTexts (<[i := Js.toLowerCase text]> (pageTexts s)) s))
    (fun _ =>
     modify (fun s => set_pageTexts (<[i := ""]> (pageTexts s)) s)).

Definition extractAllPageTexts : Task unit :=
  let* s := get in
  forEach (seqZ 1 (totalPages s)) extractPageText.

(** *** The flipbook's page elements *)

(** [document.querySelector(`.page[data-page-num="${n}"]`)] *)
Definition findPage (n : Z) (pages : list PageEl) : option PageEl :=
  List.find (fun el => pageNum el =? n) pages.

(** A change made to that element. *)
Fixpoint updatePage (n : Z) (f : PageEl -> PageEl) (pages : list PageEl)
    : list PageEl :=
  match pages with
  | [] => []
  | el :: r => if pageNum el =? n then f el :: r else el :: updatePage n f r
  end.

Definition onPage (n : Z) (f : PageEl -> PageEl) : Task unit :=
  modify (fun s => set_flipbook (updatePage n f (flipbook s)) s).

(** [contentDiv.innerHTML = ''; contentDiv.appendChild(canvas)] *)
Definition putCanvas (canvas : Canvas) (el : PageEl) : PageEl :=
  {| pageNum := pageNum el; elWidth := elWidth el; elHeight := elHeight el;
     content := Some canvas; textLayer := None; backside := backside el |}.

(** [container.appendChild(textLayerDiv)] *)
Definition putTextLayer (spans : list string) (el : PageEl) : PageEl :=
  {| pageNum := pageNum el; elWidth := elWidth el; elHeight := elHeight el;
     content := content el; textLayer := Some spans; backside := backside el |}.

(** [backsideDiv.innerHTML = ''; backsideDiv.appendChild(clonedCanvas)] *)
Definition putBackside (canvas : Canvas) (el : PageEl) : PageEl :=
  {| pageNum := pageNum el; elWidth := elWidth el; elHeight := elHeight el;
     content := content el; textLayer := textLayer el;
     backside := Some (Some canvas) |}.

Definition addTextLayer (pageNum width height : Z) : Task unit :=
  tryCatch
    (let* page := docGetPage pageNum in
     let* items := pageGetTextContent pageNum page in
     onPage pageNum (putTextLayer items))
    (fun _ => ret tt).

Definition renderPageContent (pageNum : Z) : Task unit :=
  let* s := get in
  match findPage pageNum (flipbook s) with
  | None => ret tt
  | Some pageElement =>
      match content pageElement with
      | Some _ => ret tt
      | None =>
          let width := basePageWidth s in
          let height := basePageHeight s in
          let* canvas := renderPage pageNum width height in
          onPage pageNum (putCanvas canvas) >>
          addTextLayer pageNum width height >>
          let* s := get in
          match backside pageElement with
          | Some _ =>
              if negb (isDoublePageMode s) then
                let* clonedCanvas := cloneCanvas canvas in
                onPage pageNum (putBackside clonedCanvas)
              else ret tt
          | None => ret tt
          end
      end
  end.

(** [pagesToRender.add(x)]: a [Set] keeps insertion order. *)
Definition setAdd (x : Z) (l : list Z) : list Z :=
  if decide (x ∈ l) then l else l ++ [x].

Definition renderVisiblePages : Task unit :=
  let* s := get in
  match pageFlip s with
  | None => throw TypeError
  | Some engine =>
      let currentIndex := currentPageIndex engine in
      let pagesToRender := [currentIndex + 1] in
      let pagesToRender :=
        if isDoublePageMode s then
          if Js.rem (currentIndex + 1) 2 =? 0
          then setAdd (currentIndex + 2) pagesToRender
          else setAdd currentIndex pagesToRender
        else pagesToRender in
      let preloadRange := if isDoublePageMode s then 4 else 2 in
      let pagesToRender :=
        fold_left
          (fun acc i =>
             let pageNum := currentIndex + 1 + i in
             if (1 <=? pageNum) && (pageNum <=? totalPages s)
             then setAdd pageNum acc else acc)
          (seqZ (-2) (preloadRange + 3)) pagesToRender in
      forEach pagesToRender renderPageContent
  end.

Definition preRenderAllPages : Task unit :=
  let* s := get in
  promiseAll (renderPageContent <$> seqZ 1 (totalPages s)).

(** *** Initialization and loading *)

Definition showToast (message : string) (s : State) : State :=
  set_toasts (message :: toasts s) s.

Definition checkMobileMode (w : Surroundings) (s : State) : bool * State :=
  let wasMobile := isMobile s in
  let s := set_isMobile (innerWidth w <=? MOBILE_BREAKPOINT) s in
  (* Force single-page mode on mobile *)
  let s := if isMobile s && isDoublePageMode s
           then set_isDoublePageMode false s else s in
  (negb (Bool.eqb wasMobile (isMobile s)), s).

Definition checkUrlForPdf (s : State) : State :=
  let hash := locationHash s in
  if Js.startsWith hash "#page=" then
    let n := match Js.split "=" hash !! 1%nat with
             | Some text => Js.parseInt text
             | None => None
             end in
    set_currentPage (Js.orElse n 1) s
  else s.

Definition availableHeight (w : Surroundings) : Z :=
  match viewerContainer w with
  | Some (_, clientHeight) => clientHeight
  | None => innerHeight w
  end - Planner.toolbarHeight.

Definition availableWidth (w : Surroundings) : Z :=
  match viewerContainer w with
  | Some (clientWidth, _) => clientWidth
  | None => innerWidth w
  end.

(** A new [div.page] with its spinner, and a backside in single mode. *)
Definition newPageEl (i pageWidth pageHeight : Z) (double : bool) : PageEl :=
  {| pageNum := i; elWidth := pageWidth; elHeight := pageHeight;
     content := None; textLayer := None;
     backside := if negb double then Some None else None |}.

Definition initFlipbook (w : Surroundings) : Task unit :=
  let availableHeight := availableHeight w in
  let availableWidth := availableWidth w in
  let* s := get in
  let* aspectRatio :=
    match pdfDoc s with
    | Some _ =>
        tryCatch
          (let* page := docGetPage 1 in
           let viewport := getViewport page 1 in
           ret (fst viewport / snd viewport)%Q)
          (fun _ => ret (714 # 1000))
    | None => ret (714 # 1000)
    end in
  let* s := get in
  let '(pageWidth, pageHeight) :=
    Planner.pageDimensions availableWidth availableHeight
      (isDoublePageMode s) aspectRatio in
  modify (set_basePageWidth pageWidth) >>
  modify (set_basePageHeight pageHeight) >>
  (* Clear existing, create page elements *)
  modify (fun s =>
    set_flipbook
      ((fun i => newPageEl i pageWidth pageHeight (isDoublePageMode s))
         <$> seqZ 1 (totalPages s)) s) >>
  modify (fun s =>
    set_pageFlip
      (Some {| pfWidth := pageWidth; pfHeight := pageHeight;
               usePortrait := negb (isDoublePageMode s);
               startPage := currentPage s - 1;
               currentPageIndex := engineIndex w;
               calls := [] |}) s) >>
  renderVisiblePages.

(** [pdfjsLib.getDocument(...)]: [None] when the bytes are not a
    document the decoder accepts (or, from a URL, when the fetch fails). *)
Definition getDocument (file : option PdfDoc) : Task PdfDoc :=
  match file with
  | Some doc => ret doc
  | None => throw (Rejected "getDocument")
  end.

Definition loadPdf (file : option PdfDoc) (w : Surroundings) : Task unit :=
  tryCatch
    (let* doc := getDocument file in
     modify (set_pdfDoc (Some doc)) >>
     modify (set_totalPages (numPages doc)) >>
     extractAllPageTexts >>
     initFlipbook w >>
     preRenderAllPages)
    (fun _ => modify (showToast "Error loading PDF. Please try another file.")).

Definition loadPdfFromUrl (response : option PdfDoc) (w : Surroundings)
    : Task unit :=
  tryCatch
    (let* doc := getDocument response in
     modify (set_pdfDoc (Some doc)) >>
     modify (set_totalPages (numPages doc)) >>
     extractAllPageTexts >>
     initFlipbook w >>
     preRenderAllPages)
    (fun _ => modify (showToast "PDF 로딩 오류.")).

(** [init()]: the fragment, the device class, then the book. *)
Definition init (response : option PdfDoc) (w : Surroundings) : Task unit :=
  modify checkUrlForPdf >>
  modify (fun s => snd (checkMobileMode w s)) >>
  loadPdfFromUrl response w.

(** *** The page underneath *)

(** [el.querySelector('canvas')]: the backside comes first in the page. *)
Definition firstCanvas (el : PageEl) : option Canvas :=
  match backside el with
  | Some (Some canvas) => Some canvas
  | _ => content el
  end.

(** The page [showPageUnderneath] takes for the next right-hand one. *)
Definition nextRightPageNum (currentIndex : Z) : Z := currentIndex * 2 + 3.

Definition showPageUnderneath (currentIndex : Z) : Task unit :=
  let nextRightPageNum := nextRightPageNum currentIndex in
  let* s := get in
  if totalPages s <? nextRightPageNum then ret tt
  else
    (* Find or create the underneath preview element *)
    let underneathEl :=
      match pageUnderneath s with
      | Some el => el
      | None => {| shows := None; display := DisplayUnset |}
      end in
    modify (set_pageUnderneath (Some underneathEl)) >>
    match findPage nextRightPageNum (flipbook s) with
    | Some nextPageEl =>
        match firstCanvas nextPageEl with
        | Some canvas =>
            let* clonedCanvas := cloneCanvas canvas in
            modify (set_pageUnderneath
                      (Some {| shows := Some clonedCanvas;
                               display := DisplayBlock |}))
        | None => ret tt
        end
    | None => ret tt
    end.

Definition hidePageUnderneath (s : State) : State :=
  match pageUnderneath s with
  | Some underneathEl =>
      set_pageUnderneath
        (Some {| shows := shows underneathEl; display := DisplayNone |}) s
  | None => s
  end.

(** *** Navigation *)

Definition engineCall (c : EngineCall) (engine : PageFlip) : PageFlip :=
  {| pfWidth := pfWidth engine; pfHeight := pfHeight engine;
     usePortrait := usePortrait engine; startPage := startPage engine;
     currentPageIndex := currentPageIndex engine;
     calls := c :: calls engine |}.

Definition goToPrevPage (s : State) : State :=
  match pageFlip s with
  | Some engine => set_pageFlip (Some (engineCall FlipPrev engine)) s
  | None => s
  end.

Definition goToNextPage (s : State) : State :=
  match pageFlip s with
  | Some engine => set_pageFlip (Some (engineCall FlipNext engine)) s
  | None => s
  end.

Definition goToPage (pageNum : Z) (s : State) : State :=
  match pageFlip s with
  | Some engine =>
      if (1 <=? pageNum) && (pageNum <=? totalPages s) then
        let s := set_pageFlip (Some (engineCall (Flip (pageNum - 1)) engine)) s in
        set_currentPage pageNum s
      else s
  | None => s
  end.

(** [handlePageInputChange], given the text of the page input. *)
Definition handlePageInputChange (value : string) (s : State) : State :=
  match Js.parseInt value with
  | Some pageNum =>
      if (1 <=? pageNum) && (pageNum <=? totalPages s)
      then goToPage pageNum s else s
  | None => s
  end.

Definition updateUrl (s : State) : State :=
  set_locationHash ("#page=" +:+ pretty (currentPage s)) s.

(** *** Search *)

(** [array[i]] for a number [i]: [undefined] outside the array. *)
Definition at_ (l : list Z) (i : Z) : option Z :=
  if i <? 0 then None else l !! Z.to_nat i.

(** [goToPage(x)] where [x] may be [undefined], which fails both
    comparisons. *)
Definition goToPageOpt (x : option Z) (s : State) : State :=
  match x with
  | Some pageNum => goToPage pageNum s
  | None => s
  end.

Definition updateSearchIndicator (s : State) : State :=
  if 0 <? Z.of_nat (length (searchResults s)) then
    set_searchIndicator
      (pretty (currentSearchIndex s + 1) +:+ " / " +:+
       pretty (Z.of_nat (length (searchResults s)))) s
  else s.

(** [handleSearch], given the text of the search input. *)
Definition handleSearch (input : string) (s : State) : State :=
  let query := Js.trim (Js.toLowerCase input) in
  if String.eqb query "" then
    let s := set_searchResults [] s in
    let s := set_currentSearchIndex (-1) s in
    let s := set_currentSearchQuery "" s in
    set_searchIndicator "" s
  else
    let s := set_currentSearchQuery query s in
    let s :=
      set_searchResults
        (filter (fun i => Js.includes (default "" (pageTexts s !! i)) query = true)
                (seqZ 1 (totalPages s))) s in
    if 0 <? Z.of_nat (length (searchResults s)) then
      let s := set_currentSearchIndex 0 s in
      let s := goToPageOpt (at_ (searchResults s) 0) s in
      updateSearchIndicator s
    else
      let s := set_currentSearchIndex (-1) s in
      set_searchIndicator "결과 없음" s.

Definition goToNextSearchResult (s : State) : State :=
  let length := Z.of_nat (length (searchResults s)) in
  if length =? 0 then s
  else
    let s := set_currentSearchIndex
               (Js.rem (currentSearchIndex s + 1) length) s in
    let s := goToPageOpt (at_ (searchResults s) (currentSearchIndex s)) s in
    updateSearchIndicator s.

Definition goToPrevSearchResult (s : State) : State :=
  let length := Z.of_nat (length (searchResults s)) in
  if length =? 0 then s
  else
    let s := set_currentSearchIndex
               (Js.rem (currentSearchIndex s - 1 + length) length) s in
    let s := goToPageOpt (at_ (searchResults s) (currentSearchIndex s)) s in
    updateSearchIndicator s.

(** *** View mode, zoom, resize *)

(** [toggleViewMode] up to its return.  The flag tells that
    [initFlipbook()] was started; it runs on after the return. *)
Definition toggleViewMode (s : State) : State * bool :=
  (* Prevent switching to double-page mode on mobile *)
  if isMobile s && negb (isDoublePageMode s) then
    (showToast "모바일에서는 양면 보기를 지원하지 않습니다" s, false)
  else
    let s := set_isDoublePageMode (negb (isDoublePageMode s)) s in
    match pdfDoc s with
    | Some _ => (set_pageCache ∅ s, true)
    | None => (s, false)
    end.

Definition zoomIn (s : State) : State :=
  if Planner.Qgtb maxZoom (zoom s)
  then set_zoom (Js.min (zoom s + (1 # 4)) maxZoom) s else s.

Definition zoomOut (s : State) : State :=
  if Planner.Qgtb (zoom s) minZoom
  then set_zoom (Js.max (zoom s - (1 # 4)) minZoom) s else s.

Definition resetZoom (s : State) : State :=
  set_panY 0 (set_panX 0 (set_zoom 1 s)).

Definition toggleZoom (s : State) : State :=
  if Qeq_bool (zoom s) 1
  then set_panY 0 (set_panX 0 (set_zoom (18 # 10) s))
  else set_panY 0 (set_panX 0 (set_zoom 1 s)).

(** The width a page should have after a resize, as [handleResize]
    estimates it. *)
Definition expectedWidth (w : Surroundings) (s : State) : Q :=
  let newWidth := availableWidth w - 40 in
  if isDoublePageMode s then (inject_Z newWidth / 2)%Q else inject_Z newWidth.

(** "Significant size change". *)
Definition sizeChanged (w : Surroundings) (s : State) : bool :=
  Planner.Qgtb (Js.abs (expectedWidth w s - inject_Z (basePageWidth s))) 50.

(** [handleResize] up to its return, with the same flag. *)
Definition handleResize (w : Surroundings) (s : State) : State * bool :=
  let '(modeChanged, s) := checkMobileMode w s in
  match pdfDoc s, pageFlip s with
  | Some _, Some _ =>
      if modeChanged then (set_pageCache ∅ s, true)
      else if sizeChanged w s then (s, true) else (s, false)
  | _, _ => (s, false)
  end.

(** [handleKeydown] for a key pressed outside an input; the fullscreen
    key is left out. *)
Definition handleKeydown (key : string) (s : State) : State :=
  if String.eqb key "ArrowLeft" then goToPrevPage s
  else if String.eqb key "ArrowRight" || String.eqb key " " then goToNextPage s
  else if String.eqb key "Home" then goToPage 1 s
  else if String.eqb key "End" then goToPage (totalPages s) s
  else if String.eqb key "Escape" then
    if negb (Qeq_bool (zoom s) 1) || negb (Qeq_bool (panX s) 0)
       || negb (Qeq_bool (panY s) 0)
    then resetZoom s else s
  else s.

Definition openNewPdf (s : State) : State :=
  let s := set_pdfDoc None s in
  let s := set_pageCache ∅ s in
  let s := set_pageTexts ∅ s in
  let s := set_searchResults [] s in
  let s := set_currentSearchIndex (-1) s in
  let s := set_currentPage 1 s in
  let s := set_zoom 1 s in
  let s := match pageFlip s with
           | Some engine =>
               (* state.pageFlip.destroy(); state.pageFlip = null *)
               set_pageFlip None s
           | None => s
           end in
  let s := set_flipbook [] s in
  set_searchIndicator "" s.

(** *** The engine's events *)

(** The ['flip'] listener. *)
Definition onFlip (data : Z) : Task unit :=
  modify (set_currentPage (data + 1)) >>
  modify updateUrl >>
  renderVisiblePages.

Definition isFlipStart (data : string) : bool :=
  String.eqb data "flipping" || String.eqb data "user_fold"
  || String.eqb data "fold_corner".

(** The ['changeState'] listener. *)
Definition onChangeState (data : string) : Task unit :=
  (if isFlipStart data then
     let* s := get in
     match pageFlip s with
     | None => throw TypeError
     | Some engine =>
         let currentIndex := currentPageIndex engine in
         (if isDoublePageMode s then showPageUnderneath currentIndex
          else ret tt) >>
         (* Pre-render up to 6 pages ahead *)
         let nextPages :=
           filter (fun pageNum => 1 <= pageNum /\ pageNum <= totalPages s)
                  ((fun i => currentIndex + 1 + i) <$> seqZ 1 6) in
         promiseAll (renderPageContent <$> nextPages)
     end
   else ret tt) >>
  (if String.eqb data "read" then modify hidePageUnderneath else ret tt).

(** The engine reports a new index. *)
Definition engineShows (index : Z) (s : State) : State :=
  match pageFlip s with
  | Some engine =>
      set_pageFlip
        (Some {| pfWidth := pfWidth engine; pfHeight := pfHeight engine;
                 usePortrait := usePortrait engine;
                 startPage := startPage engine;
                 currentPageIndex := index; calls := calls engine |}) s
  | None => s
  end.

(** *** Sessions

    What can happen to a loaded page, each with what the browser reports
    at that moment.  A handler that starts [initFlipbook()] without
    awaiting it is followed by that task. *)
Inductive Event :=
  | FileChosen (file : option PdfDoc) (w : Surroundings)
  | NewPdfRequested
  | PrevClicked
  | NextClicked
  | PageInputChanged (value : string)
  | SearchInput (text : string)
  | SearchNext
  | SearchPrev
  | ViewModeClicked (w : Surroundings)
  | ZoomInClicked
  | ZoomOutClicked
  | DoubleClicked
  | KeyDown (key : string)
  | Resized (w : Surroundings)
  | EngineFlip (data : Z)
  | EngineChangeState (data : string).

(** A handler's state at return, then the task it started, if any. *)
Definition andThen (r : State * bool) (k : Task unit) : State :=
  if snd r then exec k (fst r) else fst r.

Definition step (e : Event) (s : State) : State :=
  match e with
  | FileChosen file w => exec (loadPdf file w) s
  | NewPdfRequested => openNewPdf s
  | PrevClicked => goToPrevPage s
  | NextClicked => goToNextPage s
  | PageInputChanged value => handlePageInputChange value s
  | SearchInput text => handleSearch text s
  | SearchNext => goToNextSearchResult s
  | SearchPrev => goToPrevSearchResult s
  | ViewModeClicked w => andThen (toggleViewMode s) (initFlipbook w)
  | ZoomInClicked => zoomIn s
  | ZoomOutClicked => zoomOut s
  | DoubleClicked => toggleZoom s
  | KeyDown key => handleKeydown key s
  | Resized w => andThen (handleResize w s) (initFlipbook w)
  | EngineFlip data => exec (onFlip data) (engineShows data s)
  | EngineChangeState data => exec (onChangeState data) s
  end.

(** The page once [init()] and its load have run. *)
Definition started (hash : string) (response : option PdfDoc)
    (w : Surroundings) : State :=
  exec (init response w) (initialState hash).

(** The states of a session. *)
Inductive reachable : State -> Prop :=
  | reachable_start hash response w :
      reachable (started hash response w)
  | reachable_step e s :
      reachable s -> reachable (step e s).

(** *** Notions used in the statements *)

(** An entry of the cache is gone, or holds another canvas. *)
Definition evicted (s s' : State) : Prop :=
  exists key canvas,
    pageCache s !! key = Some canvas /\ pageCache s' !! key <> Some canvas.

(** Mobile device class forces the single layout. *)
Definition mobileIsSingle (s : State) : Prop :=
  isMobile s = true -> isDoublePageMode s = false.

(** Rasterizing page [n] of the document succeeds. *)
Definition decodes (doc : PdfDoc) (n : Z) : bool :=
  match getPage doc n with
  | Some page => rasterizes page
  | None => false
  end.

(** The text of page [n] as the index stores it, when extraction
    succeeds. *)
Definition pageText (doc : PdfDoc) (n : Z) : option string :=
  match getPage doc n with
  | Some page =>
      match textItems page with
      | Some items => Some (Js.toLowerCase (Js.join " " items))
      | None => None
      end
  | None => None
  end.

(** The placeholder of [createErrorPage] at the given size. *)
Definition isPlaceholder (width height : Z) (canvas : Canvas) : Prop :=
  drawing canvas = ErrorLabel /\
  canvasWidth canvas = inject_Z width /\
  canvasHeight canvas = inject_Z height.

(** Every page of the document has its element in the flipbook. *)
Definition bookLaidOut (s : State) : Prop :=
  pageNum <$> flipbook s = seqZ 1 (totalPages s).

(** The page has an element, and the element holds a canvas. *)
Definition hasPage (n : Z) (s : State) : Prop :=
  is_Some (findPage n (flipbook s)).

Definition hasCanvas (n : Z) (s : State) : Prop :=
  exists el canvas, findPage n (flipbook s) = Some el /\ content el = Some canvas.

(** The device class and the layout mode together. *)
Definition mode (s : State) : bool * bool := (isMobile s, isDoublePageMode s).

(** A change to a page element that keeps its number and never takes
    its canvas away. *)
Definition gentle (f : PageEl -> PageEl) : Prop :=
  forall el, pageNum (f el) = pageNum el /\
             (is_Some (content el) -> is_Some (content (f el))).

(** *** Reasoning about tasks *)

(** A task relates every state to the state it leaves. *)
Definition keeps (R : State -> State -> Prop) {A} (t : Task A) : Prop :=
  forall s, R s (snd (t s)).

(** A task never completes with an exception. *)
Definition total {A} (t : Task A) : Prop :=
  forall s, exists a, fst (t s) = Normal a.

(** A part of the state is left as it was. *)
Definition sameOn {B} (f : State -> B) (s s' : State) : Prop := f s' = f s.

(** No entry of the cache is removed or replaced. *)
Definition cacheGrows (s s' : State) : Prop := pageCache s ⊆ pageCache s'.

(** Pages keep their elements, and their canvases once they have one. *)
Definition pagesKept (s s' : State) : Prop :=
  forall n, (hasPage n s -> hasPage n s') /\ (hasCanvas n s -> hasCanvas n s').

End Viewer.

(** ** The pairing rule of the double-page layout *)

Module Pairing.

(** Modelled from the spec: the page-turn engine is not part of the
    sources; its pairing of pages is taken from the specification
    ("page 1 is a lone cover; page pageCount, if it completes an odd
    pairing, is a lone back cover; all other pages pair as (2k, 2k+1)").
    [spreadOf pageCount p] is the (left, right) pair of the spread that
    holds page [p]. *)
Definition spreadOf (pageCount p : Z) : option Z * option Z :=
  if p =? 1 then (None, Some 1)
  else
    let left := 2 * (p / 2) in
    (Some left, if left + 1 <=? pageCount then Some (left + 1) else None).

(** Modelled from the spec: the spreads of a document, in order. *)
Definition spreads (pageCount : Z) : list (list Z) :=
  [1] :: ((fun k => filter (fun p => p <= pageCount) [2 * k; 2 * k + 1])
            <$> seqZ 1 (pageCount / 2)).

(** Modelled from the spec: the index the engine reports for a spread is
    the 0-based index of its first page, as the viewer reads it
    everywhere else ([getCurrentPageIndex() + 1] is the page number of
    the cover or of a left-hand page). *)
Definition spreadStart (pageCount i : Z) : Prop :=
  i = 0 \/ (1 <= i /\ i + 1 <= pageCount /\ Z.odd i = true).

(** Modelled from the spec: the right-hand page of the spread after the
    one whose first page has index [i]. *)
Definition nextRightPage (pageCount i : Z) : option Z :=
  snd (spreadOf pageCount (2 * ((i + 1) / 2) + 2)).


End Pairing.

(** ** A book and a window to try the viewer on *)

Module Fixtures.

Import Viewer.

(** Ten pages of 600 by 800; page 4 does not rasterize, the text of
    page 6 cannot be read, pages 3, 7 and 9 mention a needle. *)
Definition bookPage (n : Z) : PdfPage :=
  {| nativeWidth := 600; nativeHeight := 800;
     rasterizes := negb (n =? 4);
     textItems :=
       if n =? 6 then None
       else if (n =? 3) || (n =? 7) || (n =? 9)
            then Some ["Find"; "the"; "Needle"]
            else Some ["Plain"; "page"] |}.

Definition book : PdfDoc :=
  {| numPages := 10;
     getPage := fun n =>
       if (1 <=? n) && (n <=? 10) then Some (bookPage n) else None |}.

(** A desktop window whose viewer box is 1000 by 1072. *)
Definition desktop : Surroundings :=
  {| innerWidth := 1000; innerHeight := 1072;
     viewerContainer := Some (1000, 1072); engineIndex := 0 |}.

(** The same window made 760 wide. *)
Definition narrow : Surroundings :=
  {| innerWidth := 760; innerHeight := 1072;
     viewerContainer := Some (760, 1072); engineIndex := 0 |}.

(** The book loaded in the desktop window. *)
Definition loaded : State := started "" (Some book) desktop.

(** The book opened and laid out, before the pages are rendered in bulk. *)
Definition opened : State :=
  exec (initFlipbook desktop)
    (set_totalPages 10 (set_pdfDoc (Some book) (initialState ""))).


(** The loaded book switched to the single-page layout. *)
Definition singleView : State := step (ViewModeClicked desktop) loaded.

(** The loaded book turned to the spread of pages 4 and 5. *)
Definition atSpread45 : State := step (EngineFlip 3) loaded.

(** The single-page view after the window was made 760 wide. *)
Definition mobileView : State := step (Resized narrow) singleView.


End Fixtures.

(** ** Zoom and pan gestures, and the rest of the chrome *)

Module Controls.

Import Viewer.

(** The variables that the listeners of [setupZoomPanControls] and
    [setupMobileControls] close over.  [startPanX] and [startPanY] have no
    value before the first right-button press and are read only while
    panning; [isMobilePanMode] is the field that [setupMobileControls]
    adds to [state]. *)
Record Pointer := {
  isPanning : bool;
  startPanX : Q;
  startPanY : Q;
  isMobilePanMode : bool;
  lastTouchX : Q;
  lastTouchY : Q
}.

Definition idle : Pointer :=
  {| isPanning := false; startPanX := 0; startPanY := 0;
     isMobilePanMode := false; lastTouchX := 0; lastTouchY := 0 |}.

(** The ['wheel'] listener. *)
Definition wheel (deltaY : Q) (s : State) : State :=
  let zoomSpeed := 15 # 100 in
  let delta := if Planner.Qgtb deltaY 0 then (- zoomSpeed)%Q else zoomSpeed in
  let newZoom := Js.min (Js.max (zoom s + delta) minZoom) maxZoom in
  if negb (Qeq_bool (zoom s) newZoom) then set_zoom newZoom s else s.

(** The ['mousedown'] listener of the table: the right button starts a
    pan. *)
Definition mouseDown (button : Z) (clientX clientY : Q)
    (st : Pointer * State) : Pointer * State :=
  let '(p, s) := st in
  if button =? 2 then
    ({| isPanning := true;
        startPanX := clientX - panX s; startPanY := clientY - panY s;
        isMobilePanMode := isMobilePanMode p;
        lastTouchX := lastTouchX p; lastTouchY := lastTouchY p |}, s)
  else st.

(** The ['mouseup'] listeners (table and document do the same). *)
Definition mouseUp (button : Z) (st : Pointer * State) : Pointer * State :=
  let '(p, s) := st in
  if (button =? 2) && isPanning p then
    ({| isPanning := false;
        startPanX := startPanX p; startPanY := startPanY p;
        isMobilePanMode := isMobilePanMode p;
        lastTouchX := lastTouchX p; lastTouchY := lastTouchY p |}, s)
  else st.

(** The ['mousemove'] listener of the document. *)
Definition mouseMove (clientX clientY : Q) (st : Pointer * State)
    : Pointer * State :=
  let '(p, s) := st in
  if negb (isPanning p) then st
  else (p, set_panY (clientY - startPanY p) (set_panX (clientX - startPanX p) s)).

(** The click listener of the pan toggle button. *)
Definition panToggle (st : Pointer * State) : Pointer * State :=
  let '(p, s) := st in
  ({| isPanning := isPanning p;
      startPanX := startPanX p; startPanY := startPanY p;
      isMobilePanMode := negb (isMobilePanMode p);
      lastTouchX := lastTouchX p; lastTouchY := lastTouchY p |}, s).

(** [handleTouchStart] of [setupMobileControls], given the positions of
    the touches. *)
Definition handleTouchStart (touches : list (Q * Q)) (st : Pointer * State)
    : Pointer * State :=
  let '(p, s) := st in
  match touches with
  | [(clientX, clientY)] =>
      if isMobilePanMode p then
        ({| isPanning := isPanning p;
            startPanX := startPanX p; startPanY := startPanY p;
            isMobilePanMode := isMobilePanMode p;
            lastTouchX := clientX; lastTouchY := clientY |}, s)
      else st
  | _ => st
  end.

(** [handleTouchMove] of [setupMobileControls]. *)
Definition handleTouchMove (touches : list (Q * Q)) (st : Pointer * State)
    : Pointer * State :=
  let '(p, s) := st in
  match touches with
  | [(clientX, clientY)] =>
      if isMobilePanMode p then
        let deltaX := (clientX - lastTouchX p)%Q in
        let deltaY := (clientY - lastTouchY p)%Q in
        let s := set_panX (panX s + deltaX) s in
        let s := set_panY (panY s + deltaY) s in
        ({| isPanning := isPanning p;
            startPanX := startPanX p; startPanY := startPanY p;
            isMobilePanMode := isMobilePanMode p;
            lastTouchX := clientX; lastTouchY := clientY |}, s)
      else st
  | _ => st
  end.

(** [updateCoverState]: the new value of [wrapper.dataset.atCover], given
    the old one. *)
Definition updateCoverState (s : State) (atCover : option string)
    : option string :=
  match pageFlip s with
  | None => atCover
  | Some engine =>
      let currentIndex := currentPageIndex engine in
      if currentIndex =? 0 then Some "front"
      else if totalPages s - 1 <=? currentIndex then Some "back"
      else None
  end.

(** [handleFileUpload] and [handleDrop], given the first file: its type
    and what the decoder makes of its bytes. *)
Definition handleFileUpload (file : option (string * option PdfDoc))
    (w : Surroundings) : Task unit :=
  match file with
  | Some (type, bytes) =>
      if String.eqb type "application/pdf" then loadPdf bytes w else ret tt
  | None => ret tt
  end.

(** *** Sessions with gestures *)

Inductive Input :=
  | Wheel (deltaY : Q)
  | MouseDown (button : Z) (clientX clientY : Q)
  | MouseUp (button : Z)
  | MouseMove (clientX clientY : Q)
  | PanToggleClicked
  | TouchStart (touches : list (Q * Q))
  | TouchMove (touches : list (Q * Q))
  | FilePicked (file : option (string * option PdfDoc)) (w : Surroundings)
  | Page (e : Event).

Definition input (i : Input) (st : Pointer * State) : Pointer * State :=
  match i with
  | Wheel deltaY => (fst st, wheel deltaY (snd st))
  | MouseDown button x y => mouseDown button x y st
  | MouseUp button => mouseUp button st
  | MouseMove x y => mouseMove x y st
  | PanToggleClicked => panToggle st
  | TouchStart touches => handleTouchStart touches st
  | TouchMove touches => handleTouchMove touches st
  | FilePicked file w => (fst st, exec (handleFileUpload file w) (snd st))
  | Page e => (fst st, step e (snd st))
  end.

Definition inputs (l : list Input) (st : Pointer * State) : Pointer * State :=
  fold_left (fun st i => input i st) l st.

(** The states of a session, gestures included. *)
Inductive live : Pointer * State -> Prop :=
  | live_start hash response w : live (idle, started hash response w)
  | live_input i st : live st -> live (input i st).

(** *** Notions used in the statements *)

Definition zoomInRange (s : State) : Prop :=
  (minZoom <= zoom s)%Q /\ (zoom s <= maxZoom)%Q.

(** The search cursor is -1 on an empty result list and an index of the
    list otherwise. *)
Definition cursorOk (s : State) : Prop :=
  (searchResults s = [] /\ currentSearchIndex s = -1) \/
  0 <= currentSearchIndex s < Z.of_nat (length (searchResults s)).

Definition pageInRange (s : State) : Prop :=
  1 <= currentPage s <= totalPages s.

(** The aspect ratio that [initFlipbook] takes: that of the first page,
    or 0.714 when there is no document or its first page cannot be had. *)
Definition aspectRatioOf (s : State) : Q :=
  match pdfDoc s with
  | Some doc =>
      match getPage doc 1 with
      | Some page =>
          (fst (getViewport page 1) / snd (getViewport page 1))%Q
      | None => 714 # 1000
      end
  | None => 714 # 1000
  end.

(** The page size that [initFlipbook] plans in the window [w]. *)
Definition plannedSize (w : Surroundings) (s : State) : Z * Z :=
  Planner.pageDimensions (availableWidth w) (availableHeight w)
    (isDoublePageMode s) (aspectRatioOf s).

(** The document knows its page count, a document goes with an engine,
    and an engine with a document and with one page element per page. *)
Definition booked (s : State) : Prop :=
  (forall doc, pdfDoc s = Some doc -> totalPages s = numPages doc) /\
  (is_Some (pdfDoc s) -> is_Some (pageFlip s)) /\
  (is_Some (pageFlip s) -> is_Some (pdfDoc s) /\ bookLaidOut s).

(** [needle] occurs in [hay]. *)
Definition occursIn (needle hay : string) : Prop :=
  exists before after, hay = before +:+ needle +:+ after.

(** The elements of the pages other than [n] are as they were. *)
Definition othersKept (n : Z) (s s' : State) : Prop :=
  forall m, m <> n -> findPage m (flipbook s') = findPage m (flipbook s).

(** A page element that holds a canvas still holds that canvas. *)
Definition canvasesKept (s s' : State) : Prop :=
  forall m el canvas,
    findPage m (flipbook s) = Some el -> content el = Some canvas ->
    exists el', findPage m (flipbook s') = Some el' /\
                content el' = Some canvas.

(** How often the decoder was asked to rasterize page [p]. *)
Definition isRenderOf (p : Z) (c : DecoderCall) : bool :=
  match c with
  | CallRender n _ => n =? p
  | _ => false
  end.

Definition renders (p : Z) (s : State) : nat :=
  length (List.filter (isRenderOf p) (decoderCalls s)).

(** Against the counts [r0], every page was rasterized once more at
    most, and not at all while its element holds no canvas. *)
Definition budget (r0 : Z -> nat) (s : State) : Prop :=
  forall p,
    (renders p s <= r0 p + 1)%nat /\
    (~ hasCanvas p s -> (renders p s <= r0 p)%nat).

(** Whatever budget [s] keeps, [s'] keeps. *)
Definition sparing (s s' : State) : Prop :=
  forall r0, budget r0 s -> budget r0 s'.

(** The pages that hold a canvas hold one still and were not rasterized
    again. *)
Definition settled (s s' : State) : Prop :=
  forall p, hasCanvas p s -> hasCanvas p s' /\ renders p s' = renders p s.

(** The text items of page [n], when the decoder gives them. *)
Definition itemsOf (doc : PdfDoc) (n : Z) : option (list string) :=
  match getPage doc n with
  | Some page => textItems page
  | None => None
  end.

(** The canvas and the text layer of the element of page [n]. *)
Definition shown (n : Z) (s : State)
    : option (option Canvas * option (list string)) :=
  (fun el => (content el, textLayer el)) <$> findPage n (flipbook s).

(** Every page element that holds a canvas has the text items of its
    page for text layer, and none when they cannot be had. *)
Definition captioned (doc : PdfDoc) (s : State) : Prop :=
  forall n canvas layer,
    shown n s = Some (Some canvas, layer) -> layer = itemsOf doc n.

(** With the document [doc], captions are kept. *)
Definition captioning (doc : PdfDoc) (s s' : State) : Prop :=
  pdfDoc s = Some doc /\ captioned doc s ->
  pdfDoc s' = Some doc /\ captioned doc s'.

(** The canvas and the backside of the element of page [n]. *)
Definition sides (n : Z) (s : State)
    : option (option Canvas * option (option Canvas)) :=
  (fun el => (content el, backside el)) <$> findPage n (flipbook s).

(** [clone] shows what [canvas] shows, at the same size. *)
Definition mirrors (clone canvas : Canvas) : Prop :=
  drawing clone = drawing canvas /\
  (canvasWidth clone, canvasHeight clone)
  = (canvasWidth canvas, canvasHeight canvas) /\
  (styleWidth clone, styleHeight clone)
  = (styleWidth canvas, styleHeight canvas).

(** In the double layout no page has a backside; in the single layout
    the backside of a page is empty until the page holds a canvas, and
    then holds a clone of it. *)
Definition mirrored (s : State) : Prop :=
  forall n front back,
    sides n s = Some (front, back) ->
    if isDoublePageMode s then back = None
    else match front with
         | None => back = Some None
         | Some canvas =>
             exists clone, back = Some (Some clone) /\ mirrors clone canvas
         end.

(** The layout is kept, and so are the backsides. *)
Definition mirroring (s s' : State) : Prop :=
  isDoublePageMode s' = isDoublePageMode s /\ (mirrored s -> mirrored s').

(** [highlightSearchMatches]: page by page, the spans of the text layer
    that get the class [highlight]. *)
Definition highlightSearchMatches (query : string) (s : State)
    : list (Z * list string) :=
  if String.eqb query "" then []
  else
    (fun el =>
       (pageNum el,
        List.filter (fun span => Js.includes (Js.toLowerCase span) query)
                    (default [] (textLayer el))))
    <$> flipbook s.

(** The events of the controls that turn pages, search or zoom; they
    start no task. *)
Definition isControl (e : Event) : bool :=
  match e with
  | PrevClicked | NextClicked | PageInputChanged _ | SearchInput _
  | SearchNext | SearchPrev | ZoomInClicked | ZoomOutClicked | DoubleClicked
  | KeyDown _ => true
  | _ => false
  end.

(** From [s] to [s'] the page count is kept, and the current page is
    either kept or set to a page of the document that the engine of [s]
    was asked to flip to. *)
Definition movedByEngine (s s' : State) : Prop :=
  totalPages s' = totalPages s /\
  (currentPage s' = currentPage s \/
   (1 <= currentPage s' <= totalPages s /\
    exists engine,
      pageFlip s = Some engine /\
      pageFlip s' = Some (engineCall (Flip (currentPage s' - 1)) engine))).

(** A function of the state that no task writes to: the fields that the
    loading, rendering and engine tasks assign do not matter to it. *)
Definition untouchedByTasks {B} (f : State -> B) : Prop :=
  (forall v s, f (set_decoderCalls v s) = f s) /\
  (forall v s, f (set_nextCanvasId v s) = f s) /\
  (forall v s, f (set_pageCache v s) = f s) /\
  (forall v s, f (set_flipbook v s) = f s) /\
  (forall v s, f (set_pageTexts v s) = f s) /\
  (forall v s, f (set_basePageWidth v s) = f s) /\
  (forall v s, f (set_basePageHeight v s) = f s) /\
  (forall v s, f (set_pageFlip v s) = f s) /\
  (forall v s, f (set_pdfDoc v s) = f s) /\
  (forall v s, f (set_totalPages v s) = f s) /\
  (forall v s, f (set_toasts v s) = f s) /\
  (forall v s, f (set_pageUnderneath v s) = f s) /\
  (forall v s, f (set_currentPage v s) = f s) /\
  (forall v s, f (set_locationHash v s) = f s).

End Controls.

(** * Properties *)

(** ** The resolution planner *)

Module PlannerProps.

Import Planner.












End PlannerProps.

(** ** Numbers printed and read back *)

Module JsProps.

Import Js.

Lemma digit_cases (d : N) :
  (d < 10)%N ->
  d = 0%N \/ d = 1%N \/ d = 2%N \/ d = 3%N \/ d = 4%N \/ d = 5%N \/
  d = 6%N \/ d = 7%N \/ d = 8%N \/ d = 9%N.
Proof. lia. Qed.

Lemma digitValue_pretty_char (d : N) :
  (d < 10)%N -> digitValue 10 (pretty_N_char d) = Some d.
Proof.
  intros H. apply digit_cases in H.
  repeat (destruct H as [-> | H]; [reflexivity |]). subst. reflexivity.
Qed.

(** A digit is neither white space, nor a sign, nor the separator. *)
Lemma pretty_char_plain (d : N) :
  (d < 10)%N ->
  isSpace (pretty_N_char d) = false /\
  pretty_N_char d <> "-"%char /\ pretty_N_char d <> "+"%char /\
  Ascii.eqb (pretty_N_char d) "="%char = false.
Proof.
  intros H. apply digit_cases in H.
  repeat (destruct H as [-> | H]; [repeat split; discriminate |]).
  subst. repeat split; discriminate.
Qed.

Lemma pretty_char_zero (d : N) :
  (1 <= d < 10)%N -> pretty_N_char d <> "0"%char.
Proof.
  intros [H1 H]. apply digit_cases in H.
  destruct H as [-> | H]; [lia |].
  repeat (destruct H as [-> | H]; [discriminate |]). subst. discriminate.
Qed.

(** Reading the digits that [pretty] printed in front of [s]. *)
Lemma parseDigits_pretty_go (x : N) :
  forall s, (0 < x)%N ->
    parseDigits 10 (pretty_N_go x s) 0 false = parseDigits 10 s x true.
Proof.
  induction (N.lt_wf_0 x) as [x _ IH]. intros s Hx.
  rewrite pretty_N_go_step by assumption.
  destruct (decide (x `div` 10 = 0)%N) as [Hq | Hq].
  - rewrite Hq, pretty_N_go_0. cbn [parseDigits].
    rewrite digitValue_pretty_char by (apply N.mod_lt; lia).
    f_equal. apply N.div_small_iff in Hq; [| lia].
    rewrite N.mod_small by assumption. lia.
  - rewrite IH; [| apply N.div_lt; lia | now apply N.neq_0_lt_0].
    cbn [parseDigits].
    rewrite digitValue_pretty_char by (apply N.mod_lt; lia).
    f_equal. pose proof (N.div_mod x 10). lia.
Qed.

(** The first digit printed is not a zero. *)
Lemma pretty_go_head (x : N) :
  forall s, (0 < x)%N ->
    exists d r, (1 <= d < 10)%N /\ pretty_N_go x s = String (pretty_N_char d) r.
Proof.
  induction (N.lt_wf_0 x) as [x _ IH]. intros s Hx.
  rewrite pretty_N_go_step by assumption.
  destruct (decide (x `div` 10 = 0)%N) as [Hq | Hq].
  - rewrite Hq, pretty_N_go_0. exists (x `mod` 10)%N, s. split; [| reflexivity].
    apply N.div_small_iff in Hq; [| lia].
    rewrite N.mod_small by assumption. lia.
  - apply IH; [apply N.div_lt; lia | now apply N.neq_0_lt_0].
Qed.

Lemma allDigits_pretty_go (x : N) :
  forall s, allDigits s = true -> allDigits (pretty_N_go x s) = true.
Proof.
  induction (N.lt_wf_0 x) as [x _ IH]. intros s Hs.
  destruct (decide (x = 0)%N) as [-> | Hx]; [now rewrite pretty_N_go_0 |].
  rewrite pretty_N_go_step by lia.
  apply IH; [apply N.div_lt; lia |].
  cbn [allDigits]. rewrite digitValue_pretty_char by (apply N.mod_lt; lia).
  exact Hs.
Qed.

Lemma split_pretty_go (x : N) :
  forall s, split "=" s = [s] ->
    split "=" (pretty_N_go x s) = [pretty_N_go x s].
Proof.
  induction (N.lt_wf_0 x) as [x _ IH]. intros s Hs.
  destruct (decide (x = 0)%N) as [-> | Hx]; [now rewrite pretty_N_go_0 |].
  rewrite pretty_N_go_step by lia.
  apply IH; [apply N.div_lt; lia |].
  cbn [split].
  destruct (pretty_char_plain (x `mod` 10)) as (_ & _ & _ & ->);
    [apply N.mod_lt; lia |].
  now rewrite Hs.
Qed.

Lemma pretty_N_unfold (x : N) :
  (0 < x)%N -> pretty x = pretty_N_go x "".
Proof.
  intros Hx. unfold pretty, pretty_N. destruct (decide (x = 0%N)); [lia | reflexivity].
Qed.

Lemma allDigits_pretty_N (x : N) : allDigits (pretty x) = true.
Proof.
  destruct (decide (x = 0)%N) as [-> | Hx]; [reflexivity |].
  rewrite pretty_N_unfold by lia. now apply allDigits_pretty_go.
Qed.

Lemma pretty_N_head (x : N) :
  exists c r, pretty x = String c r /\ c <> "-"%char.
Proof.
  destruct (decide (x = 0)%N) as [-> | Hx].
  - exists "0"%char, EmptyString. split; [reflexivity | discriminate].
  - rewrite pretty_N_unfold by lia.
    destruct (pretty_go_head x "") as (d & r & Hd & ->); [lia |].
    exists (pretty_N_char d), r. split; [reflexivity |].
    apply pretty_char_plain. lia.
Qed.

Lemma parseInt_digit_head (d : N) (r : string) :
  (1 <= d < 10)%N ->
  parseInt (String (pretty_N_char d) r)
  = match parseDigits 10 (String (pretty_N_char d) r) 0 false with
    | Some n => Some (Z.of_N n)
    | None => None
    end.
Proof.
  intros [H1 H]. apply digit_cases in H.
  destruct H as [-> | H]; [lia |].
  repeat (destruct H as [-> | H]; [reflexivity |]). subst. reflexivity.
Qed.

Lemma parseInt_minus_digit_head (d : N) (r : string) :
  (1 <= d < 10)%N ->
  parseInt (String "-" (String (pretty_N_char d) r))
  = match parseDigits 10 (String (pretty_N_char d) r) 0 false with
    | Some n => Some (- Z.of_N n)
    | None => None
    end.
Proof.
  intros [H1 H]. apply digit_cases in H.
  destruct H as [-> | H]; [lia |].
  repeat (destruct H as [-> | H]; [reflexivity |]). subst. reflexivity.
Qed.

Lemma pretty_Zpos (p : positive) : pretty (Z.pos p) = pretty_N_go (N.pos p) "".
Proof. reflexivity. Qed.

Lemma pretty_Zneg (p : positive) :
  pretty (Z.neg p) = String "-" (pretty_N_go (N.pos p) "").
Proof. reflexivity. Qed.

(** [parseInt] reads back the decimal numeral of every integer. *)
Lemma parseInt_pretty (z : Z) : parseInt (pretty z) = Some z.
Proof.
  destruct z as [| p | p].
  - reflexivity.
  - rewrite pretty_Zpos.
    destruct (pretty_go_head (N.pos p) "") as (d & r & Hd & Heq); [lia |].
    rewrite Heq, parseInt_digit_head by assumption.
    rewrite <- Heq, parseDigits_pretty_go by lia. reflexivity.
  - rewrite pretty_Zneg.
    destruct (pretty_go_head (N.pos p) "") as (d & r & Hd & Heq); [lia |].
    rewrite Heq, parseInt_minus_digit_head by assumption.
    rewrite <- Heq, parseDigits_pretty_go by lia. reflexivity.
Qed.

(** A decimal numeral holds no ["="]. *)
Lemma split_pretty (z : Z) : split "=" (pretty z) = [pretty z].
Proof.
  destruct z as [| p | p].
  - reflexivity.
  - rewrite pretty_Zpos. now apply split_pretty_go.
  - rewrite pretty_Zneg. cbn [split].
    change (Ascii.eqb "-" "=") with false. cbn iota.
    now rewrite split_pretty_go.
Qed.

(** Digits followed by a dash: the dash ends the digits. *)
Lemma digits_dash_inj (d1 : string) :
  forall d2 r1 r2,
    allDigits d1 = true -> allDigits d2 = true ->
    d1 +:+ String "-" r1 = d2 +:+ String "-" r2 -> d1 = d2 /\ r1 = r2.
Proof.
  induction d1 as [| c1 d1 IH]; intros [| c2 d2] r1 r2 H1 H2 Heq; cbn in Heq.
  - injection Heq as ->. split; reflexivity.
  - injection Heq as <- _. discriminate H2.
  - injection Heq as -> _. discriminate H1.
  - injection Heq as -> Heq.
    cbn [allDigits] in H1, H2.
    apply andb_prop in H1 as [_ H1]. apply andb_prop in H2 as [_ H2].
    destruct (IH d2 r1 r2 H1 H2 Heq) as [-> ->]. split; reflexivity.
Qed.

Lemma pretty_N_dash_inj (x y : N) (r1 r2 : string) :
  pretty x +:+ String "-" r1 = pretty y +:+ String "-" r2 -> x = y /\ r1 = r2.
Proof.
  intros Heq.
  apply digits_dash_inj in Heq as [Heq ->]; try apply allDigits_pretty_N.
  split; [| reflexivity]. now apply (inj pretty).
Qed.

Lemma pretty_N_not_dash (x : N) (r r' : string) :
  pretty x +:+ r <> String "-" r'.
Proof.
  destruct (pretty_N_head x) as (c & t & -> & Hc).
  cbn. intros [= Heq _]. now apply Hc.
Qed.

(** A numeral followed by a dash: the numeral is determined. *)
Lemma pretty_Z_dash_inj (z1 z2 : Z) (r1 r2 : string) :
  pretty z1 +:+ String "-" r1 = pretty z2 +:+ String "-" r2 ->
  z1 = z2 /\ r1 = r2.
Proof.
  assert (Hnn : forall z, 0 <= z -> pretty z = pretty (Z.to_N z))
    by (intros [| p | p] Hz; [reflexivity | reflexivity | lia]).
  assert (Hneg : forall p, pretty (Z.neg p) = String "-" (pretty (N.pos p)))
    by reflexivity.
  intros Heq.
  destruct (Z.neg_nonneg_cases z1) as [Hz1 | Hz1],
           (Z.neg_nonneg_cases z2) as [Hz2 | Hz2].
  - destruct z1 as [| p1 | p1], z2 as [| p2 | p2]; try lia.
    rewrite !Hneg in Heq. cbn in Heq. injection Heq as Heq.
    apply pretty_N_dash_inj in Heq as [[= ->] ->]. split; reflexivity.
  - destruct z1 as [| p1 | p1]; try lia.
    rewrite Hneg, (Hnn z2) in Heq by assumption. cbn in Heq.
    symmetry in Heq. now apply pretty_N_not_dash in Heq.
  - destruct z2 as [| p2 | p2]; try lia.
    rewrite Hneg, (Hnn z1) in Heq by assumption. cbn in Heq.
    now apply pretty_N_not_dash in Heq.
  - rewrite (Hnn z1), (Hnn z2) in Heq by assumption.
    apply pretty_N_dash_inj in Heq as [Heq ->]. split; [lia | reflexivity].
Qed.

End JsProps.

(** ** Tasks: frame rules *)

Module TaskProps.

Import Viewer.
Local Open Scope task_scope.

Section Keeps.

Context (R : State -> State -> Prop) `{!PreOrder R}.

Lemma keeps_ret {A} (a : A) : keeps R (ret a).
Proof. intros s. reflexivity. Qed.

Lemma keeps_throw {A} (e : Exn) : keeps R (@throw A e).
Proof. intros s. reflexivity. Qed.

Lemma keeps_get : keeps R get.
Proof. intros s. reflexivity. Qed.

Lemma keeps_modify (f : State -> State) :
  (forall s, R s (f s)) -> keeps R (modify f).
Proof. intros H s. apply H. Qed.

Lemma keeps_bind {A B} (t : Task A) (k : A -> Task B) :
  keeps R t -> (forall a, keeps R (k a)) -> keeps R (bind t k).
Proof.
  intros Ht Hk s. unfold bind. specialize (Ht s).
  destruct (t s) as [[a | e] s']; cbn in *.
  - etransitivity; [exact Ht | apply Hk].
  - exact Ht.
Qed.

Lemma keeps_tryCatch {A} (body : Task A) (handler : Exn -> Task A) :
  keeps R body -> (forall e, keeps R (handler e)) ->
  keeps R (tryCatch body handler).
Proof.
  intros Hb Hh s. unfold tryCatch. specialize (Hb s).
  destruct (body s) as [[a | e] s']; cbn in *.
  - exact Hb.
  - etransitivity; [exact Hb | apply Hh].
Qed.

Lemma keeps_forEach {A} (l : list A) (f : A -> Task unit) :
  (forall x, keeps R (f x)) -> keeps R (forEach l f).
Proof.
  intros Hf. induction l as [| x l IH]; cbn [forEach].
  - apply keeps_ret.
  - apply keeps_bind; [apply Hf | intros _; exact IH].
Qed.

Lemma keeps_promiseAll (tasks : list (Task unit)) :
  Forall (keeps R) tasks -> keeps R (promiseAll tasks).
Proof.
  induction 1 as [| t tasks Ht _ IH]; cbn [promiseAll].
  - apply keeps_ret.
  - intros s. specialize (Ht s). destruct (t s) as [c s']. cbn in Ht.
    specialize (IH s'). destruct (promiseAll tasks s') as [c' s'']. cbn in *.
    etransitivity; eassumption.
Qed.

End Keeps.

Global Instance sameOn_preorder {B} (f : State -> B) : PreOrder (sameOn f).
Proof.
  split.
  - intros s. reflexivity.
  - intros s1 s2 s3 H12 H23. unfold sameOn in *. congruence.
Qed.

Global Instance cacheGrows_preorder : PreOrder cacheGrows.
Proof.
  split.
  - intros s. unfold cacheGrows. reflexivity.
  - intros s1 s2 s3 H12 H23. unfold cacheGrows in *. etransitivity; eassumption.
Qed.

Global Instance pagesKept_preorder : PreOrder pagesKept.
Proof.
  split.
  - intros s n. split; trivial.
  - intros s1 s2 s3 H12 H23 n.
    destruct (H12 n) as [Ha Hb], (H23 n) as [Hc Hd]. split; auto.
Qed.

(** Completion without exception. *)

Lemma total_ret {A} (a : A) : total (ret a).
Proof. intros s. exists a. reflexivity. Qed.

Lemma total_get : total get.
Proof. intros s. exists s. reflexivity. Qed.

Lemma total_modify (f : State -> State) : total (modify f).
Proof. intros s. exists tt. reflexivity. Qed.

Lemma total_bind {A B} (t : Task A) (k : A -> Task B) :
  total t -> (forall a, total (k a)) -> total (bind t k).
Proof.
  intros Ht Hk s. unfold bind. destruct (Ht s) as [a Ha].
  destruct (t s) as [c s']. cbn in Ha. subst c. apply Hk.
Qed.

Lemma total_tryCatch {A} (body : Task A) (handler : Exn -> Task A) :
  (forall e, total (handler e)) -> total (tryCatch body handler).
Proof.
  intros Hh s. unfold tryCatch. destruct (body s) as [[a | e] s'].
  - exists a. reflexivity.
  - apply Hh.
Qed.

Lemma total_forEach {A} (l : list A) (f : A -> Task unit) :
  (forall x, total (f x)) -> total (forEach l f).
Proof.
  intros Hf. induction l as [| x l IH]; cbn [forEach].
  - apply total_ret.
  - apply total_bind; [apply Hf | intros _; exact IH].
Qed.

Lemma total_promiseAll (tasks : list (Task unit)) :
  Forall total tasks -> total (promiseAll tasks).
Proof.
  induction 1 as [| t tasks Ht _ IH]; cbn [promiseAll].
  - apply total_ret.
  - intros s. destruct (Ht s) as [a Ha]. destruct (t s) as [c s'].
    cbn in Ha. subst c.
    destruct (IH s') as [a' Ha']. destruct (promiseAll tasks s') as [c' s''].
    cbn in *. subst c'. exists a'. reflexivity.
Qed.

End TaskProps.

(** ** The viewer: what each task leaves alone *)

Module FrameProps.

Import Viewer TaskProps.
Local Open Scope task_scope.

Create HintDb frames.

(** Decompose a task into its steps; [fin] closes the single writes. *)
Ltac frame_open :=
  unfold init, loadPdf, loadPdfFromUrl, getDocument, initFlipbook,
    onFlip, onChangeState, showPageUnderneath, renderVisiblePages,
    preRenderAllPages, renderPageContent, addTextLayer, onPage,
    extractAllPageTexts, extractPageText, createErrorPage, cloneCanvas,
    createCanvas,
    pageGetTextContent, pageRender, docGetPage, logCall.

Ltac frame_step fin :=
  cbv zeta;
  first
    [ solve [auto with frames]
    | lazymatch goal with
      | |- keeps _ (ret _) => apply keeps_ret; apply _
      | |- keeps _ (throw _) => apply keeps_throw; apply _
      | |- keeps _ get => apply keeps_get; apply _
      | |- keeps _ (bind _ _) => apply keeps_bind; [apply _ | | intros ?]
      | |- keeps _ (tryCatch _ _) =>
          apply keeps_tryCatch; [apply _ | | intros ?]
      | |- keeps _ (forEach _ _) => apply keeps_forEach; [apply _ | intros ?]
      | |- keeps _ (promiseAll (_ <$> _)) =>
          apply keeps_promiseAll;
          [apply _ | apply Forall_fmap, Forall_true; intros ?; unfold compose]
      | |- keeps _ (modify _) => apply keeps_modify; intros ?; fin
      | |- keeps _ (match ?x with _ => _ end) => destruct x
      end ].

Ltac frame fin := frame_open; repeat frame_step fin.

Ltac same_field :=
  unfold sameOn, hidePageUnderneath; repeat case_match; reflexivity.

(** The device class and the layout mode are written by
    [checkMobileMode] and [toggleViewMode] only. *)


Lemma renderPage_mode p w h : keeps (sameOn mode) (renderPage p w h).
Proof. unfold renderPage. frame same_field. Qed.
#[export] Hint Resolve renderPage_mode : frames.

Lemma initFlipbook_mode w : keeps (sameOn mode) (initFlipbook w).
Proof. frame same_field. Qed.

Lemma loadPdf_mode file w : keeps (sameOn mode) (loadPdf file w).
Proof. frame same_field. Qed.

Lemma loadPdfFromUrl_mode file w : keeps (sameOn mode) (loadPdfFromUrl file w).
Proof. frame same_field. Qed.

Lemma onFlip_mode data : keeps (sameOn mode) (onFlip data).
Proof. frame same_field. Qed.

Lemma onChangeState_mode data : keeps (sameOn mode) (onChangeState data).
Proof. frame same_field. Qed.

(** The current page is written by the fragment check, by [goToPage],
    by the ['flip'] listener and by [openNewPdf]; loading leaves it. *)

Lemma renderPage_currentPage p w h : keeps (sameOn currentPage) (renderPage p w h).
Proof. unfold renderPage. frame same_field. Qed.
#[export] Hint Resolve renderPage_currentPage : frames.

Lemma loadPdfFromUrl_currentPage file w :
  keeps (sameOn currentPage) (loadPdfFromUrl file w).
Proof. frame same_field. Qed.

(** *** [renderPage], case by case *)

Ltac task_run :=
  unfold renderPage, createErrorPage, createCanvas, cloneCanvas, pageRender,
    pageGetTextContent, docGetPage, logCall;
  unfold tryCatch, bind, get, ret, throw, modify;
  cbn.

Lemma renderPage_hit p w h s canvas :
  pageCache s !! cacheKey p w h = Some canvas ->
  renderPage p w h s = (Normal canvas, s).
Proof. intros H. task_run. rewrite H. reflexivity. Qed.

(** A miss on a page that decodes: the decoder is asked for the page and
    for its bitmap, and the canvas goes into the cache under the key. *)
Lemma renderPage_decoded p w h s doc :
  pageCache s !! cacheKey p w h = None ->
  pdfDoc s = Some doc -> decodes doc p = true ->
  exists canvas scale,
    renderPage p w h s =
      (Normal canvas,
       set_pageCache (<[cacheKey p w h := canvas]> (pageCache s))
         (set_decoderCalls
            (CallRender p scale :: CallGetPage p :: decoderCalls s)
            (set_nextCanvasId (nextCanvasId s + 1)%N s))) /\
    canvasId canvas = nextCanvasId s /\
    drawing canvas = PageBitmap p scale.
Proof.
  intros Hmiss Hdoc Hdec. unfold decodes in Hdec.
  destruct (getPage doc p) as [page |] eqn:Hpage; [| discriminate].
  task_run. rewrite Hmiss, Hdoc. cbn. rewrite Hpage. cbn. rewrite Hdec. cbn.
  eexists _, _. repeat split.
Qed.

(** A miss on a page that does not decode: the placeholder comes back
    and the cache is left as it was. *)
Lemma renderPage_failed p w h s doc :
  pageCache s !! cacheKey p w h = None ->
  pdfDoc s = Some doc -> decodes doc p = false ->
  exists canvas calls s',
    renderPage p w h s = (Normal canvas, s') /\
    isPlaceholder w h canvas /\
    pageCache s' = pageCache s /\
    decoderCalls s' = calls ++ CallGetPage p :: decoderCalls s /\
    pdfDoc s' = pdfDoc s /\
    (nextCanvasId s <= canvasId canvas < nextCanvasId s')%N.
Proof.
  intros Hmiss Hdoc Hdec. unfold decodes in Hdec.
  task_run. rewrite Hmiss, Hdoc. cbn.
  destruct (getPage doc p) as [page |] eqn:Hpage; cbn.
  - rewrite Hdec. cbn. eexists _, [_], _.
    repeat split; cbn; try reflexivity; try assumption; lia.
  - eexists _, [], _. repeat split; cbn; try reflexivity; try assumption; lia.
Qed.

Lemma renderPage_cacheGrows p w h : keeps cacheGrows (renderPage p w h).
Proof.
  intros s. unfold cacheGrows.
  destruct (pageCache s !! cacheKey p w h) as [canvas |] eqn:Hkey.
  - rewrite (renderPage_hit _ _ _ _ _ Hkey). reflexivity.
  - revert Hkey. task_run. intros Hkey. rewrite Hkey.
    repeat (case_match; simplify_eq/=); try reflexivity.
    now apply insert_subseteq.
Qed.
#[export] Hint Resolve renderPage_cacheGrows : frames.

Lemma renderPage_total p w h : total (renderPage p w h).
Proof.
  intros s. task_run.
  repeat (case_match; simplify_eq/=); eexists; reflexivity.
Qed.

(** *** The page elements *)

Lemma gentle_putCanvas canvas : gentle (putCanvas canvas).
Proof. intros el. split; [reflexivity | intros _; now eexists]. Qed.

Lemma gentle_putTextLayer spans : gentle (putTextLayer spans).
Proof. intros el. split; [reflexivity | trivial]. Qed.

Lemma gentle_putBackside canvas : gentle (putBackside canvas).
Proof. intros el. split; [reflexivity | trivial]. Qed.

#[export] Hint Resolve gentle_putCanvas gentle_putTextLayer gentle_putBackside
  : frames.

Lemma findPage_updatePage_eq n f pages :
  gentle f -> findPage n (updatePage n f pages) = f <$> findPage n pages.
Proof.
  intros Hf. unfold findPage. induction pages as [| el pages IH]; [reflexivity |].
  cbn. destruct (pageNum el =? n) eqn:Hel; cbn.
  - destruct (Hf el) as [-> _]. now rewrite Hel.
  - now rewrite Hel.
Qed.

Lemma findPage_updatePage_ne n m f pages :
  gentle f -> m <> n -> findPage m (updatePage n f pages) = findPage m pages.
Proof.
  intros Hf Hne. unfold findPage. induction pages as [| el pages IH]; [reflexivity |].
  cbn. destruct (pageNum el =? n) eqn:Hel; cbn.
  - destruct (Hf el) as [-> _].
    destruct (pageNum el =? m) eqn:Hm; [lia | reflexivity].
  - now rewrite IH.
Qed.

Lemma pageNums_updatePage n f pages :
  gentle f -> pageNum <$> updatePage n f pages = pageNum <$> pages.
Proof.
  intros Hf. induction pages as [| el pages IH]; [reflexivity |].
  cbn. destruct (pageNum el =? n); cbn.
  - now destruct (Hf el) as [-> _].
  - now rewrite IH.
Qed.

Lemma pagesKept_updatePage n f s :
  gentle f -> pagesKept s (set_flipbook (updatePage n f (flipbook s)) s).
Proof.
  intros Hf m. unfold hasPage, hasCanvas. cbn [flipbook set_flipbook].
  destruct (decide (m = n)) as [-> | Hne].
  - rewrite findPage_updatePage_eq by assumption. split.
    + intros [el ->]. now eexists.
    + intros (el & canvas & -> & Hc). cbn.
      destruct (Hf el) as [_ Hs]. destruct Hs as [c' Hc']; [exists canvas; exact Hc |].
      eauto.
  - rewrite findPage_updatePage_ne by assumption. split; trivial.
Qed.

Ltac pages_field :=
  first
    [ apply pagesKept_updatePage; auto with frames
    | unfold hidePageUnderneath; repeat case_match;
      intros ?; split; intros H; exact H ].

Lemma renderPage_pagesKept p w h : keeps pagesKept (renderPage p w h).
Proof. unfold renderPage. frame pages_field. Qed.
#[export] Hint Resolve renderPage_pagesKept : frames.

Lemma renderPageContent_pagesKept n : keeps pagesKept (renderPageContent n).
Proof. frame pages_field. Qed.

Lemma renderPage_flipbook p w h : keeps (sameOn flipbook) (renderPage p w h).
Proof. unfold renderPage. frame same_field. Qed.

Lemma renderPageContent_total n : total (renderPageContent n).
Proof.
  unfold renderPageContent, addTextLayer, onPage, cloneCanvas.
  apply total_bind; [apply total_get | intros s].
  destruct (findPage n (flipbook s)) as [el |]; [| apply total_ret].
  destruct (content el); [apply total_ret |].
  apply total_bind; [apply renderPage_total | intros canvas].
  apply total_bind; [apply total_modify | intros _].
  apply total_bind; [apply total_tryCatch; intros _; apply total_ret | intros _].
  apply total_bind; [apply total_get | intros s'].
  destruct (backside el); [| apply total_ret].
  destruct (negb (isDoublePageMode s')); [| apply total_ret].
  apply total_bind; [| intros c; apply total_modify].
  apply total_bind; [apply total_get | intros s''].
  apply total_bind; [apply total_modify | intros _; apply total_ret].
Qed.

(** Once [renderPageContent] has run, the page holds a canvas. *)
Lemma renderPageContent_hasCanvas n s :
  hasPage n s -> hasCanvas n (exec (renderPageContent n) s).
Proof.
  intros [el Hel]. unfold exec, renderPageContent.
  unfold bind at 1, get at 1. rewrite Hel.
  destruct (content el) as [canvas |] eqn:Hc.
  - cbn. exists el, canvas. split; assumption.
  - unfold bind at 1.
    destruct (renderPage_total n (basePageWidth s) (basePageHeight s) s)
      as [canvas Hr].
    pose proof (renderPage_flipbook n (basePageWidth s) (basePageHeight s) s)
      as Hbook.
    destruct (renderPage n (basePageWidth s) (basePageHeight s) s) as [c s1].
    cbn in Hr, Hbook. subst c. unfold sameOn in Hbook.
    unfold bind at 1, onPage at 1, modify at 1.
    set (s2 := set_flipbook _ s1).
    assert (H2 : hasCanvas n s2).
    { unfold hasCanvas, s2. cbn [flipbook set_flipbook].
      rewrite findPage_updatePage_eq, Hbook, Hel by auto with frames.
      cbn. eauto. }
    match goal with
    | |- hasCanvas n (snd (?t s2)) =>
        assert (Hk : keeps pagesKept t); [| apply (Hk s2 n), H2]
    end.
    frame pages_field.
Qed.

(** *** The two batches *)

Lemma promiseAll_renders (l : list Z) :
  forall s, (forall i, i ∈ l -> hasPage i s) ->
    forall i, i ∈ l ->
      hasCanvas i (snd (promiseAll (renderPageContent <$> l) s)).
Proof.
  induction l as [| x l IH]; intros s Hpages i Hi.
  - inversion Hi.
  - cbn [fmap list_fmap promiseAll].
    pose proof (renderPageContent_pagesKept x s) as Hkept.
    pose proof (renderPageContent_hasCanvas x s (Hpages x ltac:(left))) as Hx.
    unfold exec in Hx.
    destruct (renderPageContent x s) as [c s1]. cbn in Hkept, Hx.
    assert (Hrest : keeps pagesKept (promiseAll (renderPageContent <$> l))).
    { apply keeps_promiseAll; [apply _ |].
      apply Forall_fmap, Forall_true. intros n.
      apply renderPageContent_pagesKept. }
    specialize (Hrest s1).
    specialize (IH s1).
    destruct (promiseAll (renderPageContent <$> l) s1) as [c' s2].
    cbn in Hrest, IH |- *.
    destruct (decide (i ∈ l)) as [Hin | Hnin].
    + apply IH; [| assumption].
      intros j Hj. apply (Hkept j), Hpages. now right.
    + apply elem_of_cons in Hi as [-> | Hi]; [| contradiction].
      now apply (Hrest x).
Qed.

Lemma preRenderAllPages_total : total preRenderAllPages.
Proof.
  unfold preRenderAllPages.
  apply total_bind; [apply total_get | intros s].
  apply total_promiseAll, Forall_fmap, Forall_true. intros n.
  apply renderPageContent_total.
Qed.

(** One turn of the loop of [extractAllPageTexts]. *)
Lemma extractPageText_step doc i s :
  pdfDoc s = Some doc ->
  exists s',
    extractPageText i s = (Normal tt, s') /\
    pageTexts s' = <[i := default "" (pageText doc i)]> (pageTexts s) /\
    pdfDoc s' = Some doc /\ totalPages s' = totalPages s.
Proof.
  intros Hdoc. unfold extractPageText, pageText. task_run. rewrite Hdoc. cbn.
  destruct (getPage doc i) as [page |]; cbn.
  - destruct (textItems page) as [items |]; cbn;
      eexists; repeat split; assumption.
  - eexists; repeat split; assumption.
Qed.

Lemma forEach_extracts doc (l : list Z) :
  forall s, pdfDoc s = Some doc ->
    exists s',
      forEach l extractPageText s = (Normal tt, s') /\
      pdfDoc s' = Some doc /\ totalPages s' = totalPages s /\
      forall i,
        pageTexts s' !! i =
          if decide (i ∈ l) then Some (default "" (pageText doc i))
          else pageTexts s !! i.
Proof.
  induction l as [| x l IH]; intros s Hdoc.
  - exists s. split; [reflexivity |]. split; [assumption |].
    split; [reflexivity |]. intros i.
    destruct (decide (i ∈ [])) as [Hi | _]; [inversion Hi | reflexivity].
  - destruct (extractPageText_step doc x s Hdoc) as (s1 & Hx & Ht1 & Hd1 & Hn1).
    destruct (IH s1 Hd1) as (s2 & Hl & Hd2 & Hn2 & Ht2).
    exists s2. cbn [forEach]. unfold bind. rewrite Hx, Hl.
    split; [reflexivity |]. split; [assumption |]. split; [congruence |].
    intros i. rewrite Ht2, Ht1.
    destruct (decide (i ∈ l)) as [Hi | Hi].
    + rewrite decide_True by now right. reflexivity.
    + destruct (decide (i = x)) as [-> | Hne].
      * rewrite decide_True by now left. now rewrite lookup_insert_eq.
      * rewrite decide_False by (rewrite elem_of_cons; tauto).
        now rewrite lookup_insert_ne.
Qed.

Lemma extractAllPageTexts_total : total extractAllPageTexts.
Proof.
  unfold extractAllPageTexts.
  apply total_bind; [apply total_get | intros s].
  apply total_forEach. intros i. unfold extractPageText.
  apply total_tryCatch. intros _. apply total_modify.
Qed.

Lemma elem_of_seqZ_1 (n i : Z) : i ∈ seqZ 1 n <-> 1 <= i <= n.
Proof. rewrite elem_of_seqZ. lia. Qed.

Lemma findPage_is_Some (i : Z) (pages : list PageEl) :
  i ∈ pageNum <$> pages -> is_Some (findPage i pages).
Proof.
  unfold findPage. induction pages as [| el pages IH]; cbn.
  - intros H. inversion H.
  - intros H. destruct (pageNum el =? i) eqn:Hel; [now eexists |].
    apply elem_of_cons in H as [-> | H]; [lia | now apply IH].
Qed.

Lemma bookLaidOut_hasPage (s : State) (i : Z) :
  bookLaidOut s -> 1 <= i <= totalPages s -> hasPage i s.
Proof.
  intros Hbook Hi. apply findPage_is_Some. rewrite Hbook.
  now apply elem_of_seqZ_1.
Qed.

End FrameProps.

(** ** Rendering and the cache *)

Module RenderProps.

Import Viewer TaskProps FrameProps.
Local Open Scope task_scope.

(** The key tells the page and the size apart. *)
Lemma cacheKey_inj p w h p' w' h' :
  cacheKey p' w' h' = cacheKey p w h -> p' = p /\ w' = w /\ h' = h.
Proof.
  unfold cacheKey. intros H.
  apply JsProps.pretty_Z_dash_inj in H as [-> H].
  apply JsProps.pretty_Z_dash_inj in H as [-> H].
  apply (inj pretty) in H. subst. repeat split.
Qed.

(** C7, as the code has it: for every page that decodes (so that the
    first call leaves a real artifact behind rather than the placeholder
    of a failed decode), a second [renderPage] with the same page, width
    and height, in any later state whose cache still has the entries of
    the first call, returns the very canvas of the first call and
    changes nothing, the decoder's log included.  The hit is on the exact
    key: equal keys mean equal page, width and height, and the first call
    adds no entry under any other triple. *)
Theorem second_render_hits p w h s doc :
  pdfDoc s = Some doc -> decodes doc p = true ->
  exists canvas s1,
    renderPage p w h s = (Normal canvas, s1) /\
    (forall s2, pageCache s1 ⊆ pageCache s2 ->
       renderPage p w h s2 = (Normal canvas, s2)) /\
    (forall p' w' h',
       cacheKey p' w' h' = cacheKey p w h -> p' = p /\ w' = w /\ h' = h) /\
    (forall p' w' h',
       (p', w', h') <> (p, w, h) ->
       pageCache s1 !! cacheKey p' w' h' = pageCache s !! cacheKey p' w' h').
Proof.
  intros Hdoc Hdec.
  assert (Hhit : forall canvas s1,
             pageCache s1 !! cacheKey p w h = Some canvas ->
             forall s2, pageCache s1 ⊆ pageCache s2 ->
             renderPage p w h s2 = (Normal canvas, s2)).
  { intros canvas s1 Hin s2 Hsub. apply renderPage_hit.
    eapply lookup_weaken; eassumption. }
  destruct (pageCache s !! cacheKey p w h) as [canvas |] eqn:Hkey.
  - exists canvas, s. rewrite (renderPage_hit _ _ _ _ _ Hkey).
    split; [reflexivity |]. split; [now apply Hhit |].
    split; [apply cacheKey_inj | reflexivity].
  - destruct (renderPage_decoded p w h s doc Hkey Hdoc Hdec)
      as (canvas & scale & Hr & _ & _).
    eexists canvas, _. split; [exact Hr |].
    split; [| split; [apply cacheKey_inj |]].
    + apply Hhit. cbn. apply lookup_insert_eq.
    + intros p' w' h' Hne. cbn. apply lookup_insert_ne.
      intros Heq. symmetry in Heq. apply cacheKey_inj in Heq as (-> & -> & ->).
      now apply Hne.
Qed.

Lemma second_render_hits_witness :
  exists canvas s1,
    renderPage 2 500 666 Fixtures.loaded = (Normal canvas, s1) /\
    (forall s2, pageCache s1 ⊆ pageCache s2 ->
       renderPage 2 500 666 s2 = (Normal canvas, s2)) /\
    (forall p' w' h',
       cacheKey p' w' h' = cacheKey 2 500 666 ->
       p' = 2 /\ w' = 500 /\ h' = 666) /\
    (forall p' w' h',
       (p', w', h') <> (2, 500, 666) ->
       pageCache s1 !! cacheKey p' w' h'
       = pageCache Fixtures.loaded !! cacheKey p' w' h').
Proof.
  apply (second_render_hits 2 500 666 Fixtures.loaded Fixtures.book);
    reflexivity.
Defined.

(** C7 as stated fails on a valid page that does not decode: page 4 of
    the book, rendered twice in a row at the size in use, is not served
    from the cache the second time; the decoder is asked again and
    another canvas comes back. *)
Lemma second_render_of_failed_page_misses :
  let s := Fixtures.loaded in
  let '(c1, s1) := renderPage 4 500 666 s in
  let '(c2, s2) := renderPage 4 500 666 s1 in
  (1 <= 4 <= totalPages s) /\
  (basePageWidth s, basePageHeight s) = (500, 666) /\
  pageCache s1 !! cacheKey 4 500 666 = None /\
  decoderCalls s2 =
    CallRender 4 (1332 # 800) :: CallGetPage 4 :: decoderCalls s1 /\
  c2 <> c1.
Proof. vm_compute. repeat split; try discriminate. Qed.

(** C10: when rasterizing fails, the placeholder is returned at the
    target size and nothing is written to the cache, so the key is still
    absent and the next [renderPage] with the same page, width and
    height asks the decoder for the page again and builds another
    placeholder. *)
Theorem placeholder_not_cached p w h s doc :
  pageCache s !! cacheKey p w h = None ->
  pdfDoc s = Some doc -> decodes doc p = false ->
  exists canvas s1,
    renderPage p w h s = (Normal canvas, s1) /\
    isPlaceholder w h canvas /\
    pageCache s1 = pageCache s /\
    pageCache s1 !! cacheKey p w h = None /\
    exists canvas2 calls s2,
      renderPage p w h s1 = (Normal canvas2, s2) /\
      decoderCalls s2 = calls ++ CallGetPage p :: decoderCalls s1 /\
      isPlaceholder w h canvas2 /\
      canvasId canvas2 <> canvasId canvas /\
      pageCache s2 = pageCache s.
Proof.
  intros Hkey Hdoc Hdec.
  destruct (renderPage_failed p w h s doc Hkey Hdoc Hdec)
    as (canvas & calls & s1 & Hr & Hph & Hcache & _ & Hdoc1 & Hid).
  assert (Hkey1 : pageCache s1 !! cacheKey p w h = None) by now rewrite Hcache.
  rewrite Hdoc in Hdoc1.
  destruct (renderPage_failed p w h s1 doc Hkey1 Hdoc1 Hdec)
    as (canvas2 & calls2 & s2 & Hr2 & Hph2 & Hcache2 & Hcalls2 & _ & Hid2).
  exists canvas, s1. repeat (split; [assumption |]).
  exists canvas2, calls2, s2. repeat (split; [assumption |]).
  split; [lia | congruence].
Qed.

Lemma placeholder_not_cached_witness :
  exists canvas s1,
    renderPage 4 500 666 Fixtures.loaded = (Normal canvas, s1) /\
    isPlaceholder 500 666 canvas /\
    pageCache s1 = pageCache Fixtures.loaded /\
    pageCache s1 !! cacheKey 4 500 666 = None /\
    exists canvas2 calls s2,
      renderPage 4 500 666 s1 = (Normal canvas2, s2) /\
      decoderCalls s2 = calls ++ CallGetPage 4 :: decoderCalls s1 /\
      isPlaceholder 500 666 canvas2 /\
      canvasId canvas2 <> canvasId canvas /\
      pageCache s2 = pageCache Fixtures.loaded.
Proof.
  apply (placeholder_not_cached 4 500 666 Fixtures.loaded Fixtures.book);
    reflexivity.
Defined.

(** The page numbers of the flipbook and the page count, together. *)
Lemma renderPage_layout p w h :
  keeps (sameOn (fun s => (pageNum <$> flipbook s, totalPages s)))
        (renderPage p w h).
Proof. unfold renderPage. frame same_field. Qed.
#[local] Hint Resolve renderPage_layout : frames.

Ltac layout_field :=
  unfold sameOn; cbn [flipbook set_flipbook totalPages];
  first [ reflexivity
        | rewrite pageNums_updatePage by auto with frames; reflexivity ].

Lemma renderVisiblePages_layout :
  keeps (sameOn (fun s => (pageNum <$> flipbook s, totalPages s)))
        renderVisiblePages.
Proof. frame layout_field. Qed.

(** [initFlipbook] makes one element per page, in order. *)
Lemma initFlipbook_lays_out w s : bookLaidOut (exec (initFlipbook w) s).
Proof.
  unfold exec, initFlipbook.
  unfold bind at 1, get at 1.
  set (ratioTask := match pdfDoc s with Some _ => _ | None => _ end).
  assert (Hratio : total ratioTask /\ keeps (sameOn totalPages) ratioTask).
  { unfold ratioTask. destruct (pdfDoc s).
    - split; [apply total_tryCatch; intros _; apply total_ret |].
      frame same_field.
    - split; [apply total_ret | frame same_field]. }
  destruct Hratio as [Htot Hsame].
  unfold bind at 1. destruct (Htot s) as [ratio Hr]. specialize (Hsame s).
  destruct (ratioTask s) as [c s0]. cbn in Hr, Hsame. subst c.
  unfold bind at 1, get at 1.
  destruct (Planner.pageDimensions _ _ _ _) as [pageWidth pageHeight].
  repeat (unfold bind at 1, modify at 1).
  match goal with
  | |- bookLaidOut (snd (renderVisiblePages ?st)) => set (s1 := st)
  end.
  assert (H1 : bookLaidOut s1).
  { unfold bookLaidOut, s1. cbn [flipbook set_flipbook set_pageFlip totalPages
      set_basePageWidth set_basePageHeight].
    rewrite <- list_fmap_compose.
    rewrite <- (list_fmap_id (seqZ 1 _)) at 2.
    apply list_fmap_ext. intros k i _. reflexivity. }
  clearbody s1.
  pose proof (renderVisiblePages_layout s1) as Hk.
  unfold sameOn in Hk. injection Hk as Hnums Htotal.
  unfold bookLaidOut in *. congruence.
Qed.

(** C9: failures of single pages stay local.  [renderPage] never
    completes with an exception, and on a page whose rasterization fails
    it returns the placeholder at the target size.  [extractAllPageTexts]
    never throws and leaves a text for every page from 1 to the page
    count: the lower-cased text when extraction succeeds, the empty text
    when it fails.  [preRenderAllPages] never throws and leaves a canvas
    in the element of every page from 1 to the page count. *)
Theorem failures_stay_local :
  (forall p w h, total (renderPage p w h)) /\
  (forall p w h s doc,
     pageCache s !! cacheKey p w h = None ->
     pdfDoc s = Some doc -> decodes doc p = false ->
     exists canvas,
       fst (renderPage p w h s) = Normal canvas /\ isPlaceholder w h canvas) /\
  total extractAllPageTexts /\
  (forall s doc i,
     pdfDoc s = Some doc -> 1 <= i <= totalPages s ->
     pageTexts (exec extractAllPageTexts s) !! i
     = Some (default "" (pageText doc i))) /\
  (forall s doc i,
     pdfDoc s = Some doc -> 1 <= i <= totalPages s -> pageText doc i = None ->
     pageTexts (exec extractAllPageTexts s) !! i = Some "") /\
  total preRenderAllPages /\
  (forall s i,
     bookLaidOut s -> 1 <= i <= totalPages s ->
     hasCanvas i (exec preRenderAllPages s)) /\
  (forall w s i,
     1 <= i <= totalPages (exec (initFlipbook w) s) ->
     hasCanvas i (exec preRenderAllPages (exec (initFlipbook w) s))).
Proof.
  assert (Htexts : forall s doc i,
     pdfDoc s = Some doc -> 1 <= i <= totalPages s ->
     pageTexts (exec extractAllPageTexts s) !! i
     = Some (default "" (pageText doc i))).
  { intros s doc i Hdoc Hi. unfold exec, extractAllPageTexts.
    unfold bind at 1, get at 1.
    destruct (forEach_extracts doc (seqZ 1 (totalPages s)) s Hdoc)
      as (s' & -> & _ & _ & Hlook).
    cbn. rewrite Hlook, decide_True; [reflexivity |].
    now apply elem_of_seqZ_1. }
  assert (Hpages : forall s i,
     bookLaidOut s -> 1 <= i <= totalPages s ->
     hasCanvas i (exec preRenderAllPages s)).
  { intros s i Hbook Hi. unfold exec, preRenderAllPages.
    unfold bind at 1, get at 1.
    apply promiseAll_renders; [| now apply elem_of_seqZ_1].
    intros j Hj. apply bookLaidOut_hasPage; [assumption |].
    now apply elem_of_seqZ_1. }
  split; [exact renderPage_total |].
  split.
  { intros p w h s doc Hkey Hdoc Hdec.
    destruct (renderPage_failed p w h s doc Hkey Hdoc Hdec)
      as (canvas & calls & s' & -> & Hph & _).
    exists canvas. split; [reflexivity | assumption]. }
  split; [exact extractAllPageTexts_total |].
  split; [exact Htexts |].
  split.
  { intros s doc i Hdoc Hi Hnone. rewrite (Htexts s doc i Hdoc Hi), Hnone.
    reflexivity. }
  split; [exact preRenderAllPages_total |].
  split; [exact Hpages |].
  intros w s i Hi. apply Hpages; [apply initFlipbook_lays_out | assumption].
Qed.

Lemma failures_stay_local_witness :
  (exists canvas,
     fst (renderPage 4 500 666 Fixtures.opened) = Normal canvas /\
     isPlaceholder 500 666 canvas) /\
  pageTexts (exec extractAllPageTexts Fixtures.opened) !! 6 = Some "" /\
  hasCanvas 4 (exec preRenderAllPages Fixtures.opened).
Proof.
  destruct failures_stay_local as (_ & Hrender & _ & _ & Htext & _ & Hbatch & _).
  split; [| split].
  - apply (Hrender 4 500 666 Fixtures.opened Fixtures.book); reflexivity.
  - apply (Htext Fixtures.opened Fixtures.book 6);
      [reflexivity | vm_compute; split; discriminate | reflexivity].
  - apply (Hbatch Fixtures.opened 4);
      [reflexivity | vm_compute; split; discriminate].
Defined.

End RenderProps.

(** ** Navigation, search and the fragment *)

Module NavigationProps.

Import Viewer TaskProps FrameProps.
Local Open Scope task_scope.

(** C5: for every [n] outside [1, totalPages], [goToPage n] returns the
    state it was given: no call reaches the engine and the current page
    is unchanged.  (In the embedding [goToPage] is a plain function of
    the state; no step of it can throw.) *)
Theorem goToPage_out_of_range (n : Z) (s : State) :
  n < 1 \/ totalPages s < n ->
  goToPage n s = s /\
  pageFlip (goToPage n s) = pageFlip s /\
  currentPage (goToPage n s) = currentPage s.
Proof.
  intros Hn.
  assert (H : goToPage n s = s).
  { unfold goToPage. destruct (pageFlip s); [| reflexivity].
    destruct ((1 <=? n) && (n <=? totalPages s)) eqn:Hguard; [| reflexivity].
    apply andb_prop in Hguard as [H1 H2]. lia. }
  rewrite H. repeat split.
Qed.

Lemma goToPage_out_of_range_witness :
  goToPage 11 Fixtures.loaded = Fixtures.loaded /\
  pageFlip (goToPage 11 Fixtures.loaded) = pageFlip Fixtures.loaded /\
  currentPage (goToPage 11 Fixtures.loaded) = currentPage Fixtures.loaded.
Proof.
  apply (goToPage_out_of_range 11 Fixtures.loaded). right. vm_compute. reflexivity.
Defined.


Lemma at_in_range (l : list Z) (i : Z) :
  0 <= i < Z.of_nat (length l) -> exists p, at_ l i = Some p.
Proof.
  intros Hi. unfold at_. destruct (i <? 0) eqn:Hneg; [lia |].
  apply lookup_lt_is_Some. lia.
Qed.

Lemma updateSearchIndicator_fields (s : State) :
  currentSearchIndex (updateSearchIndicator s) = currentSearchIndex s /\
  searchResults (updateSearchIndicator s) = searchResults s /\
  currentPage (updateSearchIndicator s) = currentPage s /\
  pageFlip (updateSearchIndicator s) = pageFlip s.
Proof. unfold updateSearchIndicator. case_match; repeat split. Qed.

Lemma goToPage_search_fields (n : Z) (s : State) :
  currentSearchIndex (goToPage n s) = currentSearchIndex s /\
  searchResults (goToPage n s) = searchResults s.
Proof. unfold goToPage. repeat case_match; repeat split. Qed.



(** *** The fragment *)

Lemma startsWith_page (t : string) : Js.startsWith ("#page=" +:+ t) "#page=" = true.
Proof.
  unfold Js.startsWith. destruct t; reflexivity.
Qed.

Lemma split_page (n : Z) :
  Js.split "=" ("#page=" +:+ pretty n) !! 1%nat = Some (pretty n).
Proof.
  change ("#page=" +:+ pretty n)
    with (String "#" (String "p" (String "a" (String "g" (String "e"
            (String "=" (pretty n))))))).
  cbn [Js.split]. change (Ascii.eqb "#" "=") with false.
  change (Ascii.eqb "p" "=") with false. change (Ascii.eqb "a" "=") with false.
  change (Ascii.eqb "g" "=") with false. change (Ascii.eqb "e" "=") with false.
  change (Ascii.eqb "=" "=") with true. cbn iota.
  rewrite JsProps.split_pretty. reflexivity.
Qed.

(** [checkUrlForPdf] takes the number of the fragment as it is. *)
Lemma checkUrlForPdf_page (n : Z) (s : State) :
  locationHash s = "#page=" +:+ pretty n ->
  checkUrlForPdf s = set_currentPage (if n =? 0 then 1 else n) s.
Proof.
  intros Hhash. unfold checkUrlForPdf. rewrite Hhash, startsWith_page, split_page.
  rewrite JsProps.parseInt_pretty. reflexivity.
Qed.

(** The engine that [initFlipbook] builds starts at the current page,
    less one. *)
Lemma renderPage_engine p w h :
  keeps (sameOn (fun s => (pageFlip s, currentPage s))) (renderPage p w h).
Proof. unfold renderPage. frame same_field. Qed.
#[local] Hint Resolve renderPage_engine : frames.

Lemma renderVisiblePages_engine :
  keeps (sameOn (fun s => (pageFlip s, currentPage s))) renderVisiblePages.
Proof. frame same_field. Qed.

Lemma initFlipbook_engine w s :
  exists engine,
    pageFlip (exec (initFlipbook w) s) = Some engine /\
    startPage engine = currentPage s - 1 /\
    currentPage (exec (initFlipbook w) s) = currentPage s.
Proof.
  assert (Hfinal : exists s1 engine,
             exec (initFlipbook w) s = snd (renderVisiblePages s1) /\
             pageFlip s1 = Some engine /\
             startPage engine = currentPage s - 1 /\
             currentPage s1 = currentPage s).
  { unfold exec, initFlipbook.
    unfold bind at 1, get at 1.
    set (ratioTask := match pdfDoc s with Some _ => _ | None => _ end).
    assert (Hratio : total ratioTask /\ keeps (sameOn currentPage) ratioTask).
    { unfold ratioTask. destruct (pdfDoc s).
      - split; [apply total_tryCatch; intros _; apply total_ret |].
        frame same_field.
      - split; [apply total_ret | frame same_field]. }
    destruct Hratio as [Htot Hsame].
    unfold bind at 1. destruct (Htot s) as [ratio Hr]. specialize (Hsame s).
    destruct (ratioTask s) as [c s0]. cbn in Hr, Hsame. subst c.
    unfold sameOn in Hsame.
    unfold bind at 1, get at 1.
    destruct (Planner.pageDimensions _ _ _ _) as [pageWidth pageHeight].
    repeat (unfold bind at 1, modify at 1).
    eexists _, _. split; [reflexivity |]. cbn. rewrite Hsame. repeat split. }
  destruct Hfinal as (s1 & engine & -> & He & Hstart & Hcur).
  pose proof (renderVisiblePages_engine s1) as Hk.
  unfold sameOn in Hk. injection Hk as Hpf Hcp.
  exists engine. rewrite Hpf, Hcp. repeat split; congruence.
Qed.



(** *** The page underneath *)

(** The pairing rule on the examples of the specification. *)
Lemma spreads_examples :
  Pairing.spreads 10 = [[1]; [2; 3]; [4; 5]; [6; 7]; [8; 9]; [10]] /\
  Pairing.spreads 9 = [[1]; [2; 3]; [4; 5]; [6; 7]; [8; 9]].
Proof. split; reflexivity. Qed.

(** From a spread that starts at index [i], the right-hand page of the
    next spread is page [i + 3] from the cover and page [i + 4] from any
    later spread. *)
Lemma nextRightPage_value (pageCount i r : Z) :
  Pairing.spreadStart pageCount i ->
  Pairing.nextRightPage pageCount i = Some r ->
  r = if i =? 0 then 3 else i + 4.
Proof.
  unfold Pairing.spreadStart, Pairing.nextRightPage, Pairing.spreadOf.
  intros [-> | (H1 & _ & Hodd)].
  - change (2 * ((0 + 1) / 2) + 2) with 2. change (2 =? 1) with false.
    change (2 * (2 / 2)) with 2. cbn [snd].
    destruct (2 + 1 <=? pageCount); [| discriminate].
    intros [= <-]. reflexivity.
  - destruct (i =? 0) eqn:H0; [lia |].
    apply Z.odd_spec in Hodd as [k ->].
    replace (2 * k + 1 + 1) with ((k + 1) * 2) by lia.
    rewrite Z.div_mul by lia.
    destruct (2 * (k + 1) + 2 =? 1) eqn:H2; [lia |].
    replace (2 * (k + 1) + 2) with ((k + 2) * 2) by lia.
    rewrite Z.div_mul by lia. cbn [snd].
    destruct (2 * (k + 2) + 1 <=? pageCount); [| discriminate].
    intros [= <-]. lia.
Qed.

(** The formula of [showPageUnderneath] agrees with the pairing rule on
    the cover and on the spread of pages 2 and 3, and on no later
    spread. *)
Lemma nextRightPageNum_agrees_iff (pageCount i r : Z) :
  Pairing.spreadStart pageCount i ->
  Pairing.nextRightPage pageCount i = Some r ->
  (nextRightPageNum i = r <-> i = 0 \/ i = 1).
Proof.
  intros Hstart Hr. rewrite (nextRightPage_value _ _ _ Hstart Hr).
  unfold nextRightPageNum. destruct (i =? 0) eqn:H0; lia.
Qed.

(** C3, the code at the failing input: with the ten-page book in double
    mode and the engine on the spread of pages 4 and 5 (index 3), a flip
    start makes [showPageUnderneath] compute page 9 and show a copy of
    its canvas, while the right-hand page of the next spread, by the
    pairing rule, is page 7.  The ['read'] state then hides the overlay. *)
Theorem preview_skips_a_spread :
  let s := Fixtures.atSpread45 in
  let flipping := step (EngineChangeState "flipping") s in
  let read := step (EngineChangeState "read") flipping in
  isDoublePageMode s = true /\
  (currentPageIndex <$> pageFlip s) = Some 3 /\
  Pairing.spreadStart 10 3 /\
  Pairing.spreadOf 10 4 = (Some 4, Some 5) /\
  Pairing.nextRightPage 10 3 = Some 7 /\
  nextRightPageNum 3 = 9 /\
  (exists canvas scale,
     pageUnderneath flipping
     = Some {| shows := Some canvas; display := DisplayBlock |} /\
     drawing canvas = PageBitmap 9 scale) /\
  (display <$> pageUnderneath read) = Some DisplayNone.
Proof.
  vm_compute. repeat split; try (right; repeat split; discriminate).
  eexists _, _. split; reflexivity.
Qed.

End NavigationProps.

(** ** Sessions: the device class and the cache *)

Module SessionProps.

Import Viewer TaskProps FrameProps.
Local Open Scope task_scope.

(** The handlers that neither measure the window nor start a task. *)
Ltac plain :=
  unfold handleKeydown, handlePageInputChange, handleSearch,
    goToNextSearchResult, goToPrevSearchResult, goToPageOpt,
    updateSearchIndicator, goToPage, goToPrevPage, goToNextPage,
    zoomIn, zoomOut, toggleZoom, resetZoom, openNewPdf, engineShows;
  repeat case_match; reflexivity.

Lemma plain_handlers_mode :
  (forall s, mode (openNewPdf s) = mode s) /\
  (forall s, mode (goToPrevPage s) = mode s) /\
  (forall s, mode (goToNextPage s) = mode s) /\
  (forall v s, mode (handlePageInputChange v s) = mode s) /\
  (forall t s, mode (handleSearch t s) = mode s) /\
  (forall s, mode (goToNextSearchResult s) = mode s) /\
  (forall s, mode (goToPrevSearchResult s) = mode s) /\
  (forall s, mode (zoomIn s) = mode s) /\
  (forall s, mode (zoomOut s) = mode s) /\
  (forall s, mode (toggleZoom s) = mode s) /\
  (forall k s, mode (handleKeydown k s) = mode s) /\
  (forall i s, mode (engineShows i s) = mode s).
Proof. repeat split; intros; plain. Qed.

Lemma mobileIsSingle_mode (s s' : State) :
  mode s' = mode s -> mobileIsSingle s -> mobileIsSingle s'.
Proof.
  unfold mode, mobileIsSingle. intros [= -> ->]. trivial.
Qed.

Lemma checkMobileMode_single (w : Surroundings) (s : State) :
  let s' := snd (checkMobileMode w s) in
  mobileIsSingle s' /\
  isMobile s' = (innerWidth w <=? MOBILE_BREAKPOINT) /\
  (innerWidth w <= MOBILE_BREAKPOINT ->
   isMobile s' = true /\ isDoublePageMode s' = false).
Proof.
  unfold checkMobileMode, mobileIsSingle. cbn.
  destruct (innerWidth w <=? MOBILE_BREAKPOINT) eqn:Hw; cbn.
  - destruct (isDoublePageMode s) eqn:Hd; cbn; rewrite ?Hd; auto.
  - split; [discriminate |]. split; [reflexivity | lia].
Qed.

Lemma toggleViewMode_single (s : State) :
  mobileIsSingle s -> mobileIsSingle (fst (toggleViewMode s)).
Proof.
  unfold toggleViewMode, mobileIsSingle. intros Hinv.
  destruct (isMobile s) eqn:Hm, (isDoublePageMode s) eqn:Hd; cbn;
    rewrite ?Hm, ?Hd; cbn; try (intros; discriminate); try reflexivity;
    destruct (pdfDoc s); cbn; rewrite ?Hm, ?Hd; auto.
Qed.

Lemma andThen_single (r : State * bool) (w : Surroundings) :
  mobileIsSingle (fst r) -> mobileIsSingle (andThen r (initFlipbook w)).
Proof.
  intros H. unfold andThen. destruct (snd r); [| exact H].
  eapply mobileIsSingle_mode; [| exact H]. apply (initFlipbook_mode w).
Qed.

Lemma step_single (e : Event) (s : State) :
  mobileIsSingle s -> mobileIsSingle (step e s).
Proof.
  intros Hinv.
  destruct plain_handlers_mode
    as (H1 & H2 & H3 & H4 & H5 & H6 & H7 & H8 & H9 & H10 & H11 & H12).
  destruct e; cbn [step];
    try (eapply mobileIsSingle_mode; [| exact Hinv]; auto; fail).
  - eapply mobileIsSingle_mode; [| exact Hinv]. apply (loadPdf_mode file w).
  - apply andThen_single. now apply toggleViewMode_single.
  - apply andThen_single. unfold handleResize.
    pose proof (checkMobileMode_single w s) as [Hs _].
    destruct (checkMobileMode w s) as [changed s1]. cbn in Hs.
    destruct (pdfDoc s1), (pageFlip s1); cbn; try exact Hs.
    destruct changed; [exact Hs |]. now destruct (sizeChanged w s1).
  - eapply mobileIsSingle_mode; [| exact Hinv].
    etransitivity; [apply (onFlip_mode data) | apply H12].
  - eapply mobileIsSingle_mode; [| exact Hinv]. apply (onChangeState_mode data).
Qed.

Lemma started_single hash response w : mobileIsSingle (started hash response w).
Proof.
  unfold started, exec, init.
  unfold bind at 1, modify at 1. unfold bind at 1, modify at 1.
  eapply mobileIsSingle_mode; [apply (loadPdfFromUrl_mode response w) |].
  apply checkMobileMode_single.
Qed.

(** C6: on every state of a session a mobile device class goes with the
    single layout; every event keeps it so.  [checkMobileMode] leaves the
    single layout whenever the window is at most 768 wide, and
    [toggleViewMode] called on a mobile state in single layout returns
    that state with one more toast and nothing else changed, and starts
    nothing. *)
Theorem mobile_forces_single :
  (forall s, reachable s -> mobileIsSingle s) /\
  (forall e s, mobileIsSingle s -> mobileIsSingle (step e s)) /\
  (forall w s,
     let s' := snd (checkMobileMode w s) in
     mobileIsSingle s' /\
     (innerWidth w <= MOBILE_BREAKPOINT ->
      isMobile s' = true /\ isDoublePageMode s' = false)) /\
  (forall s,
     isMobile s = true -> isDoublePageMode s = false ->
     toggleViewMode s =
       (set_toasts ("모바일에서는 양면 보기를 지원하지 않습니다" :: toasts s) s,
        false) /\
     isDoublePageMode (fst (toggleViewMode s)) = isDoublePageMode s /\
     length (toasts (fst (toggleViewMode s))) = S (length (toasts s))).
Proof.
  split; [| split; [exact step_single | split]].
  - induction 1 as [hash response w | e s _ IH].
    + apply started_single.
    + now apply step_single.
  - intros w s. cbv zeta. destruct (checkMobileMode_single w s) as (H1 & _ & H3).
    split; assumption.
  - intros s Hm Hd. unfold toggleViewMode. rewrite Hm, Hd. cbn.
    repeat split. exact Hd.
Qed.

Lemma mobile_forces_single_witness :
  mobileIsSingle Fixtures.mobileView /\
  toggleViewMode Fixtures.mobileView =
    (set_toasts ("모바일에서는 양면 보기를 지원하지 않습니다"
                 :: toasts Fixtures.mobileView) Fixtures.mobileView, false).
Proof.
  destruct mobile_forces_single as (Hreach & _ & _ & Htoggle).
  split.
  - apply Hreach. apply reachable_step, reachable_step, reachable_start.
  - apply Htoggle; vm_compute; reflexivity.
Defined.

(** *** The cache *)

Ltac cache_field :=
  unfold cacheGrows, hidePageUnderneath, updateUrl; repeat case_match;
  cbn; reflexivity.

Lemma onFlip_cacheGrows data : keeps cacheGrows (onFlip data).
Proof. frame cache_field. Qed.

Lemma onChangeState_cacheGrows data : keeps cacheGrows (onChangeState data).
Proof. frame cache_field. Qed.

Lemma cacheGrows_not_evicted (s s' : State) :
  cacheGrows s s' -> ~ evicted s s'.
Proof.
  intros Hsub (key & canvas & Hin & Hout). apply Hout.
  eapply lookup_weaken; eassumption.
Qed.

Lemma same_cache_not_evicted (s s' : State) :
  pageCache s' = pageCache s -> ~ evicted s s'.
Proof.
  intros Heq. apply cacheGrows_not_evicted. unfold cacheGrows.
  now rewrite Heq.
Qed.

Lemma plain_handlers_cache :
  (forall s, pageCache (goToPrevPage s) = pageCache s) /\
  (forall s, pageCache (goToNextPage s) = pageCache s) /\
  (forall v s, pageCache (handlePageInputChange v s) = pageCache s) /\
  (forall t s, pageCache (handleSearch t s) = pageCache s) /\
  (forall s, pageCache (goToNextSearchResult s) = pageCache s) /\
  (forall s, pageCache (goToPrevSearchResult s) = pageCache s) /\
  (forall s, pageCache (zoomIn s) = pageCache s) /\
  (forall s, pageCache (zoomOut s) = pageCache s) /\
  (forall s, pageCache (toggleZoom s) = pageCache s) /\
  (forall k s, pageCache (handleKeydown k s) = pageCache s) /\
  (forall i s, pageCache (engineShows i s) = pageCache s).
Proof. repeat split; intros; plain. Qed.

(** On a miss the decoder is asked for the page. *)
Lemma renderPage_miss_asks p w h s doc :
  pageCache s !! cacheKey p w h = None -> pdfDoc s = Some doc ->
  exists calls,
    decoderCalls (snd (renderPage p w h s))
    = calls ++ CallGetPage p :: decoderCalls s.
Proof.
  intros Hkey Hdoc. destruct (decodes doc p) eqn:Hdec.
  - destruct (renderPage_decoded p w h s doc Hkey Hdoc Hdec)
      as (canvas & scale & -> & _). now exists [CallRender p scale].
  - destruct (renderPage_failed p w h s doc Hkey Hdoc Hdec)
      as (canvas & calls & s' & -> & _ & _ & Hcalls & _). now exists calls.
Qed.

(** C2, as the code has it.  The cache is emptied by [toggleViewMode]
    whenever it changes the layout mode with a document loaded (the
    render that follows is then a miss and asks the decoder), by
    [handleResize] whenever the device class changes across the mobile
    breakpoint with a document and an engine present, whether or not the
    layout mode or the page width changes, and by [openNewPdf].  No
    navigation, search, zoom, keyboard or engine event, and no rejected
    toggle, removes or replaces an entry. *)
Theorem cache_cleared_by_explicit_paths :
  (forall s doc,
     pdfDoc s = Some doc -> isMobile s && negb (isDoublePageMode s) = false ->
     let s' := fst (toggleViewMode s) in
     isDoublePageMode s' = negb (isDoublePageMode s) /\
     pageCache s' = ∅ /\
     forall p w h,
       pageCache s' !! cacheKey p w h = None /\
       exists calls,
         decoderCalls (snd (renderPage p w h s'))
         = calls ++ CallGetPage p :: decoderCalls s') /\
  (forall w s,
     is_Some (pdfDoc s) -> is_Some (pageFlip s) ->
     fst (checkMobileMode w s) = true ->
     pageCache (fst (handleResize w s)) = ∅) /\
  (forall s, pageCache (openNewPdf s) = ∅) /\
  (forall e s,
     evicted s (step e s) ->
     (exists w, e = ViewModeClicked w /\ is_Some (pdfDoc s) /\
                isDoublePageMode (fst (toggleViewMode s)) <> isDoublePageMode s) \/
     (exists w, e = Resized w) \/
     e = NewPdfRequested \/
     (exists file w, e = FileChosen file w)).
Proof.
  split; [| split; [| split]].
  - intros s doc Hdoc Hok.
    assert (Ht : toggleViewMode s =
              (set_pageCache ∅
                 (set_isDoublePageMode (negb (isDoublePageMode s)) s), true)).
    { unfold toggleViewMode. rewrite Hok.
      cbn [pdfDoc set_isDoublePageMode]. now rewrite Hdoc. }
    rewrite Ht. cbn [fst]. split; [reflexivity |]. split; [reflexivity |].
    intros p w h. split; [apply lookup_empty |].
    apply (renderPage_miss_asks p w h _ doc); [apply lookup_empty | exact Hdoc].
  - intros w s [doc Hdoc] [engine He] Hchanged. unfold handleResize.
    assert (Hkeep : pdfDoc (snd (checkMobileMode w s)) = pdfDoc s /\
                    pageFlip (snd (checkMobileMode w s)) = pageFlip s).
    { unfold checkMobileMode. cbn. case_match; split; reflexivity. }
    destruct Hkeep as [Hd Hp].
    destruct (checkMobileMode w s) as [changed s1]. cbn in *. subst changed.
    rewrite Hd, Hp, Hdoc, He. reflexivity.
  - intros s. unfold openNewPdf. case_match; reflexivity.
  - intros e s Hev.
    destruct plain_handlers_cache
      as (H1 & H2 & H3 & H4 & H5 & H6 & H7 & H8 & H9 & H10 & H11).
    destruct e; cbn [step] in Hev;
      try (exfalso; revert Hev; apply same_cache_not_evicted; auto; fail).
    + right. right. right. eauto.
    + right. right. left. reflexivity.
    + left. exists w. unfold andThen, toggleViewMode in Hev |- *.
      destruct (isMobile s && negb (isDoublePageMode s)) eqn:Hok.
      { exfalso. revert Hev. apply same_cache_not_evicted. reflexivity. }
      cbn [fst snd] in Hev |- *.
      destruct (pdfDoc s) as [doc |] eqn:Hdoc; cbn [pdfDoc set_isDoublePageMode] in *;
        rewrite ?Hdoc in *.
      * split; [reflexivity |]. split; [now eexists |].
        cbn. now destruct (isDoublePageMode s).
      * exfalso. revert Hev. apply same_cache_not_evicted. reflexivity.
    + right. left. eauto.
    + exfalso. revert Hev. apply cacheGrows_not_evicted.
      unfold cacheGrows. rewrite <- (H11 data s).
      apply (onFlip_cacheGrows data).
    + exfalso. revert Hev. apply cacheGrows_not_evicted.
      apply (onChangeState_cacheGrows data).
Qed.

Lemma cache_cleared_by_explicit_paths_witness :
  pageCache (fst (toggleViewMode Fixtures.loaded)) = ∅ /\
  pageCache (fst (handleResize Fixtures.narrow Fixtures.singleView)) = ∅.
Proof.
  destruct cache_cleared_by_explicit_paths as (Htoggle & Hresize & _ & _).
  split.
  - destruct (Htoggle Fixtures.loaded Fixtures.book) as (_ & Hempty & _).
    + vm_compute. reflexivity.
    + vm_compute. reflexivity.
    + exact Hempty.
  - apply Hresize.
    + vm_compute. eexists. reflexivity.
    + vm_compute. eexists. reflexivity.
    + vm_compute. reflexivity.
Defined.

(** C2 as stated fails: in the single-page view of the book, making the
    window 760 wide crosses the mobile breakpoint and empties the cache,
    although the layout mode stays single, the expected page width (720)
    is within 50 px of the base width (750), and the document is the
    same. *)
Lemma breakpoint_crossing_clears_cache :
  let s := Fixtures.singleView in
  let s' := fst (handleResize Fixtures.narrow s) in
  (exists canvas, pageCache s !! cacheKey 1 750 1000 = Some canvas) /\
  pageCache s' = ∅ /\
  isDoublePageMode s' = isDoublePageMode s /\
  (expectedWidth Fixtures.narrow s, basePageWidth s) = (720%Q, 750) /\
  sizeChanged Fixtures.narrow s = false /\
  pdfDoc s' = pdfDoc s /\
  evicted s (step (Resized Fixtures.narrow) s).
Proof.
  cbv zeta. split; [vm_compute; eexists; reflexivity |].
  split; [vm_compute; reflexivity |].
  split; [vm_compute; reflexivity |].
  split; [vm_compute; reflexivity |].
  split; [vm_compute; reflexivity |].
  split; [vm_compute; reflexivity |].
  exists (cacheKey 1 750 1000). eexists.
  split; [vm_compute; reflexivity | vm_compute; discriminate].
Qed.

End SessionProps.

(** ** What no task writes *)

Module FieldProps.

Import Viewer Controls TaskProps FrameProps.
Local Open Scope task_scope.

Ltac untouched_field :=
  unfold sameOn, hidePageUnderneath, updateUrl, showToast;
  repeat case_match; auto.

Section Untouched.

Context {B : Type} (f : State -> B) (Hf : untouchedByTasks f).

Lemma renderPage_untouched p w h : keeps (sameOn f) (renderPage p w h).
Proof.
  destruct Hf as (? & ? & ? & ? & ? & ? & ? & ? & ? & ? & ? & ? & ? & ?).
  unfold renderPage. frame untouched_field.
Qed.

Lemma tasks_untouched :
  (forall file w, keeps (sameOn f) (loadPdf file w)) /\
  (forall file w, keeps (sameOn f) (loadPdfFromUrl file w)) /\
  (forall w, keeps (sameOn f) (initFlipbook w)) /\
  (forall data, keeps (sameOn f) (onFlip data)) /\
  (forall data, keeps (sameOn f) (onChangeState data)) /\
  (forall file w, keeps (sameOn f) (handleFileUpload file w)).
Proof.
  pose proof renderPage_untouched as Hrender.
  destruct Hf as (? & ? & ? & ? & ? & ? & ? & ? & ? & ? & ? & ? & ? & ?).
  repeat split; intros; unfold handleFileUpload; frame untouched_field.
Qed.

(** The same for the events that run a task, when the handlers that
    start them leave [f] alone too. *)
Lemma andThen_untouched (r : State * bool) (w : Surroundings) :
  f (andThen r (initFlipbook w)) = f (fst r).
Proof.
  destruct tasks_untouched as (_ & _ & Hinit & _).
  unfold andThen. destruct (snd r); [apply (Hinit w) | reflexivity].
Qed.

End Untouched.

Lemma zoom_untouched : untouchedByTasks zoom.
Proof. repeat split. Qed.

Lemma pan_untouched : untouchedByTasks (fun s => (panX s, panY s)).
Proof. repeat split. Qed.

Lemma search_untouched :
  untouchedByTasks (fun s => (searchResults s, currentSearchIndex s)).
Proof. repeat split. Qed.

End FieldProps.

(** ** Zoom and pan *)

Module TransformProps.

Import Viewer Controls TaskProps FrameProps FieldProps.

Lemma min_spec (x y : Q) :
  (Js.min x y <= x)%Q /\ (Js.min x y <= y)%Q /\
  (forall z, (z <= x)%Q -> (z <= y)%Q -> (z <= Js.min x y)%Q).
Proof.
  unfold Js.min. destruct (Qle_bool x y) eqn:H.
  - apply Qle_bool_iff in H. repeat split; auto; lra.
  - assert (y < x)%Q.
    { apply Qnot_le_lt. intros Hle. apply Qle_bool_iff in Hle. congruence. }
    repeat split; auto; lra.
Qed.

Lemma max_spec (x y : Q) :
  (x <= Js.max x y)%Q /\ (y <= Js.max x y)%Q /\
  (forall z, (x <= z)%Q -> (y <= z)%Q -> (Js.max x y <= z)%Q).
Proof.
  unfold Js.max. destruct (Qle_bool x y) eqn:H.
  - apply Qle_bool_iff in H. repeat split; auto; lra.
  - assert (y < x)%Q.
    { apply Qnot_le_lt. intros Hle. apply Qle_bool_iff in Hle. congruence. }
    repeat split; auto; lra.
Qed.

Lemma bounds_order : (minZoom <= maxZoom)%Q.
Proof. unfold minZoom, maxZoom. lra. Qed.

(** Clamping as the listeners write it. *)
Lemma clamp_in_range (x : Q) :
  (minZoom <= Js.min (Js.max x minZoom) maxZoom)%Q /\
  (Js.min (Js.max x minZoom) maxZoom <= maxZoom)%Q.
Proof.
  destruct (min_spec (Js.max x minZoom) maxZoom) as (_ & H2 & H3).
  destruct (max_spec x minZoom) as (_ & H5 & _).
  split; [apply H3; [exact H5 | exact bounds_order] | exact H2].
Qed.

Lemma wheel_in_range deltaY s : zoomInRange s -> zoomInRange (wheel deltaY s).
Proof.
  intros Hs. unfold wheel. cbv zeta.
  destruct (negb (Qeq_bool _ _)); [| exact Hs].
  unfold zoomInRange. cbn [zoom set_zoom]. apply clamp_in_range.
Qed.

Lemma zoomIn_in_range s : zoomInRange s -> zoomInRange (zoomIn s).
Proof.
  intros [Hlo Hhi]. unfold zoomIn. destruct (Planner.Qgtb _ _); [| now split].
  unfold zoomInRange. cbn [zoom set_zoom].
  destruct (min_spec (zoom s + (1 # 4)) maxZoom) as (_ & H2 & H3).
  split; [apply H3; [lra | exact bounds_order] | exact H2].
Qed.

Lemma zoomOut_in_range s : zoomInRange s -> zoomInRange (zoomOut s).
Proof.
  intros [Hlo Hhi]. unfold zoomOut. destruct (Planner.Qgtb _ _); [| now split].
  unfold zoomInRange. cbn [zoom set_zoom].
  destruct (max_spec (zoom s - (1 # 4)) minZoom) as (_ & H2 & H3).
  split; [exact H2 | apply H3; [lra | exact bounds_order]].
Qed.

Lemma one_in_range s : zoom s = 1%Q -> zoomInRange s.
Proof. intros H. unfold zoomInRange, minZoom, maxZoom. rewrite H. lra. Qed.

Lemma same_zoom_in_range s s' : zoom s' = zoom s -> zoomInRange s -> zoomInRange s'.
Proof. unfold zoomInRange. now intros ->. Qed.

Lemma step_zoom_in_range e s : zoomInRange s -> zoomInRange (step e s).
Proof.
  intros Hs.
  destruct (tasks_untouched zoom zoom_untouched)
    as (Hload & _ & Hinit & Hflip & Hstate & _).
  destruct e; cbn [step].
  - eapply same_zoom_in_range; [apply (Hload file w) | exact Hs].
  - apply one_in_range. unfold openNewPdf. case_match; reflexivity.
  - eapply same_zoom_in_range; [| exact Hs]. SessionProps.plain.
  - eapply same_zoom_in_range; [| exact Hs]. SessionProps.plain.
  - eapply same_zoom_in_range; [| exact Hs]. SessionProps.plain.
  - eapply same_zoom_in_range; [| exact Hs]. SessionProps.plain.
  - eapply same_zoom_in_range; [| exact Hs]. SessionProps.plain.
  - eapply same_zoom_in_range; [| exact Hs]. SessionProps.plain.
  - eapply same_zoom_in_range; [| exact Hs].
    rewrite (andThen_untouched zoom zoom_untouched).
    unfold toggleViewMode. repeat case_match; reflexivity.
  - now apply zoomIn_in_range.
  - now apply zoomOut_in_range.
  - unfold toggleZoom. case_match; unfold zoomInRange, minZoom, maxZoom;
      cbn [zoom set_zoom set_panX set_panY]; lra.
  - unfold handleKeydown.
    repeat case_match;
      try (eapply same_zoom_in_range; [| exact Hs]; SessionProps.plain).
    all: try exact Hs.
    apply one_in_range. reflexivity.
  - eapply same_zoom_in_range; [| exact Hs].
    rewrite (andThen_untouched zoom zoom_untouched).
    unfold handleResize, checkMobileMode. repeat case_match; simplify_eq/=;
      reflexivity.
  - eapply same_zoom_in_range; [| exact Hs].
    etransitivity; [apply (Hflip data) |]. SessionProps.plain.
  - eapply same_zoom_in_range; [apply (Hstate data) | exact Hs].
Qed.

Lemma started_zoom hash response w : zoom (started hash response w) = 1%Q.
Proof.
  destruct (tasks_untouched zoom zoom_untouched) as (_ & Hurl & _).
  unfold started, exec, init.
  unfold bind at 1, modify at 1. unfold bind at 1, modify at 1.
  rewrite (Hurl response w).
  unfold checkMobileMode, checkUrlForPdf. cbn. repeat case_match; reflexivity.
Qed.

Lemma input_zoom_in_range i st :
  zoomInRange (snd st) -> zoomInRange (snd (input i st)).
Proof.
  destruct st as [p s]. cbn [snd]. intros Hs.
  destruct (tasks_untouched zoom zoom_untouched) as (_ & _ & _ & _ & _ & Hfile).
  destruct i; cbn [input fst snd].
  - now apply wheel_in_range.
  - unfold mouseDown. now case_match.
  - unfold mouseUp. now case_match.
  - unfold mouseMove. now case_match.
  - exact Hs.
  - unfold handleTouchStart. now repeat case_match.
  - unfold handleTouchMove. now repeat case_match.
  - eapply same_zoom_in_range; [apply (Hfile file w) | exact Hs].
  - now apply step_zoom_in_range.
Qed.

(** X1: in every state of a session, gestures included, the zoom lies
    between [minZoom] (1/2) and [maxZoom] (3): the buttons, the wheel,
    the double click, Escape and [openNewPdf] all keep it there, and
    nothing else writes it. *)
Theorem zoom_stays_in_range (st : Pointer * State) :
  live st -> zoomInRange (snd st).
Proof.
  induction 1 as [hash response w | i st _ IH].
  - apply one_in_range, started_zoom.
  - now apply input_zoom_in_range.
Qed.

Lemma zoom_stays_in_range_witness :
  zoomInRange (snd (input (Wheel 5) (idle, Fixtures.loaded))).
Proof.
  apply (zoom_stays_in_range (input (Wheel 5) (idle, Fixtures.loaded))).
  apply live_input, live_start.
Defined.



Lemma inputs_cons i l st : inputs (i :: l) st = inputs l (input i st).
Proof. reflexivity. Qed.

Lemma inputs_app l l' st : inputs (l ++ l') st = inputs l' (inputs l st).
Proof. unfold inputs. apply fold_left_app. Qed.

(** Mouse moves while panning leave the pointer's variables as they
    are. *)
Lemma mouseMoves_keep_pointer (moves : list (Q * Q)) :
  forall p s,
    fst (inputs ((fun m => MouseMove (fst m) (snd m)) <$> moves) (p, s)) = p /\
    zoom (snd (inputs ((fun m => MouseMove (fst m) (snd m)) <$> moves) (p, s)))
    = zoom s.
Proof.
  induction moves as [| [x y] moves IH]; intros p s; [split; reflexivity |].
  cbn [fmap list_fmap]. rewrite inputs_cons. cbn [input fst snd].
  unfold mouseMove. destruct (negb (isPanning p)); [apply IH |].
  match goal with
  | |- context [inputs _ (p, ?s1)] => destruct (IH p s1) as [H1 H2]
  end.
  split; [exact H1 | exact H2].
Qed.

(** X3: a right-button drag pans by the pointer's displacement.  After a
    press with button 2 at (x0, y0) and any moves ending at (x1, y1), the
    pan is the pan at the press plus (x1 - x0, y1 - y0) and the zoom is
    unchanged; a press with another button starts nothing, and a move
    while no pan is in progress changes nothing. *)
Theorem drag_pans_by_displacement :
  (forall p s x0 y0 moves x1 y1,
     let st := inputs (MouseDown 2 x0 y0
                       :: ((fun m => MouseMove (fst m) (snd m)) <$> moves)
                       ++ [MouseMove x1 y1]) (p, s) in
     (panX (snd st) == panX s + (x1 - x0))%Q /\
     (panY (snd st) == panY s + (y1 - y0))%Q /\
     zoom (snd st) = zoom s) /\
  (forall button x y st, button <> 2 -> mouseDown button x y st = st) /\
  (forall x y p s, isPanning p = false -> mouseMove x y (p, s) = (p, s)).
Proof.
  split; [| split].
  - intros p s x0 y0 moves x1 y1 st.
    assert (E : exists s2,
               zoom s2 = zoom s /\
               snd st = set_panY (y1 - (y0 - panY s))
                          (set_panX (x1 - (x0 - panX s)) s2)).
    { unfold st. rewrite inputs_cons, inputs_app. cbn [input].
      unfold mouseDown. cbn [Z.eqb Pos.eqb].
      match goal with
      | |- context [inputs _ (?p1, s)] =>
          destruct (mouseMoves_keep_pointer moves p1 s) as [Hp Hz];
          destruct (inputs ((fun m => MouseMove (fst m) (snd m)) <$> moves) (p1, s))
            as [p2 s2]
      end.
      cbn [fst snd] in Hp, Hz. subst p2. exists s2. split; [exact Hz |].
      reflexivity. }
    destruct E as (s2 & Hz & ->). cbn [panX panY zoom set_panX set_panY].
    repeat split; try lra. exact Hz.
  - intros button x y [p s] Hb. unfold mouseDown.
    destruct (button =? 2) eqn:E; [lia | reflexivity].
  - intros x y p s Hp. unfold mouseMove. now rewrite Hp.
Qed.

Lemma drag_pans_by_displacement_witness :
  mouseDown 0 10 10 (idle, Fixtures.loaded) = (idle, Fixtures.loaded) /\
  mouseMove 10 10 (idle, Fixtures.loaded) = (idle, Fixtures.loaded).
Proof.
  destruct drag_pans_by_displacement as (_ & Hdown & Hmove).
  split; [apply Hdown; lia | apply Hmove; reflexivity].
Defined.

(** One-finger moves in pan mode: the pan grows by the distance from the
    last recorded touch to the last move. *)
Lemma touchMoves_telescope (moves : list (Q * Q)) :
  forall p s x1 y1,
    isMobilePanMode p = true ->
    let st := inputs (((fun m => TouchMove [m]) <$> moves)
                      ++ [TouchMove [(x1, y1)]]) (p, s) in
    (panX (snd st) == panX s + (x1 - lastTouchX p))%Q /\
    (panY (snd st) == panY s + (y1 - lastTouchY p))%Q /\
    zoom (snd st) = zoom s.
Proof.
  induction moves as [| [x y] moves IH]; intros p s x1 y1 Hmode st.
  - assert (E : snd st = set_panY (panY s + (y1 - lastTouchY p))
                           (set_panX (panX s + (x1 - lastTouchX p)) s)).
    { unfold st. cbn [fmap list_fmap app]. rewrite inputs_cons.
      cbn [inputs fold_left input]. unfold handleTouchMove. now rewrite Hmode. }
    rewrite E. cbn [panX panY zoom set_panX set_panY]. repeat split; lra.
  - set (p1 := {| isPanning := isPanning p;
                  startPanX := startPanX p; startPanY := startPanY p;
                  isMobilePanMode := true;
                  lastTouchX := x; lastTouchY := y |}).
    set (s1 := set_panY (panY s + (y - lastTouchY p))
                 (set_panX (panX s + (x - lastTouchX p)) s)).
    assert (E : st = inputs (((fun m => TouchMove [m]) <$> moves)
                             ++ [TouchMove [(x1, y1)]]) (p1, s1)).
    { unfold st. cbn [fmap list_fmap app]. rewrite inputs_cons. cbn [input].
      unfold handleTouchMove at 1. rewrite Hmode. reflexivity. }
    rewrite E. specialize (IH p1 s1 x1 y1 eq_refl). cbv zeta in IH.
    destruct IH as (Hx & Hy & Hz).
    rewrite Hx, Hy, Hz. unfold s1, p1.
    cbn [lastTouchX lastTouchY panX panY zoom set_panX set_panY].
    repeat split; lra.
Qed.

(** X4: in pan mode a one-finger drag pans by the finger's displacement,
    however many move events report it: after a touch start at (x0, y0)
    and moves ending at (x1, y1) the pan is the pan at the start plus
    (x1 - x0, y1 - y0), and the zoom is unchanged.  Outside pan mode the
    two listeners change nothing. *)
Theorem touch_pans_by_displacement :
  (forall p s x0 y0 moves x1 y1,
     isMobilePanMode p = true ->
     let st := inputs (TouchStart [(x0, y0)]
                       :: ((fun m => TouchMove [m]) <$> moves)
                       ++ [TouchMove [(x1, y1)]]) (p, s) in
     (panX (snd st) == panX s + (x1 - x0))%Q /\
     (panY (snd st) == panY s + (y1 - y0))%Q /\
     zoom (snd st) = zoom s) /\
  (forall p s touches,
     isMobilePanMode p = false ->
     handleTouchStart touches (p, s) = (p, s) /\
     handleTouchMove touches (p, s) = (p, s)).
Proof.
  split.
  - intros p s x0 y0 moves x1 y1 Hmode st.
    assert (E : st = inputs (((fun m => TouchMove [m]) <$> moves)
                             ++ [TouchMove [(x1, y1)]])
                       ({| isPanning := isPanning p;
                           startPanX := startPanX p; startPanY := startPanY p;
                           isMobilePanMode := isMobilePanMode p;
                           lastTouchX := x0; lastTouchY := y0 |}, s)).
    { unfold st. rewrite inputs_cons. cbn [input]. unfold handleTouchStart.
      now rewrite Hmode. }
    rewrite E.
    match goal with
    | |- context [inputs _ (?p1, s)] =>
        exact (touchMoves_telescope moves p1 s x1 y1 Hmode)
    end.
  - intros p s touches Hmode. unfold handleTouchStart, handleTouchMove.
    rewrite Hmode. split; repeat case_match; reflexivity.
Qed.

Lemma touch_pans_by_displacement_witness :
  let p := fst (panToggle (idle, Fixtures.loaded)) in
  let st := inputs [TouchStart [(10, 10)%Q]; TouchMove [(14, 12)%Q];
                    TouchMove [(30, 5)%Q]] (p, Fixtures.loaded) in
  (panX (snd st) == panX Fixtures.loaded + (30 - 10))%Q /\
  (panY (snd st) == panY Fixtures.loaded + (5 - 10))%Q /\
  zoom (snd st) = zoom Fixtures.loaded.
Proof.
  apply (proj1 touch_pans_by_displacement
           (fst (panToggle (idle, Fixtures.loaded))) Fixtures.loaded
           10%Q 10%Q [(14, 12)%Q] 30%Q 5%Q).
  reflexivity.
Defined.

End TransformProps.

(** ** Loading a document *)

Module LoadProps.

Import Viewer Controls TaskProps FrameProps.
Local Open Scope task_scope.

#[local] Hint Resolve RenderProps.renderPage_layout : frames.

(** Running a task that completes. *)
Lemma run_total {A} (t : Task A) (s : State) :
  total t -> exists a, t s = (Normal a, exec t s).
Proof.
  intros Ht. destruct (Ht s) as [a Ha]. exists a. unfold exec.
  destruct (t s) as [c s']. cbn in *. now subst c.
Qed.

Lemma bind_run {A B} (t : Task A) (k : A -> Task B) (s s1 : State) (a : A) :
  t s = (Normal a, s1) -> bind t k s = k a s1.
Proof. intros H. unfold bind. now rewrite H. Qed.

Lemma tryCatch_run {A} (body : Task A) handler (s s1 : State) (a : A) :
  body s = (Normal a, s1) -> tryCatch body handler s = (Normal a, s1).
Proof. intros H. unfold tryCatch. now rewrite H. Qed.

(** [initFlipbook] never throws: it builds the engine before
    [renderVisiblePages] asks for it. *)
Lemma initFlipbook_total w : total (initFlipbook w).
Proof.
  intros s. unfold initFlipbook.
  unfold bind at 1, get at 1.
  set (ratioTask := match pdfDoc s with Some _ => _ | None => _ end).
  assert (Htot : total ratioTask).
  { unfold ratioTask. destruct (pdfDoc s).
    - apply total_tryCatch; intros _; apply total_ret.
    - apply total_ret. }
  unfold bind at 1. destruct (Htot s) as [ratio Hr].
  destruct (ratioTask s) as [c s0]. cbn in Hr. subst c.
  unfold bind at 1, get at 1.
  destruct (Planner.pageDimensions _ _ _ _) as [pageWidth pageHeight].
  repeat (unfold bind at 1, modify at 1).
  unfold renderVisiblePages. unfold bind at 1, get at 1.
  cbn [pageFlip set_pageFlip].
  apply total_forEach. intros n. apply renderPageContent_total.
Qed.

(** What rendering leaves alone. *)
Lemma renderPage_kept p w h :
  keeps (sameOn (fun s => (pdfDoc s, totalPages s, pageTexts s, toasts s,
                           currentPage s, pageFlip s)))
        (renderPage p w h).
Proof. unfold renderPage. frame same_field. Qed.
#[local] Hint Resolve renderPage_kept : frames.

Lemma renderVisiblePages_kept :
  keeps (sameOn (fun s => (pdfDoc s, totalPages s, pageTexts s, toasts s,
                           currentPage s, pageFlip s)))
        renderVisiblePages.
Proof. frame same_field. Qed.

Lemma preRenderAllPages_kept :
  keeps (sameOn (fun s => (pdfDoc s, totalPages s, pageTexts s, toasts s,
                           currentPage s, pageFlip s)))
        preRenderAllPages.
Proof. frame same_field. Qed.

Lemma renderPage_kept' p w h :
  keeps (sameOn (fun s => (pdfDoc s, totalPages s, pageTexts s, toasts s,
                           currentPage s)))
        (renderPage p w h).
Proof. unfold renderPage. frame same_field. Qed.
#[local] Hint Resolve renderPage_kept' : frames.

Lemma initFlipbook_kept w :
  keeps (sameOn (fun s => (pdfDoc s, totalPages s, pageTexts s, toasts s,
                           currentPage s)))
        (initFlipbook w).
Proof. frame same_field. Qed.

Lemma preRenderAllPages_layout :
  keeps (sameOn (fun s => (pageNum <$> flipbook s, totalPages s)))
        preRenderAllPages.
Proof. frame RenderProps.layout_field. Qed.

Lemma extractAllPageTexts_kept :
  keeps (sameOn (fun s => (toasts s, currentPage s))) extractAllPageTexts.
Proof. frame same_field. Qed.

Lemma preRenderAllPages_renders s i :
  bookLaidOut s -> 1 <= i <= totalPages s ->
  hasCanvas i (exec preRenderAllPages s).
Proof.
  intros Hbook Hi. unfold exec, preRenderAllPages.
  unfold bind at 1, get at 1.
  apply promiseAll_renders; [| now apply elem_of_seqZ_1].
  intros j Hj. apply bookLaidOut_hasPage; [assumption |].
  now apply elem_of_seqZ_1.
Qed.

Lemma extractAllPageTexts_runs s doc :
  pdfDoc s = Some doc ->
  exists s',
    extractAllPageTexts s = (Normal tt, s') /\
    pdfDoc s' = Some doc /\ totalPages s' = totalPages s /\
    forall i, 1 <= i <= totalPages s ->
      pageTexts s' !! i = Some (default "" (pageText doc i)).
Proof.
  intros Hdoc. unfold extractAllPageTexts. unfold bind at 1, get at 1.
  destruct (forEach_extracts doc (seqZ 1 (totalPages s)) s Hdoc)
    as (s' & Hrun & Hd & Hn & Hlook).
  exists s'. repeat split; try assumption.
  intros i Hi. rewrite Hlook, decide_True; [reflexivity |].
  now apply elem_of_seqZ_1.
Qed.

(** The stages of a load that succeeds. *)
Lemma loadPdf_stages doc w s :
  exists s1 s2 s3,
    extractAllPageTexts
      (set_totalPages (numPages doc) (set_pdfDoc (Some doc) s))
    = (Normal tt, s1) /\
    initFlipbook w s1 = (Normal tt, s2) /\
    preRenderAllPages s2 = (Normal tt, s3) /\
    loadPdf (Some doc) w s = (Normal tt, s3) /\
    loadPdfFromUrl (Some doc) w s = (Normal tt, s3).
Proof.
  set (sa := set_totalPages (numPages doc) (set_pdfDoc (Some doc) s)).
  destruct (run_total extractAllPageTexts sa extractAllPageTexts_total)
    as [[] H1].
  destruct (run_total (initFlipbook w) (exec extractAllPageTexts sa)
              (initFlipbook_total w)) as [[] H2].
  destruct (run_total preRenderAllPages
              (exec (initFlipbook w) (exec extractAllPageTexts sa))
              preRenderAllPages_total) as [[] H3].
  eexists _, _, _. split; [exact H1 |]. split; [exact H2 |].
  split; [exact H3 |].
  assert (Hbody :
    (let* doc := getDocument (Some doc) in
     modify (set_pdfDoc (Some doc)) >>
     modify (set_totalPages (numPages doc)) >>
     extractAllPageTexts >>
     initFlipbook w >>
     preRenderAllPages) s
    = (Normal tt,
       exec preRenderAllPages
         (exec (initFlipbook w) (exec extractAllPageTexts sa)))).
  { unfold getDocument. unfold bind at 1, ret at 1.
    unfold bind at 1, modify at 1. unfold bind at 1, modify at 1.
    fold sa. rewrite (bind_run _ _ _ _ _ H1), (bind_run _ _ _ _ _ H2).
    exact H3. }
  split; [unfold loadPdf | unfold loadPdfFromUrl];
    apply tryCatch_run, Hbody.
Qed.

(** What a load that the decoder accepts leaves behind. *)
Lemma loadPdf_result (doc : PdfDoc) (w : Surroundings) (s : State) :
  let s' := exec (loadPdf (Some doc) w) s in
  loadPdfFromUrl (Some doc) w s = loadPdf (Some doc) w s /\
  fst (loadPdf (Some doc) w s) = Normal tt /\
  pdfDoc s' = Some doc /\
  totalPages s' = numPages doc /\
  bookLaidOut s' /\
  (exists engine,
     pageFlip s' = Some engine /\ startPage engine = currentPage s - 1) /\
  (forall i, 1 <= i <= numPages doc ->
     pageTexts s' !! i = Some (default "" (pageText doc i)) /\
     hasCanvas i s') /\
  toasts s' = toasts s /\
  currentPage s' = currentPage s.
Proof.
  destruct (loadPdf_stages doc w s)
    as (s1 & s2 & s3 & H1 & H2 & H3 & Hload & Hurl).
  cbv zeta. unfold exec. rewrite Hload, Hurl. cbn [fst snd].
  split; [reflexivity |].
  set (sa := set_totalPages (numPages doc) (set_pdfDoc (Some doc) s)) in H1.
  destruct (extractAllPageTexts_runs sa doc eq_refl)
    as (s1' & H1' & Hd1 & Hn1 & Ht1).
  rewrite H1 in H1'. injection H1' as <-.
  pose proof (extractAllPageTexts_kept sa) as Hk1.
  rewrite H1 in Hk1. unfold sameOn in Hk1. cbn in Hk1.
  injection Hk1 as Hto1 Hcp1.
  pose proof (initFlipbook_kept w s1) as Hk2.
  pose proof (RenderProps.initFlipbook_lays_out w s1) as Hb2.
  pose proof (NavigationProps.initFlipbook_engine w s1) as He2.
  unfold exec in Hb2, He2. rewrite H2 in Hk2, Hb2, He2.
  unfold sameOn in Hk2. cbn [snd] in Hk2, Hb2, He2.
  injection Hk2 as Hd2 Hn2 Ht2 Hto2 Hcp2.
  destruct He2 as (engine & He2 & Hstart & _).
  pose proof (preRenderAllPages_kept s2) as Hk3.
  pose proof (preRenderAllPages_layout s2) as Hl3.
  rewrite H3 in Hk3, Hl3. unfold sameOn in Hk3, Hl3. cbn [snd] in Hk3, Hl3.
  injection Hk3 as Hd3 Hn3 Ht3 Hto3 Hcp3 He3.
  injection Hl3 as Hnums3 _.
  assert (Hna : totalPages sa = numPages doc) by reflexivity.
  assert (Htotal : totalPages s3 = numPages doc) by congruence.
  split; [reflexivity |]. split; [congruence |]. split; [exact Htotal |].
  split; [unfold bookLaidOut in *; congruence |].
  split; [exists engine; split; congruence |].
  split; [| split; congruence].
  intros i Hi. split.
  - rewrite Ht3, Ht2. apply Ht1. exact Hi.
  - pose proof (preRenderAllPages_renders s2 i Hb2) as Hc.
    unfold exec in Hc. rewrite H3 in Hc. apply Hc. lia.
Qed.

(** X5: a load that the decoder accepts never ends in the error path,
    from a file as from the URL.  It leaves the document and its page
    count in the state, one page element per page in order, an engine
    started at the current page less one, a text for every page
    (lower-cased, empty where extraction fails) and a canvas in every
    page element; it shows no toast and leaves the current page as it
    was. *)
Theorem loadPdf_opens_document (doc : PdfDoc) (w : Surroundings) (s : State) :
  let s' := exec (loadPdf (Some doc) w) s in
  loadPdfFromUrl (Some doc) w s = loadPdf (Some doc) w s /\
  fst (loadPdf (Some doc) w s) = Normal tt /\
  pdfDoc s' = Some doc /\
  totalPages s' = numPages doc /\
  bookLaidOut s' /\
  (exists engine,
     pageFlip s' = Some engine /\ startPage engine = currentPage s - 1) /\
  (forall i, 1 <= i <= numPages doc ->
     pageTexts s' !! i = Some (default "" (pageText doc i)) /\
     hasCanvas i s') /\
  toasts s' = toasts s /\
  currentPage s' = currentPage s.
Proof. exact (loadPdf_result doc w s). Qed.

Lemma loadPdf_opens_document_witness :
  pageTexts (exec (loadPdf (Some Fixtures.book) Fixtures.desktop)
               (initialState "")) !! 5
  = Some (default "" (pageText Fixtures.book 5)) /\
  hasCanvas 5 (exec (loadPdf (Some Fixtures.book) Fixtures.desktop)
                 (initialState "")).
Proof.
  pose proof (loadPdf_opens_document Fixtures.book Fixtures.desktop
                (initialState "")) as H.
  cbv zeta in H. destruct H as (_ & _ & _ & _ & _ & _ & H & _).
  apply (H 5). vm_compute. split; discriminate.
Defined.

Lemma loadPdf_cacheGrows file w : keeps cacheGrows (loadPdf file w).
Proof. frame SessionProps.cache_field. Qed.

Lemma loadPdfFromUrl_cacheGrows file w :
  keeps cacheGrows (loadPdfFromUrl file w).
Proof. frame SessionProps.cache_field. Qed.

(** X6: loading does not clear the render cache.  Whatever the file or
    the response, an entry that was in the cache before [loadPdf] or
    [loadPdfFromUrl] is there afterwards with the same canvas, so a later
    [renderPage] under that key returns the old canvas and asks the
    decoder of the new document nothing. *)
Theorem load_keeps_cache_entries
    (file : option PdfDoc) (w : Surroundings) (s : State)
    (p width height : Z) (canvas : Canvas) :
  pageCache s !! cacheKey p width height = Some canvas ->
  forall s',
    s' = exec (loadPdf file w) s \/ s' = exec (loadPdfFromUrl file w) s ->
    pageCache s' !! cacheKey p width height = Some canvas /\
    renderPage p width height s' = (Normal canvas, s').
Proof.
  intros Hkey s' Hs'.
  assert (Hgrows : cacheGrows s s').
  { destruct Hs' as [-> | ->];
      [apply (loadPdf_cacheGrows file w) | apply (loadPdfFromUrl_cacheGrows file w)]. }
  assert (Hkey' : pageCache s' !! cacheKey p width height = Some canvas).
  { eapply lookup_weaken; eassumption. }
  split; [exact Hkey' |]. now apply renderPage_hit.
Qed.

Lemma load_keeps_cache_entries_witness :
  exists canvas,
    pageCache Fixtures.loaded !! cacheKey 3 500 666 = Some canvas /\
    let s' := exec (loadPdf (Some Fixtures.book) Fixtures.narrow)
                Fixtures.loaded in
    renderPage 3 500 666 s' = (Normal canvas, s').
Proof.
  eexists. split; [vm_compute; reflexivity |].
  eapply (load_keeps_cache_entries (Some Fixtures.book) Fixtures.narrow
            Fixtures.loaded 3 500 666).
  - vm_compute. reflexivity.
  - left. reflexivity.
Defined.

(** X7: what is not a readable PDF leaves the viewer as it is.  With no
    file, or a file whose type is not [application/pdf], [handleFileUpload]
    (and [handleDrop], which does the same) changes nothing; a PDF that
    the decoder rejects, like a URL that cannot be loaded, changes
    nothing but the toasts, which get one message more.  Neither ends
    with an exception, and the document, the engine, the page elements
    and the cache that were there stay. *)
Theorem unreadable_file_only_toasts
    (file : option (string * option PdfDoc)) (w : Surroundings) (s : State) :
  (forall doc, file <> Some ("application/pdf", Some doc)) ->
  let s' := exec (handleFileUpload file w) s in
  fst (handleFileUpload file w s) = Normal tt /\
  (file = Some ("application/pdf", None) ->
   s' = showToast "Error loading PDF. Please try another file." s) /\
  (file <> Some ("application/pdf", None) -> s' = s) /\
  loadPdfFromUrl None w s = (Normal tt, showToast "PDF 로딩 오류." s) /\
  (pdfDoc s', pageFlip s', flipbook s', pageCache s', currentPage s')
  = (pdfDoc s, pageFlip s, flipbook s, pageCache s, currentPage s).
Proof.
  intros Hfile. cbv zeta.
  assert (Hrun : handleFileUpload file w s =
            (Normal tt,
             if match file with
                | Some (type, None) => String.eqb type "application/pdf"
                | _ => false
                end
             then showToast "Error loading PDF. Please try another file." s
             else s)).
  { unfold handleFileUpload. destruct file as [[type [doc |]] |]; try reflexivity.
    - destruct (String.eqb type "application/pdf") eqn:Htype; [| reflexivity].
      apply String.eqb_eq in Htype. subst type. now destruct (Hfile doc).
    - destruct (String.eqb type "application/pdf"); reflexivity. }
  unfold exec. rewrite Hrun. cbn [fst snd].
  split; [reflexivity |]. split; [intros ->; reflexivity |]. split.
  { intros Hne. destruct file as [[type [doc |]] |]; try reflexivity.
    destruct (String.eqb type "application/pdf") eqn:Htype; [| reflexivity].
    apply String.eqb_eq in Htype. subst type. now destruct Hne. }
  split; [reflexivity |].
  destruct (match file with Some _ => _ | None => _ end); reflexivity.
Qed.

Lemma unreadable_file_only_toasts_witness :
  exec (handleFileUpload (Some ("image/png", Some Fixtures.book))
          Fixtures.desktop) Fixtures.loaded
  = Fixtures.loaded /\
  toasts (exec (handleFileUpload (Some ("application/pdf", None))
                  Fixtures.desktop) Fixtures.loaded)
  = ["Error loading PDF. Please try another file."].
Proof.
  split.
  - refine (proj1 (proj2 (proj2 (unreadable_file_only_toasts
                                   (Some ("image/png", Some Fixtures.book))
                                   Fixtures.desktop Fixtures.loaded _))) _).
    + intros doc. discriminate.
    + discriminate.
  - vm_compute. reflexivity.
Defined.

End LoadProps.

(** ** Search *)

Module SearchProps.

Import Viewer Controls TaskProps FrameProps FieldProps LoadProps.

(** [String.prefix] and [Js.includes] say what they should. *)
Lemma prefix_spec (p s : string) :
  String.prefix p s = true <-> exists t, s = p +:+ t.
Proof.
  revert s. induction p as [| a p IH]; intros s.
  - split; [intros _; now exists s | intros _; now destruct s].
  - destruct s as [| b s]; cbn.
    + split; [discriminate | intros [t Ht]; discriminate].
    + destruct (ascii_dec a b) as [-> | Hne].
      * rewrite IH. split; intros [t Ht]; exists t; [now rewrite Ht |].
        change (String b s = String b (p +:+ t)) in Ht. congruence.
      * split; [discriminate | intros [t Ht]].
        change (String b s = String a (p +:+ t)) in Ht. congruence.
Qed.

Lemma includes_spec (hay needle : string) :
  Js.includes hay needle = true <-> occursIn needle hay.
Proof.
  unfold occursIn. induction hay as [| c hay IH]; cbn [Js.includes].
  - rewrite orb_false_r, prefix_spec. split.
    + intros [t Ht]. now exists "", t.
    + intros (before & after & H). exists after.
      destruct before; [exact H | discriminate].
  - rewrite orb_true_iff, prefix_spec, IH. split.
    + intros [[t Ht] | (before & after & H)].
      * now exists "", t.
      * exists (String c before), after. now rewrite H.
    + intros (before & after & H). destruct before as [| b before].
      * left. now exists after.
      * right. exists before, after.
        change (String c hay = String b (before +:+ needle +:+ after)) in H.
        congruence.
Qed.



(** The query as [handleSearch] normalises it, and the pages it keeps. *)
Lemma handleSearch_unfold (input : string) (s : State) :
  let query := Js.trim (Js.toLowerCase input) in
  let results :=
    filter (fun i => Js.includes (default "" (pageTexts s !! i)) query = true)
           (seqZ 1 (totalPages s)) in
  query <> "" ->
  handleSearch input s =
    match results with
    | [] =>
        set_searchIndicator "결과 없음"
          (set_currentSearchIndex (-1)
             (set_searchResults [] (set_currentSearchQuery query s)))
    | first :: _ =>
        updateSearchIndicator
          (goToPage first
             (set_currentSearchIndex 0
                (set_searchResults results (set_currentSearchQuery query s))))
    end.
Proof.
  intros query results Hq. unfold handleSearch. fold query.
  apply String.eqb_neq in Hq. rewrite Hq. cbv zeta.
  cbn [searchResults set_searchResults set_currentSearchQuery pageTexts
       totalPages set_currentSearchIndex].
  fold results. destruct results as [| first rest]; reflexivity.
Qed.



(** *** Search in a loaded document *)

Lemma handleSearch_results (input : string) (s : State) :
  Js.trim (Js.toLowerCase input) <> "" ->
  searchResults (handleSearch input s) =
    filter (fun i => Js.includes (default "" (pageTexts s !! i))
                       (Js.trim (Js.toLowerCase input)) = true)
           (seqZ 1 (totalPages s)).
Proof.
  intros Hq. pose proof (handleSearch_unfold input s Hq) as Hs. cbv zeta in Hs.
  destruct (filter _ _) as [| first rest] eqn:Hres; rewrite Hs; [reflexivity |].
  match goal with
  | |- context [goToPage first ?st] => set (s0 := st)
  end.
  destruct (NavigationProps.updateSearchIndicator_fields (goToPage first s0))
    as (_ & -> & _).
  now destruct (NavigationProps.goToPage_search_fields first s0) as (_ & ->).
Qed.






(** *** The cursor *)

Lemma same_search_cursorOk (s s' : State) :
  (searchResults s', currentSearchIndex s')
  = (searchResults s, currentSearchIndex s) ->
  cursorOk s -> cursorOk s'.
Proof. unfold cursorOk. intros [= -> ->]. trivial. Qed.

Lemma handleSearch_cursorOk (input : string) (s : State) :
  cursorOk (handleSearch input s).
Proof.
  destruct (decide (Js.trim (Js.toLowerCase input) = "")) as [Hq | Hq].
  - left. unfold handleSearch. rewrite Hq. split; reflexivity.
  - pose proof (handleSearch_unfold input s Hq) as Hs. cbv zeta in Hs.
    destruct (filter _ _) as [| first rest] eqn:Hres; rewrite Hs.
    + left. split; reflexivity.
    + right.
      match goal with
      | |- context [goToPage first ?st] => set (s0 := st)
      end.
      destruct (NavigationProps.updateSearchIndicator_fields (goToPage first s0))
        as (-> & -> & _).
      destruct (NavigationProps.goToPage_search_fields first s0) as (-> & ->).
      cbn. lia.
Qed.

Lemma moved_cursorOk (s : State) (c : Z) :
  0 <= c < Z.of_nat (length (searchResults s)) ->
  cursorOk (updateSearchIndicator
              (goToPageOpt (at_ (searchResults s) c)
                 (set_currentSearchIndex c s))).
Proof.
  intros Hc. right.
  match goal with
  | |- context [updateSearchIndicator ?st] =>
      destruct (NavigationProps.updateSearchIndicator_fields st) as (-> & -> & _)
  end.
  unfold goToPageOpt. destruct (at_ _ _) as [p |].
  - destruct (NavigationProps.goToPage_search_fields p (set_currentSearchIndex c s))
      as (-> & ->).
    exact Hc.
  - exact Hc.
Qed.

Lemma searchStep_cursorOk (s : State) :
  cursorOk s ->
  cursorOk (goToNextSearchResult s) /\ cursorOk (goToPrevSearchResult s).
Proof.
  intros Hs. unfold goToNextSearchResult, goToPrevSearchResult. cbv zeta.
  destruct (Z.of_nat (length (searchResults s)) =? 0) eqn:HL;
    [now split |].
  apply Z.eqb_neq in HL.
  assert (Hc : 0 <= currentSearchIndex s < Z.of_nat (length (searchResults s))).
  { destruct Hs as [[Hnil _] | Hc]; [| exact Hc].
    rewrite Hnil in HL. cbn in HL. lia. }
  cbn [searchResults currentSearchIndex set_currentSearchIndex].
  unfold Js.rem. split; apply moved_cursorOk; cbn [searchResults set_currentSearchIndex];
    rewrite Z.rem_mod_nonneg by lia; apply Z.mod_pos_bound; lia.
Qed.

Lemma step_cursorOk (e : Event) (s : State) : cursorOk s -> cursorOk (step e s).
Proof.
  intros Hs.
  destruct (tasks_untouched _ search_untouched)
    as (Hload & _ & Hinit & Hflip & Hstate & _).
  destruct e; cbn [step].
  - eapply same_search_cursorOk; [apply (Hload file w) | exact Hs].
  - left. unfold openNewPdf. case_match; split; reflexivity.
  - eapply same_search_cursorOk; [| exact Hs]. SessionProps.plain.
  - eapply same_search_cursorOk; [| exact Hs]. SessionProps.plain.
  - eapply same_search_cursorOk; [| exact Hs]. SessionProps.plain.
  - apply handleSearch_cursorOk.
  - now apply searchStep_cursorOk.
  - now apply searchStep_cursorOk.
  - eapply same_search_cursorOk; [| exact Hs].
    rewrite (andThen_untouched _ search_untouched).
    unfold toggleViewMode. repeat case_match; reflexivity.
  - eapply same_search_cursorOk; [| exact Hs]. SessionProps.plain.
  - eapply same_search_cursorOk; [| exact Hs]. SessionProps.plain.
  - eapply same_search_cursorOk; [| exact Hs]. SessionProps.plain.
  - eapply same_search_cursorOk; [| exact Hs]. SessionProps.plain.
  - eapply same_search_cursorOk; [| exact Hs].
    rewrite (andThen_untouched _ search_untouched).
    unfold handleResize, checkMobileMode. repeat case_match; simplify_eq/=;
      reflexivity.
  - eapply same_search_cursorOk; [| exact Hs].
    etransitivity; [apply (Hflip data) |]. SessionProps.plain.
  - eapply same_search_cursorOk; [apply (Hstate data) | exact Hs].
Qed.

Lemma started_cursorOk hash response w : cursorOk (started hash response w).
Proof.
  destruct (tasks_untouched _ search_untouched) as (_ & Hurl & _).
  unfold started, exec, init.
  unfold bind at 1, modify at 1. unfold bind at 1, modify at 1.
  eapply same_search_cursorOk; [apply (Hurl response w) |].
  left. unfold checkMobileMode, checkUrlForPdf. cbn.
  repeat case_match; split; reflexivity.
Qed.

Lemma input_cursorOk i st : cursorOk (snd st) -> cursorOk (snd (input i st)).
Proof.
  destruct st as [p s]. cbn [snd]. intros Hs.
  destruct (tasks_untouched _ search_untouched) as (_ & _ & _ & _ & _ & Hfile).
  destruct i; cbn [input fst snd].
  - unfold wheel. cbv zeta. now case_match.
  - unfold mouseDown. now case_match.
  - unfold mouseUp. now case_match.
  - unfold mouseMove. now case_match.
  - exact Hs.
  - unfold handleTouchStart. now repeat case_match.
  - unfold handleTouchMove. now repeat case_match.
  - eapply same_search_cursorOk; [apply (Hfile file w) | exact Hs].
  - now apply step_cursorOk.
Qed.

(** X10: in every state of a session the search cursor is -1 on an empty
    result list and an index into the list otherwise, so the page that
    [goToNextSearchResult] and [goToPrevSearchResult] read at the cursor
    is never [undefined]. *)
Theorem search_cursor_stays_valid (st : Pointer * State) :
  live st ->
  cursorOk (snd st) /\
  (searchResults (snd st) <> [] ->
   is_Some (at_ (searchResults (snd st)) (currentSearchIndex (snd st))) /\
   is_Some (at_ (searchResults (goToNextSearchResult (snd st)))
              (currentSearchIndex (goToNextSearchResult (snd st)))) /\
   is_Some (at_ (searchResults (goToPrevSearchResult (snd st)))
              (currentSearchIndex (goToPrevSearchResult (snd st))))).
Proof.
  intros Hlive.
  assert (Hok : cursorOk (snd st)).
  { induction Hlive as [hash response w | i st _ IH].
    - apply started_cursorOk.
    - now apply input_cursorOk. }
  split; [exact Hok |]. intros Hne.
  assert (Hat : forall s, cursorOk s -> searchResults s <> [] ->
            is_Some (at_ (searchResults s) (currentSearchIndex s))).
  { intros s [[Hnil _] | Hc] Hs; [contradiction |].
    destruct (NavigationProps.at_in_range _ _ Hc) as [p Hp]. now exists p. }
  assert (Hkeep : searchResults (goToNextSearchResult (snd st)) = searchResults (snd st) /\
                  searchResults (goToPrevSearchResult (snd st)) = searchResults (snd st)).
  { unfold goToNextSearchResult, goToPrevSearchResult, goToPageOpt,
      updateSearchIndicator, goToPage.
    split; repeat case_match; reflexivity. }
  destruct Hkeep as [Hn Hp].
  destruct (searchStep_cursorOk (snd st) Hok) as [Hnext Hprev].
  split; [now apply Hat |].
  split; apply Hat; try assumption; congruence.
Qed.

Lemma search_cursor_stays_valid_witness :
  cursorOk (snd (input (Page SearchNext)
                   (input (Page (SearchInput "needle")) (idle, Fixtures.loaded)))).
Proof.
  refine (proj1 (search_cursor_stays_valid
                   (input (Page SearchNext)
                      (input (Page (SearchInput "needle"))
                         (idle, Fixtures.loaded))) _)).
  apply live_input, live_input, live_start.
Defined.

End SearchProps.

(** ** The controls and the fragment *)

Module ControlProps.

Import Viewer Controls TaskProps FrameProps FieldProps.
Local Open Scope task_scope.

Lemma renderPage_hash p w h :
  keeps (sameOn (fun s => (locationHash s, currentPage s))) (renderPage p w h).
Proof. unfold renderPage. frame same_field. Qed.
#[local] Hint Resolve renderPage_hash : frames.

Lemma renderVisiblePages_hash :
  keeps (sameOn (fun s => (locationHash s, currentPage s))) renderVisiblePages.
Proof. frame same_field. Qed.

(** X11: the fragment written on a flip brings a reload back to the same
    page.  When the engine reports a flip to index [data], the current
    page becomes [data + 1] and the fragment [#page=<data + 1>]; a page
    started from that fragment has the same current page, whatever
    document it loads, except for page 0, which it reads as page 1. *)
Theorem fragment_round_trip
    (data : Z) (s : State) (response : option PdfDoc) (w : Surroundings) :
  let s' := step (EngineFlip data) s in
  currentPage s' = data + 1 /\
  locationHash s' = "#page=" +:+ pretty (data + 1) /\
  currentPage (started (locationHash s') response w)
  = if data + 1 =? 0 then 1 else data + 1.
Proof.
  cbv zeta.
  assert (Hflip : locationHash (step (EngineFlip data) s)
                  = "#page=" +:+ pretty (data + 1) /\
                  currentPage (step (EngineFlip data) s) = data + 1).
  { assert (E : step (EngineFlip data) s =
                snd (renderVisiblePages
                       (updateUrl (set_currentPage (data + 1)
                                     (engineShows data s)))))
      by reflexivity.
    rewrite E.
    pose proof (renderVisiblePages_hash
                  (updateUrl (set_currentPage (data + 1) (engineShows data s))))
      as Hk.
    unfold sameOn in Hk. injection Hk as -> ->. split; reflexivity. }
  destruct Hflip as [Hhash Hpage]. rewrite Hhash, Hpage.
  split; [reflexivity |]. split; [reflexivity |].
  unfold started, exec, init.
  unfold bind at 1, modify at 1. unfold bind at 1, modify at 1.
  rewrite (NavigationProps.checkUrlForPdf_page (data + 1)) by reflexivity.
  match goal with
  | |- currentPage (snd (loadPdfFromUrl _ _ ?st)) = _ =>
      rewrite (loadPdfFromUrl_currentPage response w st)
  end.
  unfold checkMobileMode. cbn. now destruct (innerWidth w <=? MOBILE_BREAKPOINT).
Qed.

(** *** Where the current page comes from *)

Lemma moved_same (s s' : State) :
  totalPages s' = totalPages s -> currentPage s' = currentPage s ->
  movedByEngine s s'.
Proof. intros Ht Hc. split; [exact Ht | now left]. Qed.

Lemma moved_goToPage (n : Z) (s0 s : State) :
  pageFlip s0 = pageFlip s -> currentPage s0 = currentPage s ->
  totalPages s0 = totalPages s ->
  movedByEngine s (goToPage n s0).
Proof.
  intros Hf Hc Ht. unfold goToPage.
  destruct (pageFlip s0) as [engine |] eqn:He; [| now apply moved_same].
  destruct ((1 <=? n) && (n <=? totalPages s0)) eqn:Hn; [| now apply moved_same].
  apply andb_true_iff in Hn as [H1 H2].
  split; [exact Ht |]. right. cbn. split; [lia |].
  exists engine. split; [congruence | reflexivity].
Qed.

Lemma moved_goToPageOpt (x : option Z) (s0 s : State) :
  pageFlip s0 = pageFlip s -> currentPage s0 = currentPage s ->
  totalPages s0 = totalPages s ->
  movedByEngine s (goToPageOpt x s0).
Proof.
  intros Hf Hc Ht. destruct x as [n |]; cbn [goToPageOpt];
    [now apply moved_goToPage | now apply moved_same].
Qed.

Lemma moved_indicator (s s1 : State) :
  movedByEngine s s1 -> movedByEngine s (updateSearchIndicator s1).
Proof.
  unfold movedByEngine, updateSearchIndicator. now case_match.
Qed.

Lemma moved_handleSearch (input : string) (s : State) :
  movedByEngine s (handleSearch input s).
Proof.
  unfold handleSearch. cbv zeta.
  destruct (String.eqb _ ""); [now apply moved_same |].
  cbn [searchResults set_searchResults].
  destruct (0 <? _); [| now apply moved_same].
  now apply moved_indicator, moved_goToPageOpt.
Qed.

Lemma moved_searchStep (s : State) :
  movedByEngine s (goToNextSearchResult s) /\
  movedByEngine s (goToPrevSearchResult s).
Proof.
  unfold goToNextSearchResult, goToPrevSearchResult. cbv zeta.
  destruct (_ =? 0); [split; now apply moved_same |].
  split; now apply moved_indicator, moved_goToPageOpt.
Qed.

Lemma moved_control (e : Event) (s : State) :
  isControl e = true -> movedByEngine s (step e s).
Proof.
  destruct e; try discriminate; intros _; cbn [step].
  - unfold goToPrevPage. case_match; now apply moved_same.
  - unfold goToNextPage. case_match; now apply moved_same.
  - unfold handlePageInputChange. repeat case_match;
      solve [now apply moved_same | now apply moved_goToPage].
  - apply moved_handleSearch.
  - apply moved_searchStep.
  - apply moved_searchStep.
  - unfold zoomIn. case_match; now apply moved_same.
  - unfold zoomOut. case_match; now apply moved_same.
  - unfold toggleZoom. case_match; now apply moved_same.
  - unfold handleKeydown, goToPrevPage, goToNextPage, resetZoom.
    repeat case_match;
      solve [now apply moved_same | now apply moved_goToPage].
Qed.

(** X12: the controls change the current page only through the engine.
    A click on previous or next, a page number typed, a search, a step
    through the results, a zoom or a key leaves the page count alone and
    either leaves the current page as it was or sets it to a page from 1
    to the page count after asking the engine there was to flip to that
    page (index: page less one).  So a current page that is in range
    stays in range under these events. *)
Theorem controls_move_page_through_engine (e : Event) (s : State) :
  isControl e = true ->
  let s' := step e s in
  totalPages s' = totalPages s /\
  (currentPage s' <> currentPage s ->
   1 <= currentPage s' <= totalPages s /\
   exists engine,
     pageFlip s = Some engine /\
     pageFlip s' = Some (engineCall (Flip (currentPage s' - 1)) engine)) /\
  (pageInRange s -> pageInRange s').
Proof.
  intros He s'. destruct (moved_control e s He) as [Ht Hmoved]. fold s' in Ht, Hmoved.
  split; [exact Ht |]. split.
  - intros Hne. destruct Hmoved as [Hsame | Hjump]; [contradiction | exact Hjump].
  - unfold pageInRange. rewrite Ht.
    destruct Hmoved as [-> | [Hrange _]]; [trivial | intros _; exact Hrange].
Qed.

Lemma controls_move_page_through_engine_witness :
  pageInRange Fixtures.loaded /\
  pageInRange (step (KeyDown "End") Fixtures.loaded) /\
  currentPage (step (KeyDown "End") Fixtures.loaded) = 10.
Proof.
  assert (Hin : pageInRange Fixtures.loaded) by (vm_compute; split; discriminate).
  split; [exact Hin |]. split; [| vm_compute; reflexivity].
  exact (proj2 (proj2 (controls_move_page_through_engine (KeyDown "End")
                         Fixtures.loaded eq_refl)) Hin).
Defined.

End ControlProps.

(** ** What gets rendered, and when *)

Module WindowProps.

Import Viewer Controls TaskProps FrameProps LoadProps.
Local Open Scope task_scope.

#[local] Hint Resolve RenderProps.renderPage_layout : frames.

(** *** The canvas of a decoded page *)



(** *** The window around the current page *)

Lemma elem_of_setAdd (x y : Z) (l : list Z) : x ∈ setAdd y l <-> x = y \/ x ∈ l.
Proof.
  unfold setAdd. destruct (decide (y ∈ l)) as [Hy | Hy].
  - split; [now right | intros [-> | H]; assumption].
  - rewrite elem_of_app, list_elem_of_singleton. tauto.
Qed.

(** The pages that the preload loop adds. *)
Lemma elem_of_preload (i total x : Z) (ks acc : list Z) :
  x ∈ fold_left
        (fun acc k =>
           let pageNum := i + 1 + k in
           if (1 <=? pageNum) && (pageNum <=? total)
           then setAdd pageNum acc else acc)
        ks acc
  <-> x ∈ acc \/ (1 <= x <= total /\ exists k, k ∈ ks /\ x = i + 1 + k).
Proof.
  revert acc. induction ks as [| k ks IH]; intros acc; cbn [fold_left].
  - split; [now left | intros [H | (_ & k & Hk & _)]; [exact H | inversion Hk]].
  - rewrite IH. cbv zeta.
    destruct ((1 <=? i + 1 + k) && (i + 1 + k <=? total)) eqn:Hin.
    + apply andb_true_iff in Hin as [H1 H2].
      rewrite elem_of_setAdd. split.
      * intros [[-> | H] | (Hx & k' & Hk' & ->)].
        -- right. split; [lia |]. exists k. split; [left | reflexivity].
        -- now left.
        -- right. split; [exact Hx |]. exists k'. split; [now right | reflexivity].
      * intros [H | (Hx & k' & Hk' & ->)]; [left; now right |].
        apply elem_of_cons in Hk' as [-> | Hk'].
        -- left. now left.
        -- right. split; [exact Hx |]. now exists k'.
    + split.
      * intros [H | (Hx & k' & Hk' & ->)]; [now left |].
        right. split; [exact Hx |]. exists k'. split; [now right | reflexivity].
      * intros [H | (Hx & k' & Hk' & ->)]; [now left |].
        apply elem_of_cons in Hk' as [-> | Hk'].
        -- apply andb_false_iff in Hin as [H | H]; lia.
        -- right. split; [exact Hx |]. now exists k'.
Qed.

(** A loop of [renderPageContent] leaves a canvas in every page of the
    list that has an element. *)
Lemma forEach_renders (l : list Z) :
  forall s i, i ∈ l -> hasPage i s ->
    hasCanvas i (snd (forEach l renderPageContent s)).
Proof.
  induction l as [| x l IH]; intros s i Hi Hpage.
  - inversion Hi.
  - cbn [forEach]. unfold bind.
    pose proof (renderPageContent_pagesKept x s) as Hkept.
    destruct (renderPageContent_total x s) as [[] Hrun].
    destruct (renderPageContent x s) as [c s1] eqn:Hx. cbn in Hkept, Hrun.
    subst c.
    assert (Hrest : keeps pagesKept (forEach l renderPageContent)).
    { apply keeps_forEach; [apply _ |]. intros n.
      apply renderPageContent_pagesKept. }
    destruct (decide (i ∈ l)) as [Hin | Hnin].
    + apply IH; [exact Hin | now apply (Hkept i)].
    + apply elem_of_cons in Hi as [-> | Hi]; [| contradiction].
      apply (Hrest s1 x).
      pose proof (renderPageContent_hasCanvas x s Hpage) as Hc.
      unfold exec in Hc. now rewrite Hx in Hc.
Qed.

(** X14: [renderVisiblePages] renders the window around the current
    page.  With an engine that shows index [i] and one element per page,
    it completes without exception and leaves a canvas in every page of
    the document from [i - 1] to [i + 3], and to [i + 5] in the double
    layout.  Without an engine it throws a [TypeError] and changes
    nothing. *)
Theorem visible_window_is_rendered (s : State) :
  (forall engine,
     pageFlip s = Some engine -> bookLaidOut s ->
     let i := currentPageIndex engine in
     let ahead := if isDoublePageMode s then 4 else 2 in
     fst (renderVisiblePages s) = Normal tt /\
     forall n,
       1 <= n <= totalPages s -> i - 1 <= n <= i + 1 + ahead ->
       hasCanvas n (exec renderVisiblePages s)) /\
  (pageFlip s = None -> renderVisiblePages s = (Throw TypeError, s)).
Proof.
  split.
  - intros engine He Hbook i ahead.
    unfold exec, renderVisiblePages. unfold bind at 1, get at 1.
    unfold bind at 1, get at 1. rewrite He. fold i. cbv zeta.
    match goal with
    | |- fst (forEach ?l _ _) = _ /\ _ => set (pages := l)
    end.
    split.
    + destruct (total_forEach pages renderPageContent renderPageContent_total s)
        as [[] H]. exact H.
    + intros n Hn Hwin. apply forEach_renders.
      * unfold pages. apply elem_of_preload. right. split; [exact Hn |].
        exists (n - (i + 1)). split; [| lia].
        apply elem_of_seqZ. unfold ahead in Hwin.
        destruct (isDoublePageMode s); lia.
      * now apply bookLaidOut_hasPage.
  - intros He. unfold renderVisiblePages, bind, get. now rewrite He.
Qed.

Lemma visible_window_is_rendered_witness :
  hasCanvas 5 (exec renderVisiblePages Fixtures.opened).
Proof.
  destruct (proj1 (visible_window_is_rendered Fixtures.opened)
              {| pfWidth := 500; pfHeight := 666; usePortrait := false;
                 startPage := 0; currentPageIndex := 0; calls := [] |})
    as [_ H].
  - vm_compute. reflexivity.
  - vm_compute. reflexivity.
  - apply H; vm_compute; split; discriminate.
Defined.

(** *** Pages that are rendered stay rendered *)

Global Instance othersKept_preorder (n : Z) : PreOrder (othersKept n).
Proof.
  split.
  - intros s m _. reflexivity.
  - intros s1 s2 s3 H12 H23 m Hm. now rewrite (H23 m Hm), (H12 m Hm).
Qed.

Global Instance canvasesKept_preorder : PreOrder canvasesKept.
Proof.
  split.
  - intros s m el canvas Hel Hc. now exists el.
  - intros s1 s2 s3 H12 H23 m el canvas Hel Hc.
    destruct (H12 m el canvas Hel Hc) as (el' & Hel' & Hc').
    exact (H23 m el' canvas Hel' Hc').
Qed.

Ltac others_field :=
  unfold othersKept;
  first
    [ intros ? ?; cbn [flipbook set_flipbook];
      apply findPage_updatePage_ne; auto with frames
    | unfold hidePageUnderneath, updateUrl; repeat case_match;
      intros ? ?; reflexivity ].

Lemma renderPage_othersKept n p w h : keeps (othersKept n) (renderPage p w h).
Proof. unfold renderPage. frame others_field. Qed.
#[local] Hint Resolve renderPage_othersKept : frames.

Lemma renderPageContent_othersKept n : keeps (othersKept n) (renderPageContent n).
Proof. frame others_field. Qed.

(** A page that holds a canvas is not rendered again. *)
Lemma renderPageContent_rendered (n : Z) (s : State) :
  hasCanvas n s -> renderPageContent n s = (Normal tt, s).
Proof.
  intros (el & canvas & Hel & Hc). unfold renderPageContent, bind, get.
  now rewrite Hel, Hc.
Qed.

Lemma renderPageContent_missing (n : Z) (s : State) :
  ~ hasPage n s -> renderPageContent n s = (Normal tt, s).
Proof.
  intros Hno. unfold renderPageContent, bind, get.
  destruct (findPage n (flipbook s)) as [el |] eqn:Hel; [| reflexivity].
  destruct Hno. now exists el.
Qed.

Lemma renderPageContent_canvasesKept n : keeps canvasesKept (renderPageContent n).
Proof.
  intros s m el canvas Hel Hc. destruct (decide (m = n)) as [-> | Hne].
  - rewrite renderPageContent_rendered by now exists el, canvas.
    now exists el.
  - exists el. split; [| exact Hc].
    now rewrite (renderPageContent_othersKept n s m Hne).
Qed.

Lemma same_flipbook_canvasesKept (s s' : State) :
  flipbook s' = flipbook s -> canvasesKept s s'.
Proof. intros Hf m el canvas Hel Hc. exists el. now rewrite Hf. Qed.

Lemma showPageUnderneath_flipbook i :
  keeps (sameOn (fun s => (flipbook s, totalPages s))) (showPageUnderneath i).
Proof. frame same_field. Qed.

Lemma showPageUnderneath_total i : total (showPageUnderneath i).
Proof.
  unfold showPageUnderneath, cloneCanvas. cbv zeta.
  apply total_bind; [apply total_get | intros s].
  destruct (totalPages s <? _); [apply total_ret |].
  apply total_bind; [apply total_modify | intros _].
  destruct (findPage _ _) as [el |]; [| apply total_ret].
  destruct (firstCanvas el) as [canvas |]; [| apply total_ret].
  apply total_bind; [| intros cloned; apply total_modify].
  apply total_bind; [apply total_get | intros s'].
  apply total_bind; [apply total_modify | intros _; apply total_ret].
Qed.

Lemma renderVisiblePages_canvasesKept : keeps canvasesKept renderVisiblePages.
Proof.
  unfold renderVisiblePages.
  apply keeps_bind; [apply _ | apply keeps_get; apply _ | intros s].
  destruct (pageFlip s); [| apply keeps_throw; apply _].
  apply keeps_forEach; [apply _ |]. intros n. apply renderPageContent_canvasesKept.
Qed.

Lemma batch_canvasesKept (l : list Z) :
  keeps canvasesKept (promiseAll (renderPageContent <$> l)).
Proof.
  apply keeps_promiseAll; [apply _ |]. apply Forall_fmap, Forall_true.
  intros n. apply renderPageContent_canvasesKept.
Qed.

Lemma onChangeState_canvasesKept data : keeps canvasesKept (onChangeState data).
Proof.
  unfold onChangeState.
  apply keeps_bind; [apply _ | | intros _].
  - destruct (isFlipStart data); [| apply keeps_ret; apply _].
    apply keeps_bind; [apply _ | apply keeps_get; apply _ | intros s].
    destruct (pageFlip s) as [engine |]; [| apply keeps_throw; apply _].
    apply keeps_bind; [apply _ | | intros _; apply batch_canvasesKept].
    destruct (isDoublePageMode s); [| apply keeps_ret; apply _].
    intros s0. apply same_flipbook_canvasesKept.
    pose proof (showPageUnderneath_flipbook (currentPageIndex engine) s0) as H.
    unfold sameOn in H. now injection H.
  - destruct (String.eqb data "read"); [| apply keeps_ret; apply _].
    apply keeps_modify. intros s. apply same_flipbook_canvasesKept.
    unfold hidePageUnderneath. now case_match.
Qed.

(** X15: a page is rendered once.  [renderPageContent] does nothing on
    a page whose element holds a canvas, and nothing for a page without
    element, so running it twice is running it once; it leaves the
    elements of the other pages alone.  Hence the canvas that a page
    element holds is still the one it holds after [renderVisiblePages],
    [preRenderAllPages], a flip and a change of the engine's state: none
    of them draws a page again or replaces its canvas. *)
Theorem rendered_pages_are_kept :
  (forall n s,
     exec (renderPageContent n) (exec (renderPageContent n) s)
     = exec (renderPageContent n) s) /\
  (forall n s,
     hasCanvas n s \/ ~ hasPage n s -> renderPageContent n s = (Normal tt, s)) /\
  (forall n, keeps (othersKept n) (renderPageContent n)) /\
  keeps canvasesKept renderVisiblePages /\
  keeps canvasesKept preRenderAllPages /\
  (forall data, keeps canvasesKept (onFlip data)) /\
  (forall data, keeps canvasesKept (onChangeState data)).
Proof.
  split; [| split; [| split; [| split; [| split; [| split]]]]].
  - intros n s. destruct (decide (is_Some (findPage n (flipbook s)))) as [Hp | Hp].
    + pose proof (renderPageContent_hasCanvas n s Hp) as Hc.
      unfold exec at 1. now rewrite (renderPageContent_rendered n _ Hc).
    + unfold exec at 2 3. rewrite (renderPageContent_missing n s Hp). cbn [snd].
      unfold exec. now rewrite (renderPageContent_missing n s Hp).
  - intros n s [Hc | Hp];
      [now apply renderPageContent_rendered | now apply renderPageContent_missing].
  - exact renderPageContent_othersKept.
  - exact renderVisiblePages_canvasesKept.
  - unfold preRenderAllPages.
    apply keeps_bind; [apply _ | apply keeps_get; apply _ | intros s].
    apply batch_canvasesKept.
  - intros data. unfold onFlip.
    apply keeps_bind; [apply _ | | intros _].
    { apply keeps_modify. intros s. now apply same_flipbook_canvasesKept. }
    apply keeps_bind; [apply _ | | intros _; apply renderVisiblePages_canvasesKept].
    apply keeps_modify. intros s. now apply same_flipbook_canvasesKept.
  - exact onChangeState_canvasesKept.
Qed.

Lemma rendered_pages_are_kept_witness :
  renderPageContent 3 Fixtures.loaded = (Normal tt, Fixtures.loaded).
Proof.
  apply (proj1 (proj2 rendered_pages_are_kept) 3 Fixtures.loaded).
  left. vm_compute. eexists _, _. split; reflexivity.
Defined.

(** *** The look-ahead of a flip *)

Lemma isFlipStart_not_read (data : string) :
  isFlipStart data = true -> String.eqb data "read" = false.
Proof.
  intros H. destruct (String.eqb data "read") eqn:E; [| reflexivity].
  apply String.eqb_eq in E. subst data. discriminate.
Qed.

(** X16: when a flip starts, the six pages after the current one are
    rendered.  On ['flipping'], ['user_fold'] or ['fold_corner'], with an
    engine that shows index [i] and one element per page, the listener
    of ['changeState'] completes without exception and leaves a canvas
    in every page of the document from [i + 2] to [i + 7], in either
    layout. *)
Theorem flip_start_renders_ahead
    (data : string) (s : State) (engine : PageFlip) :
  isFlipStart data = true -> pageFlip s = Some engine -> bookLaidOut s ->
  fst (onChangeState data s) = Normal tt /\
  forall n,
    1 <= n <= totalPages s ->
    currentPageIndex engine + 2 <= n <= currentPageIndex engine + 7 ->
    hasCanvas n (exec (onChangeState data) s).
Proof.
  intros Hstart He Hbook.
  set (i := currentPageIndex engine).
  set (first := if isDoublePageMode s then showPageUnderneath i else ret tt).
  set (nextPages :=
         filter (fun pageNum => 1 <= pageNum /\ pageNum <= totalPages s)
                ((fun k => i + 1 + k) <$> seqZ 1 6)).
  assert (Hfirst : total first /\
                   keeps (sameOn (fun s => (flipbook s, totalPages s))) first).
  { unfold first. destruct (isDoublePageMode s).
    - split; [apply showPageUnderneath_total | apply showPageUnderneath_flipbook].
    - split; [apply total_ret | apply keeps_ret; apply _]. }
  destruct Hfirst as [Htot Hsame].
  destruct (run_total first s Htot) as [[] H1].
  specialize (Hsame s). unfold sameOn in Hsame. rewrite H1 in Hsame.
  cbn [snd] in Hsame. injection Hsame as Hflip Htotal.
  set (s1 := exec first s) in *.
  assert (Hbatch : total (promiseAll (renderPageContent <$> nextPages))).
  { apply total_promiseAll, Forall_fmap, Forall_true. intros n.
    apply renderPageContent_total. }
  destruct (run_total _ s1 Hbatch) as [[] H2].
  assert (Hrun : onChangeState data s =
            (Normal tt, exec (promiseAll (renderPageContent <$> nextPages)) s1)).
  { unfold onChangeState. rewrite Hstart, (isFlipStart_not_read data Hstart).
    unfold bind at 1. unfold bind at 1, get at 1. rewrite He.
    fold i first nextPages.
    rewrite (bind_run _ _ _ _ _ H1), H2. reflexivity. }
  unfold exec at 1. rewrite Hrun. split; [reflexivity |].
  intros n Hn Hwin. cbn [snd]. unfold exec.
  apply promiseAll_renders.
  - intros j Hj. unfold hasPage. rewrite Hflip.
    apply bookLaidOut_hasPage; [exact Hbook |].
    unfold nextPages in Hj. apply list_elem_of_filter in Hj as [Hj _]. lia.
  - unfold nextPages. apply list_elem_of_filter. split; [lia |].
    apply list_elem_of_fmap. exists (n - (i + 1)). split; [lia |].
    apply elem_of_seqZ. lia.
Qed.

Lemma flip_start_renders_ahead_witness :
  hasCanvas 6 (exec (onChangeState "flipping") Fixtures.opened).
Proof.
  refine (proj2 (flip_start_renders_ahead "flipping" Fixtures.opened
                   {| pfWidth := 500; pfHeight := 666; usePortrait := false;
                      startPage := 0; currentPageIndex := 0; calls := [] |}
                   _ _ _) 6 _ _).
  - reflexivity.
  - vm_compute. reflexivity.
  - vm_compute. reflexivity.
  - vm_compute. split; discriminate.
  - vm_compute. split; discriminate.
Defined.

End WindowProps.

(** ** The layout of the book *)

Module LayoutProps.

Import Viewer Controls TaskProps FrameProps FieldProps LoadProps.
Local Open Scope task_scope.

(** The sizes of the engine, of the state and of the page elements. *)
Lemma renderPage_sizes p w h :
  keeps (sameOn (fun s => (pageFlip s, basePageWidth s, basePageHeight s,
                           (fun el => (elWidth el, elHeight el)) <$> flipbook s)))
        (renderPage p w h).
Proof. unfold renderPage. frame same_field. Qed.
#[local] Hint Resolve renderPage_sizes : frames.

Lemma sizes_updatePage n f pages :
  (forall el, (elWidth (f el), elHeight (f el)) = (elWidth el, elHeight el)) ->
  (fun el => (elWidth el, elHeight el)) <$> updatePage n f pages
  = (fun el => (elWidth el, elHeight el)) <$> pages.
Proof.
  intros Hf. induction pages as [| el pages IH]; [reflexivity |].
  cbn. destruct (pageNum el =? n); cbn; [now rewrite Hf | now rewrite IH].
Qed.

Ltac sizes_field :=
  unfold sameOn;
  cbn [flipbook set_flipbook pageFlip basePageWidth basePageHeight];
  first [ reflexivity
        | rewrite sizes_updatePage by (intros ?; reflexivity); reflexivity ].

Lemma renderVisiblePages_sizes :
  keeps (sameOn (fun s => (pageFlip s, basePageWidth s, basePageHeight s,
                           (fun el => (elWidth el, elHeight el)) <$> flipbook s)))
        renderVisiblePages.
Proof. frame sizes_field. Qed.

Lemma initFlipbook_plans w s :
  let s' := exec (initFlipbook w) s in
  (basePageWidth s', basePageHeight s') = plannedSize w s /\
  (exists engine,
     pageFlip s' = Some engine /\
     (pfWidth engine, pfHeight engine) = plannedSize w s /\
     usePortrait engine = negb (isDoublePageMode s) /\
     startPage engine = currentPage s - 1) /\
  (forall el, el ∈ flipbook s' -> (elWidth el, elHeight el) = plannedSize w s).
Proof.
  cbv zeta.
  assert (Hfinal : exists s1 engine,
            exec (initFlipbook w) s = snd (renderVisiblePages s1) /\
            (basePageWidth s1, basePageHeight s1) = plannedSize w s /\
            pageFlip s1 = Some engine /\
            (pfWidth engine, pfHeight engine) = plannedSize w s /\
            usePortrait engine = negb (isDoublePageMode s) /\
            startPage engine = currentPage s - 1 /\
            (fun el => (elWidth el, elHeight el)) <$> flipbook s1
            = (fun _ => plannedSize w s) <$> seqZ 1 (totalPages s1)).
  { unfold exec, initFlipbook.
    unfold bind at 1, get at 1.
    set (ratioTask := match pdfDoc s with Some _ => _ | None => _ end).
    assert (Hratio : exists s0,
              ratioTask s = (Normal (aspectRatioOf s), s0) /\
              (isDoublePageMode s0, currentPage s0, totalPages s0)
              = (isDoublePageMode s, currentPage s, totalPages s)).
    { unfold ratioTask, aspectRatioOf.
      destruct (pdfDoc s) as [doc |] eqn:Hdoc.
      - unfold tryCatch, docGetPage, logCall, bind, get, modify, ret, throw.
        cbn. rewrite Hdoc. destruct (getPage doc 1); cbn;
          eexists; split; reflexivity.
      - eexists; split; reflexivity. }
    destruct Hratio as (s0 & Hr & Hsame). injection Hsame as Hd Hc Ht.
    unfold bind at 1. rewrite Hr.
    unfold bind at 1, get at 1. rewrite Hd. fold (plannedSize w s).
    destruct (plannedSize w s) as [pageWidth pageHeight].
    repeat (unfold bind at 1, modify at 1).
    eexists _, _. split; [reflexivity |]. cbn. rewrite Hd, Hc.
    repeat split. rewrite <- list_fmap_compose. reflexivity. }
  destruct Hfinal as (s1 & engine & -> & Hbase & He & Hpf & Hport & Hstart & Hels).
  pose proof (renderVisiblePages_sizes s1) as Hk.
  pose proof (RenderProps.renderVisiblePages_layout s1) as Hl.
  unfold sameOn in Hk, Hl. injection Hk as Hk1 Hk2 Hk3 Hk4. injection Hl as _ Hl2.
  rewrite Hk2, Hk3. split; [exact Hbase |]. split.
  - exists engine. rewrite Hk1. repeat split; assumption.
  - intros el Hel.
    assert (Hin : (elWidth el, elHeight el)
                  ∈ (fun el => (elWidth el, elHeight el))
                    <$> flipbook (snd (renderVisiblePages s1))).
    { apply list_elem_of_fmap. now exists el. }
    rewrite Hk4, Hels in Hin. apply list_elem_of_fmap in Hin as (i & -> & _).
    reflexivity.
Qed.

(** X17: [initFlipbook] sizes the whole book alike.  The size it plans
    for the window, the layout and the aspect ratio of the first page
    (0.714 without one) is the size in the state, the size the engine is
    built with and the size of every page element; the engine is in
    portrait mode exactly in the single layout and starts at the current
    page, less one. *)
Theorem initFlipbook_sizes_book_alike (w : Surroundings) (s : State) :
  let s' := exec (initFlipbook w) s in
  (basePageWidth s', basePageHeight s') = plannedSize w s /\
  (exists engine,
     pageFlip s' = Some engine /\
     (pfWidth engine, pfHeight engine) = plannedSize w s /\
     usePortrait engine = negb (isDoublePageMode s) /\
     startPage engine = currentPage s - 1) /\
  (forall el, el ∈ flipbook s' -> (elWidth el, elHeight el) = plannedSize w s).
Proof. exact (initFlipbook_plans w s). Qed.

Lemma initFlipbook_sizes_book_alike_witness :
  exists el,
    flipbook (exec (initFlipbook Fixtures.desktop) Fixtures.loaded) !! 2%nat
    = Some el /\
    (elWidth el, elHeight el) = plannedSize Fixtures.desktop Fixtures.loaded.
Proof.
  pose proof (initFlipbook_sizes_book_alike Fixtures.desktop Fixtures.loaded)
    as H.
  cbv zeta in H. destruct H as (_ & _ & H).
  destruct (flipbook (exec (initFlipbook Fixtures.desktop) Fixtures.loaded)
              !! 2%nat) as [el |] eqn:E; [| vm_compute in E; discriminate].
  exists el. split; [reflexivity |].
  apply (H el). now apply list_elem_of_lookup_2 with (i := 2%nat).
Defined.

(** *** Toggling the layout *)

Lemma toggleViewMode_desktop (s : State) (doc : PdfDoc) (w : Surroundings) :
  isMobile s = false -> pdfDoc s = Some doc ->
  step (ViewModeClicked w) s
  = exec (initFlipbook w)
      (set_pageCache ∅ (set_isDoublePageMode (negb (isDoublePageMode s)) s)).
Proof.
  intros Hm Hdoc. cbn [step]. unfold toggleViewMode, andThen. rewrite Hm.
  cbn [andb pdfDoc set_isDoublePageMode]. rewrite Hdoc. reflexivity.
Qed.

Lemma initFlipbook_doc w :
  keeps (sameOn (fun s => (isMobile s, isDoublePageMode s, pdfDoc s,
                           currentPage s)))
        (initFlipbook w).
Proof.
  intros s. pose proof (initFlipbook_mode w s) as Hm.
  pose proof (initFlipbook_kept w s) as Hk. unfold sameOn, mode in *.
  injection Hm as -> ->. injection Hk as -> _ _ _ ->. reflexivity.
Qed.

(** X18: on a desktop, with a document, the layout toggle is its own
    inverse.  One click flips the layout and rebuilds the book for it in
    the window; a second click in the same window brings back the layout
    and the page size that [initFlipbook] plans for the state before the
    first click.  The current page and the document are the same
    throughout. *)
Theorem view_toggle_twice_restores_layout
    (w : Surroundings) (s : State) (doc : PdfDoc) :
  isMobile s = false -> pdfDoc s = Some doc ->
  let s1 := step (ViewModeClicked w) s in
  let s2 := step (ViewModeClicked w) s1 in
  isDoublePageMode s1 = negb (isDoublePageMode s) /\
  (basePageWidth s1, basePageHeight s1)
  = Planner.pageDimensions (availableWidth w) (availableHeight w)
      (negb (isDoublePageMode s)) (aspectRatioOf s) /\
  isDoublePageMode s2 = isDoublePageMode s /\
  (basePageWidth s2, basePageHeight s2) = plannedSize w s /\
  (pdfDoc s2, currentPage s2) = (pdfDoc s, currentPage s).
Proof.
  intros Hm Hdoc s1 s2.
  assert (H1 : s1 = exec (initFlipbook w)
                      (set_pageCache ∅
                         (set_isDoublePageMode (negb (isDoublePageMode s)) s)))
    by now apply (toggleViewMode_desktop s doc).
  assert (Hk1 : (isMobile s1, isDoublePageMode s1, pdfDoc s1, currentPage s1)
                = (isMobile s, negb (isDoublePageMode s), pdfDoc s, currentPage s)).
  { rewrite H1. exact (initFlipbook_doc w _). }
  injection Hk1 as Hm1 Hd1 Hdoc1 Hc1.
  assert (H2 : s2 = exec (initFlipbook w)
                      (set_pageCache ∅
                         (set_isDoublePageMode (negb (isDoublePageMode s1)) s1))).
  { apply (toggleViewMode_desktop s1 doc); congruence. }
  assert (Hk2 : (isMobile s2, isDoublePageMode s2, pdfDoc s2, currentPage s2)
                = (isMobile s1, negb (isDoublePageMode s1), pdfDoc s1,
                   currentPage s1)).
  { rewrite H2. exact (initFlipbook_doc w _). }
  injection Hk2 as Hm2 Hd2 Hdoc2 Hc2.
  split; [exact Hd1 |]. split.
  { rewrite H1. now destruct (initFlipbook_plans w
      (set_pageCache ∅ (set_isDoublePageMode (negb (isDoublePageMode s)) s)))
      as [-> _]. }
  split; [rewrite Hd2, Hd1; apply negb_involutive |]. split.
  { rewrite H2.
    destruct (initFlipbook_plans w
      (set_pageCache ∅ (set_isDoublePageMode (negb (isDoublePageMode s1)) s1)))
      as [-> _].
    unfold plannedSize, aspectRatioOf.
    cbn [isDoublePageMode pdfDoc set_pageCache set_isDoublePageMode].
    now rewrite Hd1, Hdoc1, negb_involutive. }
  congruence.
Qed.

Lemma view_toggle_twice_restores_layout_witness :
  isDoublePageMode
    (step (ViewModeClicked Fixtures.desktop)
       (step (ViewModeClicked Fixtures.desktop) Fixtures.loaded))
  = isDoublePageMode Fixtures.loaded.
Proof.
  refine (proj1 (proj2 (proj2
            (view_toggle_twice_restores_layout Fixtures.desktop Fixtures.loaded
               Fixtures.book _ _)))); vm_compute; reflexivity.
Defined.

(** *** Resizing *)

Lemma initFlipbook_cacheGrows w : keeps cacheGrows (initFlipbook w).
Proof. frame SessionProps.cache_field. Qed.

(** X19: a resize that stays within the device class keeps the cache.
    When the new window is on the same side of the mobile breakpoint as
    the state, [checkMobileMode] reports no change, [handleResize] leaves
    the cache as it is, and the [initFlipbook] it may start for a new
    size only adds entries; in a state where mobile goes with the single
    layout, the device class and the layout are the same afterwards. *)
Theorem resize_within_class_keeps_cache (w : Surroundings) (s : State) :
  (innerWidth w <=? MOBILE_BREAKPOINT) = isMobile s ->
  fst (checkMobileMode w s) = false /\
  pageCache (fst (handleResize w s)) = pageCache s /\
  cacheGrows s (step (Resized w) s) /\
  (mobileIsSingle s -> mode (step (Resized w) s) = mode s).
Proof.
  intros Hclass.
  assert (Hcheck : checkMobileMode w s =
            (false,
             if isMobile s && isDoublePageMode s
             then set_isDoublePageMode false (set_isMobile (isMobile s) s)
             else set_isMobile (isMobile s) s)).
  { unfold checkMobileMode. rewrite Hclass. cbn [isMobile set_isMobile isDoublePageMode].
    destruct (isMobile s && isDoublePageMode s);
      cbn [isMobile set_isMobile set_isDoublePageMode];
      now destruct (isMobile s). }
  assert (Hresize : pageCache (fst (handleResize w s)) = pageCache s).
  { unfold handleResize. rewrite Hcheck.
    repeat case_match; reflexivity. }
  split; [now rewrite Hcheck |]. split; [exact Hresize |]. split.
  - cbn [step]. unfold andThen. destruct (snd (handleResize w s)).
    + unfold cacheGrows. rewrite <- Hresize. apply (initFlipbook_cacheGrows w).
    + unfold cacheGrows. now rewrite Hresize.
  - intros Hsingle. cbn [step].
    assert (Hmode : mode (fst (handleResize w s)) = mode s).
    { unfold handleResize. rewrite Hcheck. unfold mode.
      destruct (isMobile s) eqn:Hm; cbn [andb].
      - rewrite (Hsingle Hm). repeat case_match; simplify_eq/=;
          now rewrite ?Hm, ?(Hsingle Hm).
      - repeat case_match; simplify_eq/=; now rewrite ?Hm. }
    unfold andThen. destruct (snd (handleResize w s)); [| exact Hmode].
    rewrite <- Hmode. apply (initFlipbook_mode w).
Qed.

Lemma resize_within_class_keeps_cache_witness :
  pageCache (fst (handleResize Fixtures.desktop Fixtures.loaded))
  = pageCache Fixtures.loaded.
Proof.
  refine (proj1 (proj2 (resize_within_class_keeps_cache Fixtures.desktop
                          Fixtures.loaded _))).
  vm_compute. reflexivity.
Defined.

(** *** An engine goes with a book *)

Lemma renderPage_book p w h :
  keeps (sameOn (fun s => (pdfDoc s, totalPages s, pageNum <$> flipbook s,
                           pageFlip s)))
        (renderPage p w h).
Proof. unfold renderPage. frame same_field. Qed.
#[local] Hint Resolve renderPage_book : frames.

Ltac book_field :=
  unfold sameOn, hidePageUnderneath, updateUrl; repeat case_match;
  cbn [flipbook set_flipbook totalPages pdfDoc pageFlip];
  first [ reflexivity
        | rewrite pageNums_updatePage by auto with frames; reflexivity ].

Lemma engineTasks_book :
  (forall data,
     keeps (sameOn (fun s => (pdfDoc s, totalPages s, pageNum <$> flipbook s,
                              pageFlip s)))
           (onFlip data)) /\
  (forall data,
     keeps (sameOn (fun s => (pdfDoc s, totalPages s, pageNum <$> flipbook s,
                              pageFlip s)))
           (onChangeState data)).
Proof. split; intros data; frame book_field. Qed.

Lemma same_booked (s s' : State) :
  (pdfDoc s', totalPages s', pageNum <$> flipbook s',
   from_option (fun _ => true) false (pageFlip s'))
  = (pdfDoc s, totalPages s, pageNum <$> flipbook s,
     from_option (fun _ => true) false (pageFlip s)) ->
  booked s -> booked s'.
Proof.
  intros [= Hd Ht Hf He] (Hcount & Hengine & Hbook).
  unfold booked, bookLaidOut in *.
  rewrite Hd, Ht, Hf. split; [exact Hcount |]. split.
  - intros Hdoc. destruct (Hengine Hdoc) as [engine Hsome].
    rewrite Hsome in He. destruct (pageFlip s'); [now eexists | discriminate].
  - intros [engine Hsome]. apply Hbook.
    rewrite Hsome in He. destruct (pageFlip s); [now eexists | discriminate].
Qed.

Lemma same_book_booked (s s' : State) :
  (pdfDoc s', totalPages s', pageNum <$> flipbook s', pageFlip s')
  = (pdfDoc s, totalPages s, pageNum <$> flipbook s, pageFlip s) ->
  booked s -> booked s'.
Proof. intros [= Hd Ht Hf He]. apply same_booked. congruence. Qed.

Lemma load_booked (file : option PdfDoc) (w : Surroundings) (s : State) :
  booked s ->
  booked (exec (loadPdf file w) s) /\ booked (exec (loadPdfFromUrl file w) s).
Proof.
  intros Hs. destruct file as [doc |].
  - destruct (loadPdf_result doc w s)
      as (Hurl & _ & Hdoc & Htotal & Hbook & (engine & Hengine & _) & _).
    unfold exec in *. rewrite Hurl.
    assert (H : booked (snd (loadPdf (Some doc) w s))).
    { split; [| split].
      - intros doc' Hdoc'. rewrite Hdoc in Hdoc'. injection Hdoc' as <-.
        exact Htotal.
      - intros _. rewrite Hengine. now eexists.
      - intros _. split; [rewrite Hdoc; now eexists | exact Hbook]. }
    split; exact H.
  - split; revert Hs; apply same_book_booked; reflexivity.
Qed.

Lemma initFlipbook_booked (w : Surroundings) (s : State) :
  (forall doc, pdfDoc s = Some doc -> totalPages s = numPages doc) ->
  is_Some (pdfDoc s) ->
  booked (exec (initFlipbook w) s).
Proof.
  intros Hcount Hdoc.
  pose proof (initFlipbook_kept w s) as Hk. unfold sameOn in Hk.
  injection Hk as Hd Ht _ _ _. fold (exec (initFlipbook w) s) in Hd, Ht.
  destruct (NavigationProps.initFlipbook_engine w s) as (engine & Hengine & _).
  split; [| split].
  - rewrite Hd, Ht. exact Hcount.
  - intros _. rewrite Hengine. now eexists.
  - intros _. rewrite Hd. split; [exact Hdoc |].
    apply RenderProps.initFlipbook_lays_out.
Qed.

Lemma andThen_booked (r : State * bool) (w : Surroundings) :
  booked (fst r) -> (snd r = true -> is_Some (pdfDoc (fst r))) ->
  booked (andThen r (initFlipbook w)).
Proof.
  intros Hb Hdoc. unfold andThen. destruct (snd r); [| exact Hb].
  apply initFlipbook_booked; [apply Hb | now apply Hdoc].
Qed.

Ltac plain_book :=
  unfold handleKeydown, handlePageInputChange, handleSearch,
    goToNextSearchResult, goToPrevSearchResult, goToPageOpt,
    updateSearchIndicator, goToPage, goToPrevPage, goToNextPage,
    zoomIn, zoomOut, toggleZoom, resetZoom, engineShows;
  repeat case_match; simplify_eq/=;
  first [ reflexivity
        | match goal with
          | H : pageFlip _ = _ |- _ => rewrite H; reflexivity
          end ].

Lemma step_booked (e : Event) (s : State) : booked s -> booked (step e s).
Proof.
  intros Hs. destruct engineTasks_book as [Hflip Hstate].
  destruct e; cbn [step];
    try (revert Hs; apply same_booked; plain_book; fail).
  - now apply load_booked.
  - assert (Hnew : pdfDoc (openNewPdf s) = None /\ pageFlip (openNewPdf s) = None).
    { unfold openNewPdf. cbv zeta.
      destruct (pageFlip _) eqn:E; split; try reflexivity. exact E. }
    destruct Hnew as [Hd He]. split; [| split]; rewrite ?Hd, ?He.
    + discriminate.
    + intros [doc Hdoc]. discriminate.
    + intros [engine Hengine]. discriminate.
  - apply andThen_booked.
    + revert Hs. apply same_booked. unfold toggleViewMode, showToast.
      repeat case_match; reflexivity.
    + unfold toggleViewMode. repeat case_match; simplify_eq/=;
        try discriminate; intros _; eauto.
  - apply andThen_booked.
    + revert Hs. apply same_booked. unfold handleResize, checkMobileMode.
      repeat case_match; simplify_eq/=; reflexivity.
    + unfold handleResize, checkMobileMode.
      repeat case_match; simplify_eq/=; try discriminate; intros _; eauto.
  - apply (same_book_booked (engineShows data s)); [apply (Hflip data) |].
    revert Hs. apply same_booked. plain_book.
  - revert Hs. apply same_book_booked. apply (Hstate data).
Qed.

Lemma started_booked hash response w : booked (started hash response w).
Proof.
  unfold started, exec, init.
  unfold bind at 1, modify at 1. unfold bind at 1, modify at 1.
  apply load_booked. split; [| split].
  - unfold checkMobileMode, checkUrlForPdf. cbn. repeat case_match; discriminate.
  - unfold checkMobileMode, checkUrlForPdf. cbn.
    repeat case_match; intros [doc Hdoc]; discriminate.
  - unfold checkMobileMode, checkUrlForPdf. cbn.
    repeat case_match; intros [engine He]; discriminate.
Qed.

Lemma input_booked i st : booked (snd st) -> booked (snd (input i st)).
Proof.
  destruct st as [p s]. cbn [snd]. intros Hs.
  destruct i; cbn [input fst snd].
  - revert Hs. apply same_booked. unfold wheel. cbv zeta. now case_match.
  - unfold mouseDown. now case_match.
  - unfold mouseUp. now case_match.
  - unfold mouseMove. case_match; exact Hs.
  - exact Hs.
  - unfold handleTouchStart. now repeat case_match.
  - unfold handleTouchMove. repeat case_match; exact Hs.
  - unfold handleFileUpload. repeat case_match; try exact Hs.
    now apply load_booked.
  - now apply step_booked.
Qed.

(** X20: a document, its engine and its page elements go together.  In
    every state of a session, gestures included, the page count is that
    of the document when there is one, there is a page-turn engine
    exactly when there is a document, and with them the flipbook holds
    exactly one page element for each page from 1 to the page count, in
    order; so [renderVisiblePages] finds an element for every page it
    asks for. *)
Theorem engine_has_its_book (st : Pointer * State) :
  live st ->
  booked (snd st) /\
  (is_Some (pageFlip (snd st)) ->
   forall n, 1 <= n <= totalPages (snd st) -> hasPage n (snd st)).
Proof.
  intros Hlive.
  assert (Hb : booked (snd st)).
  { induction Hlive as [hash response w | i st _ IH].
    - apply started_booked.
    - now apply input_booked. }
  split; [exact Hb |].
  intros He n Hn. apply bookLaidOut_hasPage; [| exact Hn].
  now apply Hb.
Qed.

Lemma engine_has_its_book_witness :
  booked (snd (input (Page (ViewModeClicked Fixtures.narrow))
                 (input (Wheel 3) (idle, Fixtures.loaded)))).
Proof.
  refine (proj1 (engine_has_its_book
                   (input (Page (ViewModeClicked Fixtures.narrow))
                      (input (Wheel 3) (idle, Fixtures.loaded))) _)).
  apply live_input, live_input, live_start.
Defined.

End LayoutProps.

(** ** How often a page is rasterized *)

Module EconomyProps.

Import Viewer Controls TaskProps FrameProps LoadProps WindowProps.
Local Open Scope task_scope.

Global Instance sparing_preorder : PreOrder sparing.
Proof.
  split.
  - intros s r0 H. exact H.
  - intros s1 s2 s3 H12 H23 r0 H. apply H23, H12, H.
Qed.

Global Instance settled_preorder : PreOrder settled.
Proof.
  split.
  - intros s p H. split; [exact H | reflexivity].
  - intros s1 s2 s3 H12 H23 p H.
    destruct (H12 p H) as [H2 E2]. destruct (H23 p H2) as [H3 E3].
    split; [exact H3 | congruence].
Qed.

(** A state with the same page elements and the same decoder log. *)
Lemma same_render_state (s s' : State) :
  flipbook s' = flipbook s -> decoderCalls s' = decoderCalls s ->
  sparing s s' /\ settled s s'.
Proof.
  intros Hf Hd.
  assert (Hr : forall p, renders p s' = renders p s)
    by (intros p; unfold renders; now rewrite Hd).
  assert (Hc : forall p, hasCanvas p s' <-> hasCanvas p s)
    by (intros p; unfold hasCanvas; now rewrite Hf).
  split.
  - intros r0 Hb p. destruct (Hb p) as [H1 H2]. rewrite Hr, Hc. now split.
  - intros p H. rewrite Hr, Hc. now split.
Qed.

(** [renderPage] asks for the bitmap of its page once at most. *)
Lemma renderPage_count n w h s p :
  (p <> n -> renders p (snd (renderPage n w h s)) = renders p s) /\
  (renders p (snd (renderPage n w h s)) <= renders p s + 1)%nat.
Proof.
  unfold renders. task_run.
  repeat (case_match; simplify_eq/=);
    cbn [List.filter isRenderOf length];
    (split; [intros Hne | lia]); try reflexivity.
  all: match goal with
       | H : (_ =? _) = true |- _ => apply Z.eqb_eq in H; congruence
       end.
Qed.

(** What follows [renderPage] in [renderPageContent] asks for no
    bitmap. *)
Lemma renderPageContent_count n s p :
  (p <> n -> renders p (exec (renderPageContent n) s) = renders p s) /\
  (renders p (exec (renderPageContent n) s) <= renders p s + 1)%nat.
Proof.
  remember (exec (renderPageContent n) s) as st eqn:E.
  unfold exec, renderPageContent in E. unfold bind at 1, get at 1 in E.
  destruct (findPage n (flipbook s)) as [el |];
    [| cbn in E; subst st; split; [intros _; reflexivity | lia]].
  destruct (content el);
    [cbn in E; subst st; split; [intros _; reflexivity | lia] |].
  unfold bind at 1 in E.
  pose proof (renderPage_count n (basePageWidth s) (basePageHeight s) s p)
    as Hrender.
  destruct (renderPage n (basePageWidth s) (basePageHeight s) s)
    as [[canvas | e] s1]; cbn [snd] in Hrender, E; [| now subst st].
  match type of E with
  | st = snd (?t s1) =>
      assert (Hk : keeps (sameOn (renders p)) t) by (frame same_field)
  end.
  specialize (Hk s1). unfold sameOn in Hk. rewrite E, Hk. exact Hrender.
Qed.

Lemma fresh_page_no_canvas n s el :
  findPage n (flipbook s) = Some el -> content el = None -> ~ hasCanvas n s.
Proof. intros Hel Hc (el' & canvas & Hel' & Hc'). congruence. Qed.

Lemma renderPageContent_sparing n :
  keeps sparing (renderPageContent n) /\ keeps settled (renderPageContent n).
Proof.
  split; intros s.
  - destruct (findPage n (flipbook s)) as [el |] eqn:Hel.
    2: { rewrite renderPageContent_missing; [reflexivity |].
         intros [el Hel']. congruence. }
    destruct (content el) as [canvas |] eqn:Hc.
    { rewrite renderPageContent_rendered by now exists el, canvas.
      reflexivity. }
    intros r0 Hb p. fold (exec (renderPageContent n) s).
    destruct (renderPageContent_count n s p) as [Hne Hle].
    destruct (Hb p) as [H1 H2].
    destruct (decide (p = n)) as [-> | Hp].
    + pose proof (H2 (fresh_page_no_canvas n s el Hel Hc)) as H0.
      split; [lia |]. intros Hno. destruct Hno.
      apply renderPageContent_hasCanvas. now exists el.
    + rewrite (Hne Hp). split; [exact H1 |].
      intros Hno. apply H2. intros Hyes. apply Hno.
      now apply (renderPageContent_pagesKept n s p).
  - intros p Hp. fold (exec (renderPageContent n) s).
    destruct (decide (p = n)) as [-> | Hne].
    + unfold exec. rewrite (renderPageContent_rendered n s Hp). now split.
    + split; [now apply (renderPageContent_pagesKept n s p) |].
      now apply renderPageContent_count.
Qed.

Lemma batches_sparing :
  (forall l, keeps sparing (forEach l renderPageContent) /\
             keeps settled (forEach l renderPageContent)) /\
  (forall l, keeps sparing (promiseAll (renderPageContent <$> l)) /\
             keeps settled (promiseAll (renderPageContent <$> l))).
Proof.
  split; intros l; split.
  - apply keeps_forEach; [apply _ |]. intros n. apply renderPageContent_sparing.
  - apply keeps_forEach; [apply _ |]. intros n. apply renderPageContent_sparing.
  - apply keeps_promiseAll; [apply _ |]. apply Forall_fmap, Forall_true.
    intros n. apply renderPageContent_sparing.
  - apply keeps_promiseAll; [apply _ |]. apply Forall_fmap, Forall_true.
    intros n. apply renderPageContent_sparing.
Qed.

Lemma renderVisiblePages_sparing :
  keeps sparing renderVisiblePages /\ keeps settled renderVisiblePages.
Proof.
  destruct batches_sparing as [Hloop _].
  unfold renderVisiblePages. split.
  - apply keeps_bind; [apply _ | apply keeps_get; apply _ | intros s].
    destruct (pageFlip s); [apply Hloop | apply keeps_throw; apply _].
  - apply keeps_bind; [apply _ | apply keeps_get; apply _ | intros s].
    destruct (pageFlip s); [apply Hloop | apply keeps_throw; apply _].
Qed.

Lemma preRenderAllPages_sparing :
  keeps sparing preRenderAllPages /\ keeps settled preRenderAllPages.
Proof.
  destruct batches_sparing as [_ Hbatch].
  unfold preRenderAllPages. split.
  - apply keeps_bind; [apply _ | apply keeps_get; apply _ | intros s]. apply Hbatch.
  - apply keeps_bind; [apply _ | apply keeps_get; apply _ | intros s]. apply Hbatch.
Qed.

Lemma showPageUnderneath_log i :
  keeps (sameOn (fun s => (flipbook s, decoderCalls s))) (showPageUnderneath i).
Proof. frame same_field. Qed.

Lemma engineTasks_sparing :
  (forall data, keeps sparing (onFlip data) /\ keeps settled (onFlip data)) /\
  (forall data, keeps sparing (onChangeState data) /\
                keeps settled (onChangeState data)).
Proof.
  destruct batches_sparing as [_ Hbatch].
  destruct renderVisiblePages_sparing as [Hv1 Hv2].
  assert (Hsame : forall f : State -> State,
            (forall s, flipbook (f s) = flipbook s /\
                       decoderCalls (f s) = decoderCalls s) ->
            keeps sparing (modify f) /\ keeps settled (modify f)).
  { intros f Hf. split; apply keeps_modify; intros s;
      destruct (Hf s) as [H1 H2]; now apply same_render_state. }
  assert (Hunder : forall i, keeps sparing (showPageUnderneath i) /\
                             keeps settled (showPageUnderneath i)).
  { intros i. split; intros s;
      pose proof (showPageUnderneath_log i s) as H; unfold sameOn in H;
      injection H as H1 H2; now apply same_render_state. }
  assert (Hhide : forall s, flipbook (hidePageUnderneath s) = flipbook s /\
                            decoderCalls (hidePageUnderneath s) = decoderCalls s).
  { intros s. unfold hidePageUnderneath. now case_match. }
  split; intros data.
  - unfold onFlip. split.
    + apply keeps_bind; [apply _ | now apply Hsame | intros _].
      apply keeps_bind; [apply _ | now apply Hsame | intros _; exact Hv1].
    + apply keeps_bind; [apply _ | now apply Hsame | intros _].
      apply keeps_bind; [apply _ | now apply Hsame | intros _; exact Hv2].
  - unfold onChangeState. split.
    + apply keeps_bind; [apply _ | | intros _].
      * destruct (isFlipStart data); [| apply keeps_ret; apply _].
        apply keeps_bind; [apply _ | apply keeps_get; apply _ | intros s].
        destruct (pageFlip s) as [engine |]; [| apply keeps_throw; apply _].
        apply keeps_bind; [apply _ | | intros _; apply Hbatch].
        destruct (isDoublePageMode s); [apply Hunder | apply keeps_ret; apply _].
      * destruct (String.eqb data "read"); [| apply keeps_ret; apply _].
        now apply Hsame.
    + apply keeps_bind; [apply _ | | intros _].
      * destruct (isFlipStart data); [| apply keeps_ret; apply _].
        apply keeps_bind; [apply _ | apply keeps_get; apply _ | intros s].
        destruct (pageFlip s) as [engine |]; [| apply keeps_throw; apply _].
        apply keeps_bind; [apply _ | | intros _; apply Hbatch].
        destruct (isDoublePageMode s); [apply Hunder | apply keeps_ret; apply _].
      * destruct (String.eqb data "read"); [| apply keeps_ret; apply _].
        now apply Hsame.
Qed.

(** From a sparing and settled step to the counts. *)
Lemma sparing_count (s s' : State) (p : Z) :
  sparing s s' -> (renders p s' <= renders p s + 1)%nat.
Proof.
  intros H. apply (H (fun q => renders q s)). intros q. split; lia.
Qed.

(** [initFlipbook] starts from elements without canvas. *)
Lemma initFlipbook_budget (w : Surroundings) (s : State) :
  budget (fun p => renders p s) (exec (initFlipbook w) s).
Proof.
  assert (Hfinal : exists s1,
            exec (initFlipbook w) s = snd (renderVisiblePages s1) /\
            (forall p, renders p s1 = renders p s) /\
            (forall p, ~ hasCanvas p s1)).
  { unfold exec, initFlipbook.
    unfold bind at 1, get at 1.
    set (ratioTask := match pdfDoc s with Some _ => _ | None => _ end).
    assert (Hratio : total ratioTask /\
                     forall p, keeps (sameOn (renders p)) ratioTask).
    { unfold ratioTask. destruct (pdfDoc s) as [doc |].
      - split; [apply total_tryCatch; intros _; apply total_ret |].
        intros q. frame same_field.
      - split; [apply total_ret | intros q; frame same_field]. }
    destruct Hratio as [Htot Hsame].
    unfold bind at 1. destruct (Htot s) as [ratio Hr].
    assert (Hs0 : forall p, renders p (snd (ratioTask s)) = renders p s)
      by (intros p; apply (Hsame p s)).
    destruct (ratioTask s) as [c s0]. cbn in Hr, Hs0. subst c.
    unfold bind at 1, get at 1.
    destruct (Planner.pageDimensions _ _ _ _) as [pageWidth pageHeight].
    repeat (unfold bind at 1, modify at 1).
    eexists. split; [reflexivity |]. split.
    - intros q. rewrite <- Hs0. reflexivity.
    - intros q (el & canvas & Hel & Hc). unfold findPage in Hel.
      apply find_some in Hel as [Hin _]. cbn in Hin.
      apply in_map_iff in Hin as (i & <- & _). discriminate. }
  destruct Hfinal as (s1 & -> & Hr & Hno).
  apply (proj1 renderVisiblePages_sparing s1).
  intros p. rewrite Hr. split; [lia | intros _; lia].
Qed.

(** No event of a session asks for the bitmap of a page twice. *)
Lemma step_count (e : Event) (s : State) (p : Z) :
  (renders p (step e s) <= renders p s + 1)%nat.
Proof.
  assert (Hsame : forall s', decoderCalls s' = decoderCalls s ->
            (renders p s' <= renders p s + 1)%nat).
  { intros s' H. unfold renders. rewrite H. lia. }
  assert (Hinit : forall (r : State * bool) w,
            decoderCalls (fst r) = decoderCalls s ->
            (renders p (andThen r (initFlipbook w)) <= renders p s + 1)%nat).
  { intros r w H. unfold andThen. destruct (snd r); [| now apply Hsame].
    pose proof (initFlipbook_budget w (fst r) p) as [Hle _].
    unfold renders in Hle |- *. now rewrite H in Hle. }
  destruct e; cbn [step]; try (apply Hsame; SessionProps.plain).
  - destruct file as [doc |]; [| now apply Hsame].
    destruct (loadPdf_stages doc w s) as (s1 & s2 & s3 & H1 & H2 & H3 & Hload & _).
    unfold exec. rewrite Hload. cbn [snd].
    assert (Hk1 : keeps (sameOn (renders p)) extractAllPageTexts)
      by (frame same_field).
    specialize (Hk1 (set_totalPages (numPages doc) (set_pdfDoc (Some doc) s))).
    rewrite H1 in Hk1. unfold sameOn in Hk1. cbn [snd] in Hk1.
    pose proof (initFlipbook_budget w s1) as Hb. unfold exec in Hb.
    rewrite H2 in Hb. cbn [snd] in Hb.
    pose proof (proj1 preRenderAllPages_sparing s2 _ Hb p) as [Hle _].
    rewrite H3 in Hle. cbn [snd] in Hle.
    change (renders p (set_totalPages (numPages doc) (set_pdfDoc (Some doc) s)))
      with (renders p s) in Hk1.
    lia.
  - apply Hinit. unfold toggleViewMode, showToast. repeat case_match; reflexivity.
  - apply Hinit. unfold handleResize, checkMobileMode.
    repeat case_match; simplify_eq/=; reflexivity.
  - pose proof (sparing_count (engineShows data s) _ p
                  (proj1 (proj1 engineTasks_sparing data) (engineShows data s)))
      as H.
    assert (Hs : renders p (engineShows data s) = renders p s).
    { unfold renders, engineShows. now case_match. }
    unfold exec. lia.
  - apply sparing_count, (proj1 (proj2 engineTasks_sparing data)).
Qed.

(** X21: no page is rasterized twice.  With every task run to its end,
    no event of a session (a load, a toggle of the layout, a resize, a
    flip, a change of the engine's state, any control) asks the decoder
    for the bitmap of a page more than once, and neither does
    [initFlipbook] alone; [renderVisiblePages], [preRenderAllPages], the
    ['flip'] listener and the ['changeState'] listener ask not at all
    for a page whose element holds a canvas already. *)
Theorem pages_are_rasterized_once :
  (forall e s p, (renders p (step e s) <= renders p s + 1)%nat) /\
  (forall w s p,
     (renders p (exec (initFlipbook w) s) <= renders p s + 1)%nat) /\
  (forall t : Task unit,
     t = renderVisiblePages \/ t = preRenderAllPages \/
     (exists data, t = onFlip data) \/ (exists data, t = onChangeState data) ->
     forall s p,
       (renders p (exec t s) <= renders p s + 1)%nat /\
       (hasCanvas p s -> renders p (exec t s) = renders p s)).
Proof.
  split; [exact step_count | split].
  - intros w s p. apply (initFlipbook_budget w s p).
  - intros t Ht s p.
    assert (Hkeeps : keeps sparing t /\ keeps settled t).
    { destruct Ht as [-> | [-> | [[data ->] | [data ->]]]].
      - exact renderVisiblePages_sparing.
      - exact preRenderAllPages_sparing.
      - apply engineTasks_sparing.
      - apply engineTasks_sparing. }
    destruct Hkeeps as [Hsp Hse]. split.
    + apply sparing_count, Hsp.
    + intros Hc. now apply (Hse s p).
Qed.

Lemma pages_are_rasterized_once_witness :
  renders 3 (exec preRenderAllPages Fixtures.loaded) = renders 3 Fixtures.loaded.
Proof.
  refine (proj2 (proj2 (proj2 pages_are_rasterized_once) preRenderAllPages _
                   Fixtures.loaded 3) _).
  - right. left. reflexivity.
  - vm_compute. eexists _, _. split; reflexivity.
Defined.

End EconomyProps.

(** ** The text layers *)

Module TextLayerProps.

Import Viewer Controls TaskProps FrameProps LoadProps WindowProps.
Local Open Scope task_scope.

Global Instance captioning_preorder (doc : PdfDoc) : PreOrder (captioning doc).
Proof.
  split.
  - intros s H. exact H.
  - intros s1 s2 s3 H12 H23 H. apply H23, H12, H.
Qed.

Lemma renderPage_shown n p w h :
  keeps (sameOn (fun s => (shown n s, pdfDoc s))) (renderPage p w h).
Proof. unfold renderPage. frame same_field. Qed.
#[local] Hint Resolve renderPage_shown : frames.

Lemma shown_updatePage_eq n f s :
  gentle f ->
  shown n (set_flipbook (updatePage n f (flipbook s)) s)
  = (fun el => (content (f el), textLayer (f el))) <$> findPage n (flipbook s).
Proof.
  intros Hf. unfold shown. cbn [flipbook set_flipbook].
  rewrite findPage_updatePage_eq by assumption.
  now destruct (findPage n (flipbook s)).
Qed.

(** [addTextLayer] with a document: the items of the page become the
    text layer of its element, and nothing changes when they cannot be
    had. *)
Lemma addTextLayer_run n w h s doc :
  pdfDoc s = Some doc ->
  exists s',
    addTextLayer n w h s = (Normal tt, s') /\ pdfDoc s' = Some doc /\
    (forall m, m <> n -> findPage m (flipbook s') = findPage m (flipbook s)) /\
    shown n s' =
      match itemsOf doc n with
      | Some items => (fun el => (content el, Some items)) <$> findPage n (flipbook s)
      | None => shown n s
      end.
Proof.
  intros Hdoc. unfold addTextLayer, itemsOf.
  unfold tryCatch, docGetPage, pageGetTextContent, logCall, onPage,
    bind, get, modify, ret, throw.
  cbn. rewrite Hdoc. cbn.
  destruct (getPage doc n) as [page |]; cbn.
  - destruct (textItems page) as [items |]; cbn.
    + eexists. split; [reflexivity |]. split; [exact Hdoc |]. split.
      * intros m Hm. cbn. apply findPage_updatePage_ne; auto with frames.
      * unfold shown. cbn [flipbook set_flipbook set_decoderCalls].
        rewrite findPage_updatePage_eq by auto with frames.
        now destruct (findPage n (flipbook s)).
    + eexists. split; [reflexivity |]. split; [exact Hdoc |].
      split; [intros m Hm |]; reflexivity.
  - eexists. split; [reflexivity |]. split; [exact Hdoc |].
    split; [intros m Hm |]; reflexivity.
Qed.

Ltac shown_field :=
  unfold sameOn;
  first
    [ reflexivity
    | rewrite shown_updatePage_eq by auto with frames;
      unfold shown; cbn [pdfDoc set_flipbook];
      match goal with
      | |- context [findPage ?n ?l] => now destruct (findPage n l)
      end ].

(** Rendering a page that has an element without canvas. *)
Lemma renderPageContent_captions n s doc el :
  pdfDoc s = Some doc ->
  findPage n (flipbook s) = Some el -> content el = None ->
  exists canvas,
    shown n (exec (renderPageContent n) s) = Some (Some canvas, itemsOf doc n) /\
    pdfDoc (exec (renderPageContent n) s) = Some doc.
Proof.
  intros Hdoc Hel Hc.
  remember (exec (renderPageContent n) s) as st eqn:E.
  unfold exec, renderPageContent in E. unfold bind at 1, get at 1 in E.
  rewrite Hel, Hc in E. unfold bind at 1 in E.
  destruct (renderPage_total n (basePageWidth s) (basePageHeight s) s)
    as [canvas Hr].
  pose proof (renderPage_flipbook n (basePageWidth s) (basePageHeight s) s)
    as Hbook.
  pose proof (renderPage_kept n (basePageWidth s) (basePageHeight s) s)
    as Hkept.
  destruct (renderPage n (basePageWidth s) (basePageHeight s) s) as [c s1].
  cbn in Hr, Hbook, Hkept. subst c. unfold sameOn in Hbook, Hkept.
  injection Hkept as Hdoc1 _ _ _ _ _. rewrite Hdoc in Hdoc1.
  unfold bind at 1, onPage at 1, modify at 1 in E.
  set (s2 := set_flipbook (updatePage n (putCanvas canvas) (flipbook s1)) s1) in E.
  assert (H2 : findPage n (flipbook s2) = Some (putCanvas canvas el)).
  { unfold s2. cbn [flipbook set_flipbook].
    rewrite findPage_updatePage_eq, Hbook, Hel by auto with frames.
    reflexivity. }
  unfold bind at 1 in E.
  destruct (addTextLayer_run n (basePageWidth s) (basePageHeight s) s2 doc Hdoc1)
    as (s3 & Hrun & Hdoc3 & _ & Hshown3).
  rewrite Hrun in E.
  assert (H3 : shown n s3 = Some (Some canvas, itemsOf doc n)).
  { rewrite Hshown3. unfold shown. rewrite H2. cbn.
    now destruct (itemsOf doc n). }
  match type of E with
  | st = snd (?t s3) =>
      assert (Hk : keeps (sameOn (fun s => (shown n s, pdfDoc s))) t)
        by (frame shown_field)
  end.
  specialize (Hk s3). unfold sameOn in Hk. rewrite <- E in Hk.
  injection Hk as Hs Hd. exists canvas. split; congruence.
Qed.

Lemma shown_other (m : Z) (s s' : State) :
  findPage m (flipbook s') = findPage m (flipbook s) -> shown m s' = shown m s.
Proof. intros H. unfold shown. now rewrite H. Qed.

Lemma renderPageContent_captioning doc n :
  keeps (captioning doc) (renderPageContent n).
Proof.
  intros s [Hdoc Hcap].
  destruct (findPage n (flipbook s)) as [el |] eqn:Hel.
  2: { rewrite renderPageContent_missing; [now split |].
       intros [el Hel']. congruence. }
  destruct (content el) as [canvas |] eqn:Hc.
  { rewrite renderPageContent_rendered by now exists el, canvas.
    now split. }
  destruct (renderPageContent_captions n s doc el Hdoc Hel Hc)
    as (canvas & Hshown & Hdoc').
  unfold exec in Hshown, Hdoc'. split; [exact Hdoc' |].
  intros m canvas' layer Hm. destruct (decide (m = n)) as [-> | Hne].
  - rewrite Hshown in Hm. congruence.
  - apply (Hcap m canvas' layer). rewrite <- Hm. symmetry.
    apply shown_other, (renderPageContent_othersKept n s m Hne).
Qed.

Lemma renderVisiblePages_captioning doc :
  keeps (captioning doc) renderVisiblePages.
Proof.
  unfold renderVisiblePages.
  apply keeps_bind; [apply _ | apply keeps_get; apply _ | intros s].
  destruct (pageFlip s); [| apply keeps_throw; apply _].
  apply keeps_forEach; [apply _ |]. intros n. apply renderPageContent_captioning.
Qed.

Lemma preRenderAllPages_captioning doc :
  keeps (captioning doc) preRenderAllPages.
Proof.
  unfold preRenderAllPages.
  apply keeps_bind; [apply _ | apply keeps_get; apply _ | intros s].
  apply keeps_promiseAll; [apply _ |]. apply Forall_fmap, Forall_true.
  intros n. apply renderPageContent_captioning.
Qed.

(** [initFlipbook] starts from elements without canvas, so with
    captions. *)
Lemma initFlipbook_captioned (w : Surroundings) (s : State) (doc : PdfDoc) :
  pdfDoc s = Some doc ->
  pdfDoc (exec (initFlipbook w) s) = Some doc /\
  captioned doc (exec (initFlipbook w) s).
Proof.
  intros Hdoc.
  assert (Hfinal : exists s1,
            exec (initFlipbook w) s = snd (renderVisiblePages s1) /\
            pdfDoc s1 = Some doc /\
            (forall n canvas layer, shown n s1 <> Some (Some canvas, layer))).
  { unfold exec, initFlipbook.
    unfold bind at 1, get at 1.
    set (ratioTask := match pdfDoc s with Some _ => _ | None => _ end).
    assert (Hratio : total ratioTask /\ keeps (sameOn pdfDoc) ratioTask).
    { unfold ratioTask. destruct (pdfDoc s) as [d |].
      - split; [apply total_tryCatch; intros _; apply total_ret |].
        frame same_field.
      - split; [apply total_ret | frame same_field]. }
    destruct Hratio as [Htot Hsame].
    unfold bind at 1. destruct (Htot s) as [ratio Hr]. specialize (Hsame s).
    destruct (ratioTask s) as [c s0]. cbn in Hr, Hsame. subst c.
    unfold sameOn in Hsame.
    unfold bind at 1, get at 1.
    destruct (Planner.pageDimensions _ _ _ _) as [pageWidth pageHeight].
    repeat (unfold bind at 1, modify at 1).
    eexists. split; [reflexivity |]. split; [cbn; congruence |].
    intros n canvas layer Hn. unfold shown, findPage in Hn.
    cbn [flipbook set_flipbook set_pageFlip] in Hn.
    destruct (List.find _ _) as [el |] eqn:Hfind; [| discriminate].
    apply find_some in Hfind as [Hin _].
    apply in_map_iff in Hin as (i & <- & _). discriminate. }
  destruct Hfinal as (s1 & -> & Hdoc1 & Hno).
  apply (renderVisiblePages_captioning doc s1). split; [exact Hdoc1 |].
  intros n canvas layer Hn. now destruct (Hno n canvas layer).
Qed.

(** What the text layers hold. *)
Lemma text_layer_facts :
  (forall doc w s i,
     1 <= i <= numPages doc ->
     exists canvas,
       shown i (exec (loadPdf (Some doc) w) s)
       = Some (Some canvas, itemsOf doc i)) /\
  (forall doc w s,
     pdfDoc s = Some doc -> captioned doc (exec (initFlipbook w) s)) /\
  (forall doc s,
     pdfDoc s = Some doc -> captioned doc s ->
     captioned doc (exec renderVisiblePages s) /\
     captioned doc (exec preRenderAllPages s)).
Proof.
  split; [| split].
  - intros doc w s i Hi.
    destruct (loadPdf_stages doc w s) as (s1 & s2 & s3 & H1 & H2 & H3 & Hload & _).
    destruct (loadPdf_result doc w s) as (_ & _ & _ & _ & _ & _ & Hpages & _).
    destruct (Hpages i Hi) as [_ (el & canvas & Hel & Hc)].
    unfold exec in *. rewrite Hload in *. cbn [snd] in *.
    destruct (extractAllPageTexts_runs
                (set_totalPages (numPages doc) (set_pdfDoc (Some doc) s)) doc
                eq_refl) as (s1' & H1' & Hd1 & _).
    rewrite H1 in H1'. injection H1' as <-.
    destruct (initFlipbook_captioned w s1 doc Hd1) as [Hd2 Hcap2].
    unfold exec in Hd2, Hcap2. rewrite H2 in Hd2, Hcap2. cbn [snd] in Hd2, Hcap2.
    destruct (preRenderAllPages_captioning doc s2 (conj Hd2 Hcap2)) as [_ Hcap3].
    rewrite H3 in Hcap3. cbn [snd] in Hcap3.
    exists canvas.
    assert (Hshown : shown i s3 = Some (Some canvas, textLayer el)).
    { unfold shown. rewrite Hel. cbn. now rewrite Hc. }
    rewrite Hshown. now rewrite (Hcap3 i canvas (textLayer el) Hshown).
  - intros doc w s Hdoc. now apply initFlipbook_captioned.
  - intros doc s Hdoc Hcap. split.
    + now apply (renderVisiblePages_captioning doc s).
    + now apply (preRenderAllPages_captioning doc s).
Qed.

(** X22: the text layer of a page holds the text items of that page.
    After a load that the decoder accepts, the element of every page of
    the document holds a canvas and, as its text layer, the text items
    of exactly that page, or no text layer when the items cannot be had.
    The same holds of every page element with a canvas after
    [initFlipbook] with a document, and [renderVisiblePages] and
    [preRenderAllPages] keep it so. *)
Theorem text_layers_hold_page_items :
  (forall doc w s i,
     1 <= i <= numPages doc ->
     exists canvas,
       shown i (exec (loadPdf (Some doc) w) s)
       = Some (Some canvas, itemsOf doc i)) /\
  (forall doc w s,
     pdfDoc s = Some doc -> captioned doc (exec (initFlipbook w) s)) /\
  (forall doc s,
     pdfDoc s = Some doc -> captioned doc s ->
     captioned doc (exec renderVisiblePages s) /\
     captioned doc (exec preRenderAllPages s)).
Proof. exact text_layer_facts. Qed.

Lemma text_layers_hold_page_items_witness :
  exists canvas,
    shown 3 (exec (loadPdf (Some Fixtures.book) Fixtures.desktop)
               (initialState ""))
    = Some (Some canvas, itemsOf Fixtures.book 3).
Proof.
  apply (proj1 text_layers_hold_page_items Fixtures.book Fixtures.desktop
           (initialState "") 3).
  vm_compute. split; discriminate.
Defined.

End TextLayerProps.

(** ** The backsides of the single layout *)

Module BacksideProps.

Import Viewer Controls TaskProps FrameProps LoadProps WindowProps.
Local Open Scope task_scope.

Global Instance mirroring_preorder : PreOrder mirroring.
Proof.
  split.
  - intros s. split; [reflexivity | trivial].
  - intros s1 s2 s3 [Hm12 H12] [Hm23 H23]. split; [congruence | auto].
Qed.

Lemma renderPage_sides n p w h :
  keeps (sameOn (fun s => (sides n s, isDoublePageMode s))) (renderPage p w h).
Proof. unfold renderPage. frame same_field. Qed.
#[local] Hint Resolve renderPage_sides : frames.

Lemma sides_updatePage_eq n f s :
  gentle f ->
  sides n (set_flipbook (updatePage n f (flipbook s)) s)
  = (fun el => (content (f el), backside (f el))) <$> findPage n (flipbook s).
Proof.
  intros Hf. unfold sides. cbn [flipbook set_flipbook].
  rewrite findPage_updatePage_eq by assumption.
  now destruct (findPage n (flipbook s)).
Qed.

Ltac sides_field :=
  unfold sameOn;
  first
    [ reflexivity
    | rewrite sides_updatePage_eq by auto with frames;
      unfold sides; cbn [isDoublePageMode set_flipbook];
      match goal with
      | |- context [findPage ?n ?l] => now destruct (findPage n l)
      end ].

Lemma addTextLayer_sides n w h :
  keeps (sameOn (fun s => (sides n s, isDoublePageMode s))) (addTextLayer n w h).
Proof. frame sides_field. Qed.

Lemma addTextLayer_total n w h : total (addTextLayer n w h).
Proof. unfold addTextLayer. apply total_tryCatch. intros _. apply total_ret. Qed.

(** Rendering a page that has an element without canvas. *)
Lemma renderPageContent_sides n s el :
  findPage n (flipbook s) = Some el -> content el = None ->
  exists canvas back,
    sides n (exec (renderPageContent n) s) = Some (Some canvas, back) /\
    match backside el with
    | Some old =>
        if isDoublePageMode s then back = Some old
        else exists clone, back = Some (Some clone) /\ mirrors clone canvas
    | None => back = None
    end.
Proof.
  intros Hel Hc.
  remember (exec (renderPageContent n) s) as st eqn:E.
  unfold exec, renderPageContent in E. unfold bind at 1, get at 1 in E.
  rewrite Hel, Hc in E. unfold bind at 1 in E.
  destruct (renderPage_total n (basePageWidth s) (basePageHeight s) s)
    as [canvas Hr].
  pose proof (renderPage_flipbook n (basePageWidth s) (basePageHeight s) s)
    as Hbook.
  pose proof (renderPage_mode n (basePageWidth s) (basePageHeight s) s)
    as Hmode.
  destruct (renderPage n (basePageWidth s) (basePageHeight s) s) as [c s1].
  cbn [fst snd] in Hr, Hbook, Hmode. subst c.
  unfold sameOn, mode in Hbook, Hmode. injection Hmode as _ Hd1.
  exists canvas.
  unfold bind at 1, onPage at 1, modify at 1 in E.
  set (s2 := set_flipbook (updatePage n (putCanvas canvas) (flipbook s1)) s1) in E.
  assert (H2 : sides n s2 = Some (Some canvas, backside el)).
  { unfold s2. rewrite sides_updatePage_eq by auto with frames.
    rewrite Hbook, Hel. reflexivity. }
  assert (Hd2 : isDoublePageMode s2 = isDoublePageMode s) by exact Hd1.
  unfold bind at 1 in E.
  destruct (run_total (addTextLayer n (basePageWidth s) (basePageHeight s)) s2
              (addTextLayer_total _ _ _)) as [[] Hrun].
  pose proof (addTextLayer_sides n (basePageWidth s) (basePageHeight s) s2) as Hk.
  unfold sameOn in Hk. rewrite Hrun in E, Hk. cbn [snd] in Hk.
  injection Hk as Hs3 Hd3. rewrite H2 in Hs3. rewrite Hd1 in Hd3.
  set (s3 := exec (addTextLayer n (basePageWidth s) (basePageHeight s)) s2) in *.
  clearbody s3. unfold bind at 1, get at 1 in E. rewrite Hd3 in E.
  destruct (backside el) as [old |].
  - destruct (isDoublePageMode s); cbn [negb] in E.
    + cbn in E. subst st. now exists (Some old).
    + unfold cloneCanvas, onPage, bind, get, modify, ret in E. cbn in E.
      subst st.
      set (s4 := set_nextCanvasId (nextCanvasId s3 + 1)%N s3).
      change (flipbook s3) with (flipbook s4).
      rewrite sides_updatePage_eq by auto with frames.
      change (flipbook s4) with (flipbook s3).
      unfold sides in Hs3.
      destruct (findPage n (flipbook s3)) as [el3 |]; [| discriminate].
      cbn in Hs3 |- *. injection Hs3 as Hc3 Hb3. rewrite Hc3.
      eexists. split; [reflexivity |]. eexists. split; [reflexivity |].
      repeat split.
  - cbn in E. subst st. now exists None.
Qed.

Lemma sides_other (m : Z) (s s' : State) :
  findPage m (flipbook s') = findPage m (flipbook s) -> sides m s' = sides m s.
Proof. intros H. unfold sides. now rewrite H. Qed.

Lemma renderPageContent_mode n : keeps (sameOn isDoublePageMode) (renderPageContent n).
Proof.
  intros s.
  assert (H : keeps (sameOn mode) (renderPageContent n)) by (frame same_field).
  specialize (H s). unfold sameOn, mode in *. now injection H.
Qed.

Lemma renderPageContent_mirroring n : keeps mirroring (renderPageContent n).
Proof.
  intros s. split; [apply (renderPageContent_mode n s) |].
  intros Hm.
  destruct (findPage n (flipbook s)) as [el |] eqn:Hel.
  2: { rewrite renderPageContent_missing; [exact Hm |].
       intros [el Hel']. congruence. }
  destruct (content el) as [canvas |] eqn:Hc.
  { now rewrite renderPageContent_rendered by now exists el, canvas. }
  destruct (renderPageContent_sides n s el Hel Hc)
    as (canvas & back & Hsides & Hback).
  pose proof (renderPageContent_mode n s) as Hd. unfold sameOn in Hd.
  unfold exec in Hsides.
  assert (Hold : sides n s = Some (None, backside el)).
  { unfold sides. rewrite Hel. cbn. now rewrite Hc. }
  specialize (Hm n None (backside el) Hold) as Hfresh.
  intros m front back' Hm'. rewrite Hd.
  destruct (decide (m = n)) as [-> | Hne].
  - rewrite Hsides in Hm'. injection Hm' as <- <-.
    destruct (isDoublePageMode s).
    + rewrite Hfresh in Hback. exact Hback.
    + rewrite Hfresh in Hback. exact Hback.
  - apply (Hm m front back'). rewrite <- Hm'. symmetry.
    apply sides_other, (renderPageContent_othersKept n s m Hne).
Qed.

Lemma renderVisiblePages_mirroring : keeps mirroring renderVisiblePages.
Proof.
  unfold renderVisiblePages.
  apply keeps_bind; [apply _ | apply keeps_get; apply _ | intros s].
  destruct (pageFlip s); [| apply keeps_throw; apply _].
  apply keeps_forEach; [apply _ |]. intros n. apply renderPageContent_mirroring.
Qed.

Lemma preRenderAllPages_mirroring : keeps mirroring preRenderAllPages.
Proof.
  unfold preRenderAllPages.
  apply keeps_bind; [apply _ | apply keeps_get; apply _ | intros s].
  apply keeps_promiseAll; [apply _ |]. apply Forall_fmap, Forall_true.
  intros n. apply renderPageContent_mirroring.
Qed.

(** [initFlipbook] makes the backsides that the layout asks for. *)
Lemma initFlipbook_mirrored (w : Surroundings) (s : State) :
  isDoublePageMode (exec (initFlipbook w) s) = isDoublePageMode s /\
  mirrored (exec (initFlipbook w) s).
Proof.
  assert (Hfinal : exists s1,
            exec (initFlipbook w) s = snd (renderVisiblePages s1) /\
            isDoublePageMode s1 = isDoublePageMode s /\
            mirrored s1).
  { unfold exec, initFlipbook.
    unfold bind at 1, get at 1.
    set (ratioTask := match pdfDoc s with Some _ => _ | None => _ end).
    assert (Hratio : total ratioTask /\ keeps (sameOn isDoublePageMode) ratioTask).
    { unfold ratioTask. destruct (pdfDoc s) as [d |].
      - split; [apply total_tryCatch; intros _; apply total_ret |].
        frame same_field.
      - split; [apply total_ret | frame same_field]. }
    destruct Hratio as [Htot Hsame].
    unfold bind at 1. destruct (Htot s) as [ratio Hr]. specialize (Hsame s).
    destruct (ratioTask s) as [c s0]. cbn in Hr, Hsame. subst c.
    unfold sameOn in Hsame.
    unfold bind at 1, get at 1.
    destruct (Planner.pageDimensions _ _ _ _) as [pageWidth pageHeight].
    repeat (unfold bind at 1, modify at 1).
    eexists. split; [reflexivity |]. split; [exact Hsame |].
    intros n front back Hn. unfold sides, findPage in Hn.
    cbn [flipbook set_flipbook set_pageFlip isDoublePageMode
         set_basePageWidth set_basePageHeight] in Hn |- *.
    destruct (List.find _ _) as [el |] eqn:Hfind; [| discriminate].
    apply find_some in Hfind as [Hin _].
    apply in_map_iff in Hin as (i & <- & _).
    cbn in Hn. injection Hn as <- <-.
    now destruct (isDoublePageMode s0). }
  destruct Hfinal as (s1 & -> & Hd1 & Hm1).
  destruct (renderVisiblePages_mirroring s1) as [Hd Hm].
  split; [congruence | now apply Hm].
Qed.

(** X23: in the single layout the back of a page mirrors its front.
    After [initFlipbook], in the double layout no page element has a
    backside; in the single layout every page element has one, empty
    while the page holds no canvas and holding a clone of the canvas
    (same drawing, same size) once it does.  [renderVisiblePages] and
    [preRenderAllPages] keep it so, and after a load that the decoder
    accepts every page of the document has its canvas and, in the single
    layout, the clone on its back. *)
Theorem backside_mirrors_front :
  (forall w s, mirrored (exec (initFlipbook w) s)) /\
  (forall s,
     mirrored s ->
     mirrored (exec renderVisiblePages s) /\ mirrored (exec preRenderAllPages s)) /\
  (forall doc w s i,
     1 <= i <= numPages doc ->
     exists canvas back,
       sides i (exec (loadPdf (Some doc) w) s) = Some (Some canvas, back) /\
       if isDoublePageMode s then back = None
       else exists clone, back = Some (Some clone) /\ mirrors clone canvas).
Proof.
  split; [| split].
  - intros w s. apply initFlipbook_mirrored.
  - intros s Hm. split.
    + now apply (renderVisiblePages_mirroring s).
    + now apply (preRenderAllPages_mirroring s).
  - intros doc w s i Hi.
    destruct (loadPdf_stages doc w s) as (s1 & s2 & s3 & H1 & H2 & H3 & Hload & _).
    destruct (loadPdf_result doc w s) as (_ & _ & _ & _ & _ & _ & Hpages & _).
    destruct (Hpages i Hi) as [_ (el & canvas & Hel & Hc)].
    unfold exec in *. rewrite Hload in *. cbn [snd] in *.
    assert (Hd1 : isDoublePageMode s1 = isDoublePageMode s).
    { assert (Hk : keeps (sameOn isDoublePageMode) extractAllPageTexts)
        by (frame same_field).
      specialize (Hk (set_totalPages (numPages doc) (set_pdfDoc (Some doc) s))).
      now rewrite H1 in Hk. }
    destruct (initFlipbook_mirrored w s1) as [Hd2 Hm2].
    unfold exec in Hd2, Hm2. rewrite H2 in Hd2, Hm2. cbn [snd] in Hd2, Hm2.
    destruct (preRenderAllPages_mirroring s2) as [Hd3 Hm3].
    rewrite H3 in Hd3, Hm3. cbn [snd] in Hd3, Hm3.
    assert (Hsides : sides i s3 = Some (Some canvas, backside el)).
    { unfold sides. rewrite Hel. cbn. now rewrite Hc. }
    exists canvas, (backside el). split; [exact Hsides |].
    pose proof (Hm3 Hm2 i (Some canvas) (backside el) Hsides) as H.
    replace (isDoublePageMode s) with (isDoublePageMode s3) by congruence.
    exact H.
Qed.

Lemma backside_mirrors_front_witness :
  exists canvas back,
    sides 3 (exec (loadPdf (Some Fixtures.book) Fixtures.desktop)
               (set_isDoublePageMode false (initialState "")))
    = Some (Some canvas, back) /\
    exists clone, back = Some (Some clone) /\ mirrors clone canvas.
Proof.
  apply (proj2 (proj2 backside_mirrors_front) Fixtures.book Fixtures.desktop
           (set_isDoublePageMode false (initialState "")) 3).
  vm_compute. split; discriminate.
Defined.

End BacksideProps.

(** ** The highlights of a search *)

Module HighlightProps.

Import Viewer Controls TaskProps FrameProps LoadProps SearchProps TextLayerProps.

Lemma app_nil_r (a : string) : a +:+ "" = a.
Proof.
  induction a as [| c a IH]; [reflexivity |].
  change (String c (a +:+ "") = String c a). now rewrite IH.
Qed.

Lemma app_assoc (a b c : string) : (a +:+ b) +:+ c = a +:+ (b +:+ c).
Proof.
  induction a as [| x a IH]; [reflexivity |].
  change (String x ((a +:+ b) +:+ c) = String x (a +:+ (b +:+ c))).
  now rewrite IH.
Qed.

Lemma toLowerCase_app (a b : string) :
  Js.toLowerCase (a +:+ b) = Js.toLowerCase a +:+ Js.toLowerCase b.
Proof.
  induction a as [| x a IH]; [reflexivity |].
  change (String (Js.lowerChar x) (Js.toLowerCase (a +:+ b))
          = String (Js.lowerChar x) (Js.toLowerCase a +:+ Js.toLowerCase b)).
  now rewrite IH.
Qed.

(** An item of a joined list is a part of the whole. *)
Lemma join_holds_item (sep item : string) (items : list string) :
  In item items ->
  exists before after, Js.join sep items = before +:+ item +:+ after.
Proof.
  unfold Js.join. induction items as [| x items IH]; [intros [] |].
  intros [-> | Hin].
  - destruct items as [| y items].
    + exists "", "". cbn [String.concat]. now rewrite app_nil_r.
    + exists "", (sep +:+ String.concat sep (y :: items)). reflexivity.
  - destruct items as [| y items]; [destruct Hin |].
    destruct (IH Hin) as (before & after & Hjoin).
    exists (x +:+ sep +:+ before), after.
    change (String.concat sep (x :: y :: items))
      with (x +:+ sep +:+ String.concat sep (y :: items)).
    rewrite Hjoin, !app_assoc. reflexivity.
Qed.

Lemma occursIn_part (q part whole : string) :
  occursIn q part -> occursIn part whole -> occursIn q whole.
Proof.
  intros (b1 & a1 & ->) (b2 & a2 & ->).
  exists (b2 +:+ b1), (a1 +:+ a2). now rewrite !app_assoc.
Qed.

Lemma occursIn_lower (part whole : string) :
  occursIn part whole -> occursIn (Js.toLowerCase part) (Js.toLowerCase whole).
Proof.
  intros (b & a & ->). exists (Js.toLowerCase b), (Js.toLowerCase a).
  now rewrite !toLowerCase_app.
Qed.

(** In a book laid out, the element of a page is the one [findPage]
    finds. *)
Lemma findPage_unique (pages : list PageEl) (el : PageEl) :
  NoDup (pageNum <$> pages) -> el ∈ pages ->
  findPage (pageNum el) pages = Some el.
Proof.
  unfold findPage. induction pages as [| x pages IH]; intros Hnd Hel.
  - inversion Hel.
  - cbn [fmap list_fmap] in Hnd. apply NoDup_cons in Hnd as [Hx Hnd].
    cbn [List.find]. destruct (Z.eqb_spec (pageNum x) (pageNum el)) as [Heq | Hne].
    + apply elem_of_cons in Hel as [-> | Hel]; [reflexivity |].
      destruct Hx. rewrite Heq. apply list_elem_of_fmap. now exists el.
    + apply elem_of_cons in Hel as [-> | Hel]; [congruence |].
      now apply IH.
Qed.

Lemma handleSearch_flipbook (input : string) (s : State) :
  flipbook (handleSearch input s) = flipbook s.
Proof. SessionProps.plain. Qed.

(** X24: every highlighted span lies on a page that the search found.
    After a load that the decoder accepts and a search for a query that
    is not blank, a span that [highlightSearchMatches] marks for the
    normalised query belongs to the text layer of a page of the document
    that is in the result list: what is highlighted is never on a page
    the search passes over. *)
Theorem highlights_lie_on_found_pages
    (doc : PdfDoc) (w : Surroundings) (s : State) (input : string)
    (p : Z) (spans : list string) (span : string) :
  let query := Js.trim (Js.toLowerCase input) in
  let s' := handleSearch input (exec (loadPdf (Some doc) w) s) in
  query <> "" ->
  (p, spans) ∈ highlightSearchMatches query s' -> In span spans ->
  1 <= p <= numPages doc /\
  p ∈ searchResults s' /\
  (exists items, itemsOf doc p = Some items /\ In span items) /\
  occursIn query (Js.toLowerCase span).
Proof.
  intros query s' Hq Hp Hspan.
  set (s0 := exec (loadPdf (Some doc) w) s) in *.
  destruct (loadPdf_result doc w s)
    as (_ & _ & _ & Htotal & Hbook & _ & Hpages & _).
  fold s0 in Htotal, Hbook, Hpages.
  unfold highlightSearchMatches in Hp. apply String.eqb_neq in Hq as Hq'.
  rewrite Hq' in Hp. unfold s' in Hp. rewrite handleSearch_flipbook in Hp.
  apply list_elem_of_fmap in Hp as (el & [= -> ->] & Hel).
  apply filter_In in Hspan as [Hin Hmatch].
  assert (Hnum : 1 <= pageNum el <= numPages doc).
  { rewrite <- Htotal. apply elem_of_seqZ_1. rewrite <- Hbook.
    apply list_elem_of_fmap. now exists el. }
  assert (Hfind : findPage (pageNum el) (flipbook s0) = Some el).
  { apply findPage_unique; [| exact Hel]. rewrite Hbook. apply NoDup_seqZ. }
  destruct (proj1 text_layer_facts doc w s (pageNum el) Hnum) as [canvas Hshown].
  fold s0 in Hshown. unfold shown in Hshown. rewrite Hfind in Hshown.
  cbn in Hshown. injection Hshown as _ Hlayer.
  destruct (itemsOf doc (pageNum el)) as [items |] eqn:Hitems;
    rewrite Hlayer in Hin; [| destruct Hin].
  cbn in Hin.
  apply includes_spec in Hmatch.
  split; [exact Hnum |]. split; [| split; [now exists items | exact Hmatch]].
  unfold s'. rewrite (handleSearch_results input s0 Hq). fold query.
  apply list_elem_of_filter. split; [| apply elem_of_seqZ_1; lia].
  apply includes_spec.
  destruct (Hpages (pageNum el) Hnum) as [Htext _]. rewrite Htext. cbn.
  unfold itemsOf in Hitems. unfold pageText.
  destruct (getPage doc (pageNum el)) as [page |]; [| discriminate].
  rewrite Hitems. cbn.
  apply (occursIn_part _ (Js.toLowerCase span)); [exact Hmatch |].
  apply occursIn_lower. destruct (join_holds_item " " span items Hin)
    as (before & after & Hjoin).
  now exists before, after.
Qed.

Lemma highlights_lie_on_found_pages_witness :
  7 ∈ searchResults
        (handleSearch "needle"
           (exec (loadPdf (Some Fixtures.book) Fixtures.desktop)
              (initialState ""))).
Proof.
  refine (proj1 (proj2 (highlights_lie_on_found_pages Fixtures.book
                          Fixtures.desktop (initialState "") "needle"
                          7 ["Needle"] "Needle" _ _ _))).
  - vm_compute. discriminate.
  - apply list_elem_of_lookup_2 with (i := 6%nat). vm_compute. reflexivity.
  - left. reflexivity.
Defined.

End HighlightProps.
